(** * HustleX client: the schedule store hook and the skill form

    A shallow embedding of [client/src/hooks/useSchedules.js] and of the
    [handleChange] handler of [client/src/components/Skills/AddSkillModal.jsx],
    with the properties the specification states about them.

    Conventions of the embedding.
    - JSON records are Rocq records whose fields are [option]s: [None] is an
      absent ([undefined]) property.
    - JavaScript numbers that count things are [nat]. The two derived
      quantities (completion rate, hours) are [Number]s computed with the
      operations of an [Arithmetic], in the order of the source; the
      binary64 arithmetic of JavaScript is one instance ([binary64]), the
      arithmetic that rounds nothing another ([exact]).
    - The [Date] object of the JavaScript runtime is an interface
      ([DateRuntime]); a UTC instance is given for evaluation.
    - An [async] callback is a state-and-exception computation over the
      React state of the hook and the log of requests sent to the backend;
      the values a callback closes over are passed as a [Render] snapshot. *)

From Stdlib Require Import ZArith QArith Qround Qabs List String Ascii Bool.
From Stdlib Require Import Lia Lqa SpecFloat.
From Stdlib Require Import DecimalString.
From stdpp Require Import gmap strings.
Import ListNotations.

Local Open Scope string_scope.
Local Open Scope list_scope.

(** ** JavaScript values used by the hook *)

(** Truthiness of a string-valued property that may be absent:
    [undefined] and the empty string are falsy. *)
Definition truthy (v : option string) : bool :=
  match v with
  | Some s => negb (String.eqb s "")
  | None => false
  end.

(** [v === k] for a string literal [k]. *)
Definition strictEq (v : option string) (k : string) : bool :=
  match v with
  | Some s => String.eqb s k
  | None => false
  end.

(** [a === b] on two properties that hold a string or are absent
    ([undefined === undefined] is true). *)
Definition sameId (a b : option string) : bool :=
  match a, b with
  | Some x, Some y => String.eqb x y
  | None, None => true
  | _, _ => false
  end.

(** A JavaScript number: [NaN], an infinity, or a finite value, given by
    the rational it denotes (every finite double is one). The two zeros
    are not told apart: their sign shows only in a division by a computed
    zero, and the hook has none. *)
Inductive Number :=
| NaN
| Infinity (negative : bool)
| Num (q : Q).

(** The arithmetic of the runtime: what the exact result of an operation
    on finite numbers becomes. IEEE 754 defines every operation as the
    exact result, rounded to the format. *)
Class Arithmetic := {
  rounded : Q -> Number
}.

Definition isNegative (q : Q) : bool := (Qnum q <? 0)%Z.

Section Numbers.
Context {ar : Arithmetic}.

(** An integer as a number. *)
Definition ofZ (z : Z) : Number := rounded (inject_Z z).

Definition ofNat (n : nat) : Number := ofZ (Z.of_nat n).

(** [a + b] *)
Definition numAdd (a b : Number) : Number :=
  match a, b with
  | Num x, Num y => rounded (x + y)%Q
  | Infinity s, Infinity s' => if Bool.eqb s s' then Infinity s else NaN
  | Infinity s, Num _ => Infinity s
  | Num _, Infinity s => Infinity s
  | _, _ => NaN
  end.

(** [a * b] *)
Definition numMul (a b : Number) : Number :=
  match a, b with
  | Num x, Num y => rounded (x * y)%Q
  | Infinity s, Infinity s' => Infinity (xorb s s')
  | Infinity s, Num y =>
      if Qeq_bool y 0 then NaN else Infinity (xorb s (isNegative y))
  | Num x, Infinity s =>
      if Qeq_bool x 0 then NaN else Infinity (xorb (isNegative x) s)
  | _, _ => NaN
  end.

(** [a / b] *)
Definition numDiv (a b : Number) : Number :=
  match a, b with
  | Num x, Num y =>
      if Qeq_bool y 0
      then (if Qeq_bool x 0 then NaN else Infinity (isNegative x))
      else rounded (x / y)%Q
  | Infinity s, Num y => Infinity (xorb s (isNegative y))
  | Num _, Infinity _ => Num 0
  | _, _ => NaN
  end.

End Numbers.

(** The arithmetic that rounds nothing: the idealisation in which the
    formulas of the specification are equations between rationals. *)
Definition exact : Arithmetic := {| rounded := Num |}.

(** The binary64 format of IEEE 754, the arithmetic of JavaScript. *)
Module Binary64.
Local Open Scope Q_scope.

(** [2 ^ e] *)
Definition pow2 (e : Z) : Q :=
  if (0 <=? e)%Z then inject_Z (2 ^ e) else 1 # Z.to_pos (2 ^ (- e)).

(** The binade of a positive rational: the greatest [e] such that
    [2 ^ e <= q]. *)
Definition binade (q : Q) : Z :=
  let e := (Z.log2 (Qnum q) - Z.log2 (Zpos (Qden q)))%Z in
  if Qle_bool (pow2 e) q then e else (e - 1)%Z.

(** The nearest integer, a tie going to the even one. *)
Definition nearestEven (q : Q) : Z :=
  let below := Qfloor q in
  match Qcompare (q - inject_Z below) (1 # 2) with
  | Lt => below
  | Gt => (below + 1)%Z
  | Eq => if Z.even below then below else (below + 1)%Z
  end.

(** Rounding to nearest, ties to even: 53 bits of precision, exponents
    from -1022, below which the spacing stays [2 ^ -1074], to 1023, above
    which the result is an infinity. *)
Definition round (q : Q) : Number :=
  if Qeq_bool q 0 then Num 0
  else
    let a := Qabs q in
    let ulp := pow2 (Z.max (binade a) (-1022) - 52) in
    let r := inject_Z (nearestEven (a / ulp)) * ulp in
    if Qle_bool (pow2 1024) r then Infinity (isNegative q)
    else Num (Qred (if isNegative q then - r else r)).

(** A value of the Standard Library's specification of binary64, as a
    number. *)
Definition ofSpec (f : spec_float) : Number :=
  match f with
  | S754_zero _ => Num 0
  | S754_infinity s => Infinity s
  | S754_nan => NaN
  | S754_finite s m e =>
      Num (Qred ((if s then - inject_Z (Zpos m) else inject_Z (Zpos m))
                 * pow2 e))
  end.

(** An integer in that specification. *)
Definition specOfZ (z : Z) : spec_float := binary_normalize 53 1024 z 0 false.

End Binary64.

Definition binary64 : Arithmetic := {| rounded := Binary64.round |}.

(** Equality of numbers up to the representation of a rational
    ([NaN] is identified with itself here: this is equality of the model's
    values, not JavaScript's [===]). *)
Definition numEq (a b : Number) : Prop :=
  match a, b with
  | NaN, NaN => True
  | Infinity s, Infinity s' => s = s'
  | Num x, Num y => (x == y)%Q
  | _, _ => False
  end.

(** The same as a test. *)
Definition numEqb (a b : Number) : bool :=
  match a, b with
  | NaN, NaN => true
  | Infinity s, Infinity s' => Bool.eqb s s'
  | Num x, Num y => Qeq_bool x y
  | _, _ => false
  end.

(** ** Data model *)

Record Item := {
  item_id : option string;          (* _id *)
  category : option string;
  priority : option string;
  startTime : option string;
  endTime : option string;
  completed : option bool;
  itemRest : list (string * string) (* every other own property *)
}.

Record Schedule := {
  sched_id : option string;         (* _id *)
  date : option string;
  dayType : option string;
  status : option string;
  items : option (list Item)
}.

(** The object literal [{}]. *)
Definition emptyObject : Schedule :=
  {| sched_id := None; date := None; dayType := None; status := None;
     items := None |}.

(** What [calculateStats] may be handed: [Array.isArray] or not. *)
Inductive ScheduleData :=
| notAnArray
| arrayOf (l : list Schedule).

Module Stats.
Record t := {
  todayItems : nat;
  completionRate : Number;
  totalHours : Number;
  highPriorityTasks : nat;
  weeklyTrend : nat;
  completionTrend : nat;
  hoursChange : nat;
  priorityChange : nat;
  totalTasks : nat;
  currentStreak : nat;
  topCategory : string;
  categoryCount : nat
}.
End Stats.

Definition defaultStats : Stats.t :=
  {| Stats.todayItems := 0;
     Stats.completionRate := Num 0;
     Stats.totalHours := Num 0;
     Stats.highPriorityTasks := 0;
     Stats.weeklyTrend := 0;
     Stats.completionTrend := 0;
     Stats.hoursChange := 0;
     Stats.priorityChange := 0;
     Stats.totalTasks := 0;
     Stats.currentStreak := 0;
     Stats.topCategory := "";
     Stats.categoryCount := 0 |}.

(** ** The [Date] object *)

Inductive Weekday :=
| Sunday | Monday | Tuesday | Wednesday | Thursday | Friday | Saturday.

(** The number [getDay()] returns. *)
Definition dayIndex (d : Weekday) : Z :=
  match d with
  | Sunday => 0 | Monday => 1 | Tuesday => 2 | Wednesday => 3
  | Thursday => 4 | Friday => 5 | Saturday => 6
  end%Z.

(** What the hook uses of [Date]. Time values are milliseconds since the
    epoch; an Invalid Date has no time value. *)
Class DateRuntime := {
  (** [new Date(s)]: [None] is an Invalid Date *)
  parseDate : string -> option Z;
  (** [toISOString()] of a valid date *)
  toISOString : Z -> string;
  (** [setHours(0, 0, 0, 0)]: midnight of the same local day *)
  setHoursZero : Z -> Z;
  (** [getDay()]: the local day of the week *)
  getDay : Z -> Weekday;
  (** [new Date()]: the wall clock *)
  now : Z
}.

(** [s.split("T")[0]] *)
Fixpoint beforeT (s : string) : string :=
  match s with
  | EmptyString => EmptyString
  | String c rest =>
      if Ascii.eqb c "T" then EmptyString else String c (beforeT rest)
  end.

Section Dates.
Context {rt : DateRuntime}.

(** [new Date(v)] for a property [v]; [new Date(undefined)] is invalid. *)
Definition newDate (v : option string) : option Z :=
  match v with
  | Some s => parseDate s
  | None => None
  end.

(** [new Date(v).toISOString().split("T")[0]]; [None] when
    [toISOString] throws a [RangeError] (Invalid Date). *)
Definition isoDay (v : option string) : option string :=
  match newDate v with
  | Some t => Some (beforeT (toISOString t))
  | None => None
  end.

(** [new Date().toISOString().split("T")[0]] *)
Definition today : string := beforeT (toISOString now).
End Dates.

(** ** Statistics: the body of [calculateStats] *)

Section Statistics.
Context {rt : DateRuntime} {ar : Arithmetic}.

(** [Array.prototype.filter] with a callback that may throw: [None] when
    some call of the callback throws. *)
Fixpoint filterThrowing {A} (p : A -> option bool) (l : list A)
  : option (list A) :=
  match l with
  | [] => Some []
  | x :: rest =>
      match p x with
      | None => None
      | Some b =>
          match filterThrowing p rest with
          | None => None
          | Some kept => Some (if b then x :: kept else kept)
          end
      end
  end.

(** [s.date && new Date(s.date).toISOString().split("T")[0] === today] *)
Definition isToday (s : Schedule) : option bool :=
  if truthy (date s) then
    match isoDay (date s) with
    | Some d => Some (String.eqb d today)
    | None => None
    end
  else Some false.

Definition todaySchedules (scheduleData : list Schedule)
  : option (list Schedule) :=
  filterThrowing isToday scheduleData.

(** [s.items ? s.items.length : 0] *)
Definition itemCount (s : Schedule) : nat :=
  match items s with
  | Some l => length l
  | None => 0
  end.

Definition todayItems (scheduleData : list Schedule) : option nat :=
  match todaySchedules scheduleData with
  | Some ts => Some (fold_left (fun acc s => acc + itemCount s) ts 0)
  | None => None
  end.

Definition totalItems (scheduleData : list Schedule) : nat :=
  fold_left (fun acc s => acc + itemCount s) scheduleData 0.

(** [item.completed] as a condition *)
Definition isCompleted (item : Item) : bool :=
  match completed item with
  | Some b => b
  | None => false
  end.

Definition completedItems (scheduleData : list Schedule) : nat :=
  fold_left
    (fun acc s =>
       acc + match items s with
             | Some l => length (List.filter isCompleted l)
             | None => 0
             end)
    scheduleData 0.

(** [totalItems > 0 ? (completedItems / totalItems) * 100 : 0] *)
Definition completionRate (scheduleData : list Schedule) : Number :=
  if (0 <? totalItems scheduleData)%nat
  then numMul (numDiv (ofNat (completedItems scheduleData))
                      (ofNat (totalItems scheduleData)))
              (Num 100)
  else Num 0.

(** A template literal interpolating a property. *)
Definition interpolate (v : option string) : string :=
  match v with
  | Some s => s
  | None => "undefined"
  end.

(** [new Date(`2000-01-01T${v}`)] *)
Definition clockTime (v : option string) : option Z :=
  parseDate (String.append "2000-01-01T" (interpolate v)).

(** [end - start] on two [Date]s: [NaN] when either is invalid. The time
    values of two valid dates are integers that a number holds exactly,
    so that their difference is the exact one, rounded. *)
Definition dateDiff (e s : option Z) : Number :=
  match e, s with
  | Some te, Some ts => ofZ (te - ts)
  | _, _ => NaN
  end.

(** [1000 * 60 * 60] *)
Definition msPerHour : Number := numMul (numMul (Num 1000) (Num 60)) (Num 60).

(** The inner reducer of [totalHours]. *)
Definition addItemHours (itemAcc : Number) (item : Item) : Number :=
  if negb (truthy (startTime item)) || negb (truthy (endTime item))
  then itemAcc
  else
    let start := clockTime (startTime item) in
    let end_ := clockTime (endTime item) in
    numAdd itemAcc (numDiv (dateDiff end_ start) msPerHour).

Definition totalHours (scheduleData : list Schedule) : Number :=
  fold_left
    (fun acc schedule =>
       match items schedule with
       | None => acc
       | Some l => numAdd acc (fold_left addItemHours l (Num 0))
       end)
    scheduleData (Num 0).

Definition isHigh (item : Item) : bool := strictEq (priority item) "High".

Definition highPriorityTasks (scheduleData : list Schedule) : nat :=
  fold_left
    (fun acc s =>
       acc + match items s with
             | Some l => length (List.filter isHigh l)
             | None => 0
             end)
    scheduleData 0.

(** What a property of the [categories] object holds: a count or, for a
    label that names a property the object inherits, a string. *)
Inductive Tally :=
| Count (n : nat)
| Text.

(** The properties every object inherits from [Object.prototype] as
    functions; the accessor [__proto__] is the twelfth. *)
Definition inheritedFunctions : list string :=
  ["constructor"; "hasOwnProperty"; "isPrototypeOf"; "propertyIsEnumerable";
   "toLocaleString"; "toString"; "valueOf"; "__defineGetter__";
   "__defineSetter__"; "__lookupGetter__"; "__lookupSetter__"].

Definition isInheritedFunction (k : string) : bool :=
  existsb (String.eqb k) inheritedFunctions.

(** A label that names any of the twelve. *)
Definition isInherited (k : string) : bool :=
  String.eqb k "__proto__" || isInheritedFunction k.

(** The own property [k] of the object, given as its own properties in
    insertion order. *)
Definition own {V} (cats : list (string * V)) (k : string) : option V :=
  match List.find (fun kv => String.eqb (fst kv) k) cats with
  | Some kv => Some (snd kv)
  | None => None
  end.

(** [(categories[k] || 0) + 1] for [k] other than [__proto__]. An own
    count is incremented; an own string gets a ["1"] appended; without an
    own property the value read is the inherited function, which [+] turns
    into a string, or [undefined]. *)
Definition incremented (current : option Tally) (k : string) : Tally :=
  match current with
  | Some (Count n) => Count (n + 1)
  | Some Text => Text
  | None => if isInheritedFunction k then Text else Count 1
  end.

(** [categories[k] = v] for [k] other than [__proto__]: the own property is
    updated in place, or created last. *)
Fixpoint assign {V} (cats : list (string * V)) (k : string) (v : V)
  : list (string * V) :=
  match cats with
  | [] => [(k, v)]
  | (k', v') :: rest =>
      if String.eqb k' k then (k', v) :: rest
      else (k', v') :: assign rest k v
  end.

(** [categories[k] = (categories[k] || 0) + 1] on the object literal [{}].
    For [__proto__] the value read is [Object.prototype] and the value
    assigned a string, which the inherited setter ignores: no property is
    created. *)
Definition bump (cats : list (string * Tally)) (k : string)
  : list (string * Tally) :=
  if String.eqb k "__proto__" then cats
  else assign cats k (incremented (own cats k) k).

Definition countItem (cats : list (string * Tally)) (item : Item)
  : list (string * Tally) :=
  if negb (truthy (category item)) then cats
  else bump cats (interpolate (category item)).

Definition categories (scheduleData : list Schedule)
  : list (string * Tally) :=
  fold_left
    (fun cats schedule =>
       match items schedule with
       | None => cats
       | Some l => fold_left countItem l cats
       end)
    scheduleData [].

(** [Object.entries] lists the keys that are array indices first, in
    ascending numeric order, then the other keys in insertion order. *)
Definition isDigit (c : ascii) : bool :=
  (48 <=? nat_of_ascii c)%nat && (nat_of_ascii c <=? 57)%nat.

Definition digitOf (c : ascii) : N := N.of_nat (nat_of_ascii c - 48).

(** The number written by a string of decimal digits, after [acc]. *)
Fixpoint decimal (s : string) (acc : N) : option N :=
  match s with
  | EmptyString => Some acc
  | String c rest =>
      if isDigit c then decimal rest (acc * 10 + digitOf c)%N else None
  end.

(** A canonical numeric string below 2^32 - 1. *)
Definition arrayIndex (k : string) : option N :=
  match k with
  | EmptyString => None
  | String c rest =>
      if Ascii.eqb c "0" && negb (String.eqb rest "") then None
      else
        match decimal k 0 with
        | Some n => if (n <? 4294967295)%N then Some n else None
        | None => None
        end
  end.

(** Stable insertion sort; [before y x] says that [y] must come strictly
    before [x]. ([Array.prototype.sort] is stable.) *)
Fixpoint insertSorted {A} (before : A -> A -> bool) (x : A) (l : list A)
  : list A :=
  match l with
  | [] => [x]
  | y :: rest =>
      if before y x then y :: insertSorted before x rest
      else x :: y :: rest
  end.

Definition stableSort {A} (before : A -> A -> bool) (l : list A) : list A :=
  fold_right (insertSorted before) [] l.

Definition indexOr0 {V} (kv : string * V) : N :=
  match arrayIndex (fst kv) with
  | Some n => n
  | None => 0
  end.

Definition isIndexKey {V} (kv : string * V) : bool :=
  match arrayIndex (fst kv) with
  | Some _ => true
  | None => false
  end.

Definition entries {V} (cats : list (string * V)) : list (string * V) :=
  stableSort (fun a b => (indexOr0 a <? indexOr0 b)%N)
             (List.filter isIndexKey cats)
  ++ List.filter (fun kv => negb (isIndexKey kv)) cats.

(** [b[1] - a[1] < 0]: the entry [a] must come before [b]. The difference
    with a string is [NaN], which the sort takes for 0. *)
Definition greater (a b : string * Tally) : bool :=
  match snd a, snd b with
  | Count n, Count m => (m <? n)%nat
  | _, _ => false
  end.

(** [Object.entries(categories).sort((a, b) => b[1] - a[1])[0]?.[0] || ""].
    When some value is a string the comparator is not a consistent order
    and ECMAScript leaves the order of the result to the engine; the sort
    below is then one of the possible results. *)
Definition topCategory (scheduleData : list Schedule) : string :=
  match
    stableSort greater (entries (categories scheduleData))
  with
  | [] => ""
  | (k, _) :: _ => if truthy (Some k) then k else ""
  end.

(** [Object.keys(categories).length] *)
Definition categoryCount (scheduleData : list Schedule) : nat :=
  length (categories scheduleData).

(** The object handed to [setStats] for a non-empty array, or [None] when
    the computation throws (the [RangeError] of [toISOString] on an
    Invalid Date, in the filter for today's schedules). *)
Definition statsOf (scheduleData : list Schedule) : option Stats.t :=
  match todayItems scheduleData with
  | None => None
  | Some n =>
      Some {| Stats.todayItems := n;
              Stats.completionRate := completionRate scheduleData;
              Stats.totalHours := totalHours scheduleData;
              Stats.highPriorityTasks := highPriorityTasks scheduleData;
              Stats.weeklyTrend := 0;
              Stats.completionTrend := 0;
              Stats.hoursChange := 0;
              Stats.priorityChange := 0;
              Stats.totalTasks := totalItems scheduleData;
              Stats.currentStreak := 0;
              Stats.topCategory := topCategory scheduleData;
              Stats.categoryCount := categoryCount scheduleData |}
  end.

(** The value [calculateStats] hands to [setStats], for any argument:
    the defaults when the argument is not an array or is empty. *)
Definition statsFor (scheduleData : ScheduleData) : option Stats.t :=
  match scheduleData with
  | notAnArray => Some defaultStats
  | arrayOf [] => Some defaultStats
  | arrayOf l => statsOf l
  end.

End Statistics.

(** ** The backend and the React state of the hook *)

Record Category := { name : string }.

(** What [apiClient.get("/categories?type=schedule")] may resolve to. *)
Inductive CategoryResponse :=
| bareArray (cats : list Category)
    (* the response is itself an array *)
| envelope (data : option (list Category)) (cats : option (list string))
    (* an object; [data] and [categories] are [None] unless they are arrays *)
| noResponse.
    (* a falsy response *)

(** The [params] object of the list query. *)
Record Params := {
  p_startDate : option string;
  p_endDate : option string;
  p_status : option string
}.

(** The requests the hook sends, indexed by what [response.data] holds
    when the request succeeds (the whole response for the categories).
    [None] is an absent body. The item endpoints answer with the updated
    parent schedule: [copyScheduleItem] stores [updatedSchedule.data] as it
    is, so an absent body there is outside the data model (it would put
    [undefined] into the array of schedules). *)
Inductive Request : Type -> Type :=
| GET_schedules (params : Params) : Request (option (list Schedule))
| POST_schedules (body : Schedule) : Request (option Schedule)
| PUT_schedule (id : string) (body : Schedule) : Request (option Schedule)
| DELETE_schedule (id : string) : Request unit
| POST_item (scheduleId : string) (body : Item) : Request Schedule
| PUT_item (scheduleId itemId : string) (body : Item) : Request Schedule
| DELETE_item (scheduleId itemId : string) : Request Schedule
| GET_categories : Request CategoryResponse.

Inductive Call :=
| Sent {A : Type} (r : Request A).

Inductive Reply (A : Type) :=
| Resolves (a : A)
| Rejects (message : option string).
Arguments Resolves {A} a.
Arguments Rejects {A} message.

(** A backend answers a request knowing the requests sent before it. *)
Definition Server : Type := forall A : Type, list Call -> Request A -> Reply A.

Module Store.
Record t := {
  schedules : list Schedule;
  loading : bool;
  error : option string;
  stats : Stats.t;
  categories : list string;
  isFetchingCategories : bool
}.
End Store.

(** The store with its cache emptied. *)
Definition emptied (s : Store.t) : Store.t :=
  {| Store.schedules := [];
     Store.loading := Store.loading s;
     Store.error := Store.error s;
     Store.stats := Store.stats s;
     Store.categories := Store.categories s;
     Store.isFetchingCategories := Store.isFetchingCategories s |}.

(** [useState] initial values. *)
Definition initialStore : Store.t :=
  {| Store.schedules := [];
     Store.loading := true;
     Store.error := None;
     Store.stats := defaultStats;
     Store.categories := [];
     Store.isFetchingCategories := false |}.

(** The values the callbacks of one render close over. *)
Module Render.
Record t := {
  isAuthenticated : bool;
  schedules : list Schedule;
  categories : list string;
  isFetchingCategories : bool
}.
End Render.

Definition render (isAuthenticated : bool) (s : Store.t) : Render.t :=
  {| Render.isAuthenticated := isAuthenticated;
     Render.schedules := Store.schedules s;
     Render.categories := Store.categories s;
     Render.isFetchingCategories := Store.isFetchingCategories s |}.

Record World := {
  store : Store.t;
  sent : list Call;
  server : Server
}.

(** ** Computations: state, requests, exceptions *)

Inductive Exn :=
| Error (message : string)         (* [throw new Error(message)] *)
| RangeError                       (* [toISOString] on an Invalid Date *)
| TypeError                        (* [.map] read on an absent [items] *)
| Rejected (message : option string). (* a request that failed *)

Inductive Outcome (A : Type) :=
| Returned (a : A)
| Threw (e : Exn).
Arguments Returned {A} a.
Arguments Threw {A} e.

Definition M (A : Type) : Type := World -> Outcome A * World.

#[global] Instance M_ret : MRet M := fun A a w => (Returned a, w).

#[global] Instance M_bind : MBind M := fun A B f m w =>
  match m w with
  | (Returned a, w') => f a w'
  | (Threw e, w') => (Threw e, w')
  end.

Definition throw {A} (e : Exn) : M A := fun w => (Threw e, w).

(** [try { body } catch (err) { handler err }] *)
Definition try_catch {A} (body : M A) (handler : Exn -> M A) : M A :=
  fun w =>
    match body w with
    | (Returned a, w') => (Returned a, w')
    | (Threw e, w') => handler e w'
    end.

(** [try { body } finally { cleanup }] *)
Definition try_finally {A} (body : M A) (cleanup : M unit) : M A :=
  fun w =>
    match body w with
    | (o, w') =>
        match cleanup w' with
        | (Returned _, w'') => (o, w'')
        | (Threw e, w'') => (Threw e, w'')
        end
    end.

(** [await apiClient.<method>(...)]: the request is logged and the backend
    answers it. *)
Definition request {A} (r : Request A) : M A :=
  fun w =>
    let w' := {| store := store w; sent := sent w ++ [Sent r];
                 server := server w |} in
    match server w A (sent w) r with
    | Resolves a => (Returned a, w')
    | Rejects message => (Threw (Rejected message), w')
    end.

Definition modify (f : Store.t -> Store.t) : M unit :=
  fun w =>
    (Returned tt,
     {| store := f (store w); sent := sent w; server := server w |}).

(** [setSchedules(prev => f(prev))]; [setSchedules(v)] is the constant
    update. *)
Definition setSchedules (f : list Schedule -> list Schedule) : M unit :=
  modify (fun s =>
    {| Store.schedules := f (Store.schedules s);
       Store.loading := Store.loading s;
       Store.error := Store.error s;
       Store.stats := Store.stats s;
       Store.categories := Store.categories s;
       Store.isFetchingCategories := Store.isFetchingCategories s |}).

Definition setLoading (b : bool) : M unit :=
  modify (fun s =>
    {| Store.schedules := Store.schedules s;
       Store.loading := b;
       Store.error := Store.error s;
       Store.stats := Store.stats s;
       Store.categories := Store.categories s;
       Store.isFetchingCategories := Store.isFetchingCategories s |}).

Definition setError (e : option string) : M unit :=
  modify (fun s =>
    {| Store.schedules := Store.schedules s;
       Store.loading := Store.loading s;
       Store.error := e;
       Store.stats := Store.stats s;
       Store.categories := Store.categories s;
       Store.isFetchingCategories := Store.isFetchingCategories s |}).

Definition setStats (v : Stats.t) : M unit :=
  modify (fun s =>
    {| Store.schedules := Store.schedules s;
       Store.loading := Store.loading s;
       Store.error := Store.error s;
       Store.stats := v;
       Store.categories := Store.categories s;
       Store.isFetchingCategories := Store.isFetchingCategories s |}).

Definition setCategories (v : list string) : M unit :=
  modify (fun s =>
    {| Store.schedules := Store.schedules s;
       Store.loading := Store.loading s;
       Store.error := Store.error s;
       Store.stats := Store.stats s;
       Store.categories := v;
       Store.isFetchingCategories := Store.isFetchingCategories s |}).

Definition setIsFetchingCategories (b : bool) : M unit :=
  modify (fun s =>
    {| Store.schedules := Store.schedules s;
       Store.loading := Store.loading s;
       Store.error := Store.error s;
       Store.stats := Store.stats s;
       Store.categories := Store.categories s;
       Store.isFetchingCategories := b |}).

(** [err.message], where there is one. The text of a runtime error is the
    engine's (V8's is used). *)
Definition messageOf (e : Exn) : option string :=
  match e with
  | Error message => Some message
  | RangeError => Some "Invalid time value"
  | TypeError => Some "Cannot read properties of undefined (reading 'map')"
  | Rejected message => message
  end.

(** [a || b] on strings. *)
Definition orElse (a : option string) (b : string) : string :=
  if truthy a then interpolate a else b.

(** [response.data || {}] *)
Definition orEmptyObject (data : option Schedule) : Schedule :=
  match data with
  | Some s => s
  | None => emptyObject
  end.

(** ** The callbacks of [useSchedules] *)

Section Hook.
Context {rt : DateRuntime} {ar : Arithmetic}.

(** [new Date(v).toISOString()] *)
Definition isoString (v : option Z) : M string :=
  match v with
  | Some t => mret (toISOString t)
  | None => throw RangeError
  end.

Definition calculateStats (scheduleData : ScheduleData) : M unit :=
  match statsFor scheduleData with
  | Some v => setStats v
  | None => throw RangeError
  end.

(** [if (v) params.k = v] *)
Definition ifTruthy (v : option string) : option string :=
  if truthy v then v else None.

Definition fetchSchedules (r : Render.t)
    (startDate endDate status : option string)
  : M (option (list Schedule)) :=
  if negb (Render.isAuthenticated r) then mret None
  else
    try_finally
      (try_catch
         (setLoading true;;
          setError None;;
          let params := {| p_startDate := ifTruthy startDate;
                           p_endDate := ifTruthy endDate;
                           p_status := ifTruthy status |} in
          data ← request (GET_schedules params);
          let fetchedSchedules :=
            match data with Some l => l | None => [] end in
          setSchedules (fun _ => fetchedSchedules);;
          calculateStats (arrayOf fetchedSchedules);;
          mret (Some fetchedSchedules))
         (fun err =>
            setError (Some (orElse (messageOf err)
                                   "Failed to fetch schedules"));;
            setSchedules (fun _ => []);;
            setStats defaultStats;;
            mret None))
      (setLoading false).

(** [{ ...scheduleData, date: d }] *)
Definition withDate (s : Schedule) (d : string) : Schedule :=
  {| sched_id := sched_id s; date := Some d; dayType := dayType s;
     status := status s; items := items s |}.

(** [!scheduleData.items || scheduleData.items.length === 0] *)
Definition noItems (s : Schedule) : bool :=
  match items s with
  | Some l => (length l =? 0)%nat
  | None => true
  end.

Definition createSchedule (r : Render.t) (scheduleData : Schedule)
  : M (option Schedule) :=
  if negb (Render.isAuthenticated r) then mret None
  else
    try_catch
      (if negb (truthy (date scheduleData))
       then throw (Error "Date is required")
       else if noItems scheduleData
       then throw (Error "At least one schedule item is required")
       else
         iso ← isoString (newDate (date scheduleData));
         let formattedData := withDate scheduleData iso in
         data ← request (POST_schedules formattedData);
         let newSchedule := orEmptyObject data in
         setSchedules (fun prev => prev ++ [newSchedule]);;
         calculateStats (arrayOf (Render.schedules r ++ [newSchedule]));;
         mret (Some newSchedule))
      (fun err => throw err).

(** [l.map(schedule => schedule._id === id ? updated : schedule)] *)
Definition replaceById (id : option string) (updated : Schedule)
    (l : list Schedule) : list Schedule :=
  map (fun schedule =>
         if sameId (sched_id schedule) id then updated else schedule) l.

(** [l.filter(schedule => schedule._id !== id)] *)
Definition removeById (id : option string) (l : list Schedule)
  : list Schedule :=
  List.filter (fun schedule => negb (sameId (sched_id schedule) id)) l.

Definition updateSchedule (r : Render.t) (id : string) (updates : Schedule)
  : M (option Schedule) :=
  if negb (Render.isAuthenticated r) then mret None
  else
    try_catch
      (if negb (truthy (Some id))
       then throw (Error "Schedule ID is required")
       else
         updates' ← (if truthy (date updates)
                     then iso ← isoString (newDate (date updates));
                          mret (withDate updates iso)
                     else mret updates);
         data ← request (PUT_schedule id updates');
         let updatedSchedule := orEmptyObject data in
         setSchedules (replaceById (Some id) updatedSchedule);;
         calculateStats
           (arrayOf (replaceById (Some id) updatedSchedule
                                 (Render.schedules r)));;
         mret (Some updatedSchedule))
      (fun err => throw err).

Definition deleteSchedule (r : Render.t) (id : string) : M unit :=
  if negb (Render.isAuthenticated r) then mret tt
  else
    try_catch
      (if negb (truthy (Some id))
       then throw (Error "Schedule ID is required")
       else
         request (DELETE_schedule id);;
         let updatedSchedules := removeById (Some id) (Render.schedules r) in
         setSchedules (fun _ => updatedSchedules);;
         calculateStats (arrayOf updatedSchedules))
      (fun err => throw err).

Definition addScheduleItem (r : Render.t) (scheduleId : string)
    (itemData : Item) : M (option Schedule) :=
  if negb (Render.isAuthenticated r) then mret None
  else
    try_catch
      (if negb (truthy (Some scheduleId))
       then throw (Error "Schedule ID is required")
       else
         updatedSchedule ← request (POST_item scheduleId itemData);
         setSchedules (replaceById (Some scheduleId) updatedSchedule);;
         calculateStats
           (arrayOf (replaceById (Some scheduleId) updatedSchedule
                                 (Render.schedules r)));;
         mret (Some updatedSchedule))
      (fun err => throw err).

Definition updateScheduleItem (r : Render.t) (scheduleId itemId : string)
    (updates : Item) : M (option Schedule) :=
  if negb (Render.isAuthenticated r) then mret None
  else
    try_catch
      (if negb (truthy (Some scheduleId)) || negb (truthy (Some itemId))
       then throw (Error "Schedule ID and Item ID are required")
       else
         updatedSchedule ← request (PUT_item scheduleId itemId updates);
         setSchedules (replaceById (Some scheduleId) updatedSchedule);;
         calculateStats
           (arrayOf (replaceById (Some scheduleId) updatedSchedule
                                 (Render.schedules r)));;
         mret (Some updatedSchedule))
      (fun err => throw err).

Definition deleteScheduleItem (r : Render.t) (scheduleId itemId : string)
  : M (option Schedule) :=
  if negb (Render.isAuthenticated r) then mret None
  else
    try_catch
      (if negb (truthy (Some scheduleId)) || negb (truthy (Some itemId))
       then throw (Error "Schedule ID and Item ID are required")
       else
         updatedSchedule ← request (DELETE_item scheduleId itemId);
         setSchedules (replaceById (Some scheduleId) updatedSchedule);;
         calculateStats
           (arrayOf (replaceById (Some scheduleId) updatedSchedule
                                 (Render.schedules r)));;
         mret (Some updatedSchedule))
      (fun err => throw err).

(** [Array.prototype.find] with a callback that may throw: the outer
    [None] when a call of the callback throws before a match is found. *)
Fixpoint findThrowing {A} (p : A -> option bool) (l : list A)
  : option (option A) :=
  match l with
  | [] => Some None
  | x :: rest =>
      match p x with
      | None => None
      | Some true => Some (Some x)
      | Some false => findThrowing p rest
      end
  end.

(** [new Date(s.date).toISOString().split("T")[0] === targetDate] *)
Definition onDay (targetDate : string) (s : Schedule) : option bool :=
  match isoDay (date s) with
  | Some d => Some (String.eqb d targetDate)
  | None => None
  end.

(** [schedules.find(s => ...)] inside a [try] block. *)
Definition findSchedule (l : list Schedule) (targetDate : string)
  : M (option Schedule) :=
  match findThrowing (onDay targetDate) l with
  | Some found => mret found
  | None => throw RangeError
  end.

(** [new Date(targetDate)] followed by [setHours(0, 0, 0, 0)]; an Invalid
    Date stays invalid. *)
Definition formatDate (targetDate : string) : option Z :=
  match parseDate targetDate with
  | Some t => Some (setHoursZero t)
  | None => None
  end.

(** [formattedDate.getDay() % 6 === 0 ? "Weekend" : "Weekday"];
    [getDay()] of an Invalid Date is [NaN]. *)
Definition dayTypeOf (formattedDate : option Z) : string :=
  match formattedDate with
  | Some t =>
      if (dayIndex (getDay t) mod 6 =? 0)%Z then "Weekend" else "Weekday"
  | None => "Weekday"
  end.

(** [{ ...item }] followed by [delete itemCopy._id] *)
Definition withoutId (item : Item) : Item :=
  {| item_id := None;
     category := category item;
     priority := priority item;
     startTime := startTime item;
     endTime := endTime item;
     completed := completed item;
     itemRest := itemRest item |}.

Definition copyScheduleItem (r : Render.t) (item : Item)
    (targetDate : string) : M (option Schedule) :=
  if negb (Render.isAuthenticated r) then mret None
  else
    try_finally
      (try_catch
         (setLoading true;;
          let formattedDate := formatDate targetDate in
          found ← findSchedule (Render.schedules r) targetDate;
          targetSchedule ←
            match found with
            | Some s => mret s
            | None =>
                let dayType := dayTypeOf formattedDate in
                iso ← isoString formattedDate;
                let newScheduleData :=
                  {| sched_id := None;
                     date := Some iso;
                     dayType := Some dayType;
                     items := Some [];
                     status := Some "Planned" |} in
                data ← request (POST_schedules newScheduleData);
                let created := orEmptyObject data in
                setSchedules (fun prev => prev ++ [created]);;
                mret created
            end;
          let itemCopy := withoutId item in
          updatedSchedule ←
            request (POST_item (interpolate (sched_id targetSchedule))
                               itemCopy);
          setSchedules
            (replaceById (sched_id targetSchedule) updatedSchedule);;
          calculateStats (arrayOf (Render.schedules r));;
          mret (Some updatedSchedule))
         (fun err => throw err))
      (setLoading false).

(** [const { _id, ...itemWithoutId } = item] followed by
    [{ ...itemWithoutId, completed: false }] *)
Definition resetItem (item : Item) : Item :=
  {| item_id := None;
     category := category item;
     priority := priority item;
     startTime := startTime item;
     endTime := endTime item;
     completed := Some false;
     itemRest := itemRest item |}.

(** [existingSchedule?._id] *)
Definition idOf (existingSchedule : option Schedule) : option string :=
  match existingSchedule with
  | Some s => sched_id s
  | None => None
  end.

Definition copySchedule (r : Render.t) (sourceSchedule : Schedule)
    (targetDate : string) : M (option Schedule) :=
  if negb (Render.isAuthenticated r) then mret None
  else
    try_finally
      (try_catch
         (setLoading true;;
          let formattedDate := formatDate targetDate in
          existingSchedule ← findSchedule (Render.schedules r) targetDate;
          match existingSchedule with
          | Some existing =>
              request (DELETE_schedule (interpolate (sched_id existing)));;
              setSchedules (removeById (sched_id existing))
          | None => mret tt
          end;;
          iso ← isoString formattedDate;
          newItems ←
            match items sourceSchedule with
            | Some l => mret (map resetItem l)
            | None => throw TypeError
            end;
          let newScheduleData :=
            {| sched_id := None;
               date := Some iso;
               dayType := Some (dayTypeOf formattedDate);
               status := Some "Planned";
               items := Some newItems |} in
          data ← request (POST_schedules newScheduleData);
          let newSchedule := orEmptyObject data in
          setSchedules (fun prev => prev ++ [newSchedule]);;
          calculateStats
            (arrayOf (removeById (idOf existingSchedule)
                                 (Render.schedules r)
                      ++ [newSchedule]));;
          mret (Some newSchedule))
         (fun err => throw err))
      (setLoading false).

Definition defaultCategories : list string :=
  ["DSA"; "System Design"; "Development"; "Learning"; "Problem Solving";
   "Other"].

(** The chain of [if]s on the shape of the response. *)
Definition extractCategories (response : CategoryResponse) : list string :=
  match response with
  | bareArray cats => map name cats
  | envelope (Some cats) _ => map name cats
  | envelope None (Some names) => names
  | envelope None None => defaultCategories
  | noResponse => defaultCategories
  end.

Definition fetchCategories (r : Render.t) : M (list string) :=
  if negb (Render.isAuthenticated r) then mret []
  else if Render.isFetchingCategories r then mret (Render.categories r)
  else
    try_finally
      (try_catch
         (setIsFetchingCategories true;;
          response ← request GET_categories;
          let extractedCategories := extractCategories response in
          setCategories extractedCategories;;
          mret extractedCategories)
         (fun err =>
            let defaultCats := defaultCategories in
            setCategories defaultCats;;
            mret defaultCats))
      (setIsFetchingCategories false).

End Hook.

(** ** A runtime for evaluation: [Date] in the UTC time zone *)

Module UTC.
Local Open Scope Z_scope.

Definition msPerDay : Z := 86400000.

(** Days from 1970-01-01 to the given day of the proleptic Gregorian
    calendar. *)
Definition daysFromCivil (y m d : Z) : Z :=
  let y' := if m <=? 2 then y - 1 else y in
  let era := y' / 400 in
  let yoe := y' - era * 400 in
  let doy := (153 * (if 2 <? m then m - 3 else m + 9) + 2) / 5 + d - 1 in
  let doe := yoe * 365 + yoe / 4 - yoe / 100 + doy in
  era * 146097 + doe - 719468.

(** The inverse: year, month and day of a day number. *)
Definition civilFromDays (z : Z) : Z * Z * Z :=
  let z := z + 719468 in
  let era := z / 146097 in
  let doe := z - era * 146097 in
  let yoe := (doe - doe / 1460 + doe / 36524 - doe / 146096) / 365 in
  let doy := doe - (365 * yoe + yoe / 4 - yoe / 100) in
  let mp := (5 * doy + 2) / 153 in
  let d := doy - (153 * mp + 2) / 5 + 1 in
  let m := if mp <? 10 then mp + 3 else mp - 9 in
  let y := yoe + era * 400 in
  (if m <=? 2 then y + 1 else y, m, d).

Definition isLeap (y : Z) : bool :=
  ((y mod 4 =? 0) && negb (y mod 100 =? 0)) || (y mod 400 =? 0).

Definition daysInMonth (y m : Z) : Z :=
  if m =? 2 then (if isLeap y then 29 else 28)
  else if (m =? 4) || (m =? 6) || (m =? 9) || (m =? 11) then 30
  else 31.

(** The number written by the [n] characters of [s] from position [i],
    when they are all digits and [s] is long enough. *)
Definition field (s : string) (i n : nat) : option Z :=
  let part := String.substring i n s in
  if (String.length part =? n)%nat then
    match decimal part 0 with
    | Some v => Some (Z.of_N v)
    | None => None
    end
  else None.

Definition charAt (s : string) (i : nat) (c : ascii) : bool :=
  match String.get i s with
  | Some c' => Ascii.eqb c c'
  | None => false
  end.

(** The time of day of [THH:mm], [THH:mm:ss] or [THH:mm:ss.sss], with an
    optional [Z], in milliseconds; the empty string is midnight. *)
Definition timeOfDay (s : string) : option Z :=
  let s := if charAt s (String.length s - 1) "Z"
           then String.substring 0 (String.length s - 1) s else s in
  let n := String.length s in
  if (n =? 0)%nat then Some 0
  else if negb (charAt s 0 "T" && charAt s 3 ":") then None
  else
    match field s 1 2, field s 4 2 with
    | Some hh, Some mm =>
        if negb ((hh <? 24) && (mm <? 60)) then None
        else
          let base := hh * 3600000 + mm * 60000 in
          if (n =? 6)%nat then Some base
          else if negb (charAt s 6 ":") then None
          else
            match field s 7 2 with
            | Some ss =>
                if negb (ss <? 60) then None
                else if (n =? 9)%nat then Some (base + ss * 1000)
                else if negb (charAt s 9 "." && (n =? 13)%nat) then None
                else
                  match field s 10 3 with
                  | Some ms => Some (base + ss * 1000 + ms)
                  | None => None
                  end
            | None => None
            end
    | _, _ => None
    end.

(** [new Date(s)] for the ISO formats [YYYY-MM-DD] and
    [YYYY-MM-DDTHH:mm(:ss(.sss))(Z)]; anything else is an Invalid Date. *)
Definition parse (s : string) : option Z :=
  if negb (charAt s 4 "-" && charAt s 7 "-") then None
  else
    match field s 0 4, field s 5 2, field s 8 2 with
    | Some y, Some m, Some d =>
        if negb ((1 <=? m) && (m <=? 12) && (1 <=? d)
                 && (d <=? daysInMonth y m))
        then None
        else
          match timeOfDay (String.substring 10 (String.length s - 10) s) with
          | Some ms => Some (daysFromCivil y m d * msPerDay + ms)
          | None => None
          end
    | _, _, _ => None
    end.

Definition digitChar (v : Z) : ascii := ascii_of_nat (48 + Z.to_nat (v mod 10)).

(** [v] written with [n] digits, zero padded. *)
Fixpoint padded (n : nat) (v : Z) (suffix : string) : string :=
  match n with
  | O => suffix
  | S n' => padded n' (v / 10) (String (digitChar v) suffix)
  end.

(** [toISOString()], for years 0 to 9999. *)
Definition iso (t : Z) : string :=
  let days := t / msPerDay in
  let ms := t mod msPerDay in
  let '(y, m, d) := civilFromDays days in
  padded 4 y
    (String "-" (padded 2 m
      (String "-" (padded 2 d
        (String "T" (padded 2 (ms / 3600000)
          (String ":" (padded 2 (ms / 60000 mod 60)
            (String ":" (padded 2 (ms / 1000 mod 60)
              (String "." (padded 3 (ms mod 1000) "Z")))))))))))).

Definition weekday (t : Z) : Weekday :=
  match (t / msPerDay + 4) mod 7 with
  | 0 => Sunday | 1 => Monday | 2 => Tuesday | 3 => Wednesday
  | 4 => Thursday | 5 => Friday | _ => Saturday
  end.

(** The runtime whose clock reads [clock]. *)
Definition runtime (clock : Z) : DateRuntime :=
  {| parseDate := parse;
     toISOString := iso;
     setHoursZero := fun t => t - t mod msPerDay;
     getDay := weekday;
     now := clock |}.

End UTC.

(** ** A runtime at a fixed offset from UTC *)

Module Zone.
Local Open Scope Z_scope.

(** A date-time form without [Z] is read as local time; a date-only form
    and a form that ends in [Z] are read as UTC. *)
Definition isLocalForm (s : string) : bool :=
  (10 <? String.length s)%nat
  && negb (UTC.charAt s (String.length s - 1) "Z").

(** [new Date(s)] where local time is UTC plus [offset] milliseconds. *)
Definition parse (offset : Z) (s : string) : option Z :=
  match UTC.parse s with
  | Some t => Some (if isLocalForm s then t - offset else t)
  | None => None
  end.

(** Midnight of the local day of [t]. *)
Definition localMidnight (offset t : Z) : Z :=
  t + offset - (t + offset) mod UTC.msPerDay - offset.

(** The runtime of a zone whose local time is UTC plus [offset]
    milliseconds, and whose clock reads [clock]. *)
Definition runtime (offset clock : Z) : DateRuntime :=
  {| parseDate := parse offset;
     toISOString := UTC.iso;
     setHoursZero := localMidnight offset;
     getDay := fun t => UTC.weekday (t + offset);
     now := clock |}.

End Zone.

(** ** The skill form: [handleChange] of [AddSkillModal] *)

(** A property of the form record: a string, or the number [progress]. *)
Inductive FormValue :=
| FStr (s : string)
| FNum (n : Z).

(** [useState] initial value; [category] is the first category's name. *)
Definition initialFormData (firstCategory : string)
  : gmap string FormValue :=
  <["priority" := FStr "medium"]>
    (<["description" := FStr ""]>
      (<["progress" := FNum 0]>
        (<["status" := FStr "upcoming"]>
          (<["category" := FStr firstCategory]>
            (<["name" := FStr ""]> ∅))))).

(** White space that [parseInt] skips (the ASCII part of it; the strings of
    the model are ASCII). *)
Definition isWhiteSpace (c : ascii) : bool :=
  let n := nat_of_ascii c in
  ((9 <=? n)%nat && (n <=? 13)%nat) || (n =? 32)%nat.

Fixpoint skipWhiteSpace (s : string) : string :=
  match s with
  | String c rest => if isWhiteSpace c then skipWhiteSpace rest else s
  | EmptyString => s
  end.

(** The value of [c] as a digit of the given radix (10 or 16). *)
Definition digitIn (radix : Z) (c : ascii) : option Z :=
  let n := Z.of_nat (nat_of_ascii c) in
  if ((48 <=? n) && (n <=? 57))%Z then Some (n - 48)%Z
  else if (radix =? 16)%Z && ((97 <=? n) && (n <=? 102))%Z
  then Some (n - 87)%Z
  else if (radix =? 16)%Z && ((65 <=? n) && (n <=? 70))%Z
  then Some (n - 55)%Z
  else None.

(** The number written by the longest prefix of digits, [acc] so far;
    [None] when there is no digit. *)
Fixpoint leadingDigits (radix : Z) (s : string) (acc : option Z)
  : option Z :=
  match s with
  | EmptyString => acc
  | String c rest =>
      match digitIn radix c with
      | Some d =>
          leadingDigits radix rest
            (Some (match acc with Some a => a | None => 0 end * radix + d)%Z)
      | None => acc
      end
  end.

(** [parseInt(value)] with no radix; [None] is [NaN]. The result is exact
    (an engine rounds integers beyond 2^53; rounding is monotone, so the
    clamped value below is the same). *)
Definition parseInt (value : string) : option Z :=
  let s := skipWhiteSpace value in
  let '(negative, s) :=
    match s with
    | String "-" rest => (true, rest)
    | String "+" rest => (false, rest)
    | _ => (false, s)
    end in
  let '(radix, s) :=
    match s with
    | String "0" (String "x" rest) => (16, rest)
    | String "0" (String "X" rest) => (16, rest)
    | _ => (10, s)
    end%Z in
  match leadingDigits radix s None with
  | Some n => Some (if negative then - n else n)%Z
  | None => None
  end.

(** [Math.min(100, Math.max(0, parseInt(value) || 0))] *)
Definition clampProgress (value : string) : Z :=
  let parsed :=
    match parseInt value with
    | Some n => if (n =? 0)%Z then 0%Z else n
    | None => 0%Z
    end in
  Z.min 100 (Z.max 0 parsed).

(** The state updates [handleChange] queues for the event
    [{ target: { name, value } }], in order; [formData] is the record of
    the render the handler belongs to. A queued value is a constant
    update. *)
Definition handleChange (formData : gmap string FormValue)
    (name value : string)
  : list (gmap string FormValue -> gmap string FormValue) :=
  (if String.eqb name "progress"
   then
     let progress := clampProgress value in
     [fun _ => <["progress" := FNum progress]> formData]
   else [fun _ => <[name := FStr value]> formData])
  ++
  (if String.eqb name "status" && String.eqb value "completed"
   then [fun prev => <["progress" := FNum 100]> prev]
   else []).

(** React applies the queued updates in order to the current state. *)
Definition applyUpdates {S : Type} (queue : list (S -> S)) (state : S) : S :=
  fold_left (fun s update => update s) queue state.

(** The form record after the event, when the handler is the one of the
    current render. *)
Definition formAfter (formData : gmap string FormValue)
    (name value : string) : gmap string FormValue :=
  applyUpdates (handleChange formData name value) formData.

(** ** The specification's reading of the statistics *)

(** Every item of a collection, schedule by schedule; a schedule without
    [items] has none. *)
Definition allItems (scheduleData : list Schedule) : list Item :=
  flat_map (fun s => match items s with Some l => l | None => [] end)
           scheduleData.

(** The items of whatever [calculateStats] is handed. *)
Definition itemsOf (scheduleData : ScheduleData) : list Item :=
  match scheduleData with
  | notAnArray => []
  | arrayOf l => allItems l
  end.

Definition completedCount (l : list Item) : nat :=
  length (List.filter isCompleted l).

(** A count as a rational. *)
Definition countQ (n : nat) : Q := inject_Z (Z.of_nat n).

(** 100 x completedCount / totalCount, and 0 when there is no item. *)
Definition specCompletionRate (l : list Item) : Q :=
  match length l with
  | O => 0
  | S _ => 100 * countQ (completedCount l) / countQ (length l)
  end.

Definition hasBothTimes (item : Item) : bool :=
  truthy (startTime item) && truthy (endTime item).

(** The item lists of the schedules that have one, in order. *)
Definition itemLists (scheduleData : list Schedule) : list (list Item) :=
  flat_map (fun s => match items s with Some l => [l] | None => [] end)
           scheduleData.

Definition itemListsOf (scheduleData : ScheduleData) : list (list Item) :=
  match scheduleData with
  | notAnArray => []
  | arrayOf l => itemLists l
  end.

Section SpecHours.
Context {rt : DateRuntime} {ar : Arithmetic}.

(** A sum whose order does not matter to the specification. *)
Definition sumNumbers (l : list Number) : Number :=
  fold_right numAdd (Num 0) l.

(** The sum in the order of the list, starting from 0. *)
Definition sumInOrder (l : list Number) : Number :=
  fold_left numAdd l (Num 0).

(** (end - start) as clock times of one day, in hours. *)
Definition duration (item : Item) : Number :=
  numDiv (dateDiff (clockTime (endTime item)) (clockTime (startTime item)))
         msPerHour.

(** The hours of one schedule: the durations of its items that have both
    times, added in order. *)
Definition scheduleHours (l : list Item) : Number :=
  sumInOrder (map duration (List.filter hasBothTimes l)).

(** What one item adds to the total. *)
Definition contribution (item : Item) : Number :=
  if hasBothTimes item then duration item else Num 0.

Definition specTotalHours (l : list Item) : Number :=
  sumNumbers (map duration (List.filter hasBothTimes l)).

(** Every date that is present can be formatted. *)
Definition datesValid (l : list Schedule) : Prop :=
  Forall (fun s => truthy (date s) = true -> isoDay (date s) <> None) l.

End SpecHours.

(** The labels counted by the category distribution: those of the items
    that have one. *)
Definition labels (l : list Item) : list string :=
  map (fun item => interpolate (category item))
      (List.filter (fun item => truthy (category item)) l).


(** ** The backend's side of a copy *)

(** The record the backend keeps for a submitted schedule: the body with
    the identifier it assigns. *)
Definition storedAs (id : string) (body : Schedule) : Schedule :=
  {| sched_id := Some id; date := date body; dayType := dayType body;
     status := status body; items := items body |}.

(** The item the backend keeps for a submitted item. *)
Definition itemStoredAs (id : string) (body : Item) : Item :=
  {| item_id := Some id;
     category := category body;
     priority := priority body;
     startTime := startTime body;
     endTime := endTime body;
     completed := completed body;
     itemRest := itemRest body |}.

Definition withItems (s : Schedule) (l : list Item) : Schedule :=
  {| sched_id := sched_id s; date := date s; dayType := dayType s;
     status := status s; items := Some l |}.

Section Days.
Context {rt : DateRuntime} {ar : Arithmetic}.

(** The schedule is for the calendar day [targetDate]. *)
Definition forDay (targetDate : string) (s : Schedule) : bool :=
  match isoDay (date s) with
  | Some d => String.eqb d targetDate
  | None => false
  end.

(** What [copyScheduleItem] submits to create the schedule of a day. *)
Definition emptyScheduleFor (formattedDate : Z) : Schedule :=
  {| sched_id := None;
     date := Some (toISOString formattedDate);
     dayType := Some (dayTypeOf (Some formattedDate));
     items := Some [];
     status := Some "Planned" |}.

(** What [copySchedule] submits. *)
Definition copyFor (formattedDate : Z) (sourceItems : list Item)
  : Schedule :=
  {| sched_id := None;
     date := Some (toISOString formattedDate);
     dayType := Some (dayTypeOf (Some formattedDate));
     status := Some "Planned";
     items := Some (map resetItem sourceItems) |}.

End Days.

(** ** The mutations of the store, as one type *)

Inductive Mutation :=
| CreateSchedule (scheduleData : Schedule)
| UpdateSchedule (id : string) (updates : Schedule)
| DeleteSchedule (id : string)
| AddScheduleItem (scheduleId : string) (itemData : Item)
| UpdateScheduleItem (scheduleId itemId : string) (updates : Item)
| DeleteScheduleItem (scheduleId itemId : string)
| CopyScheduleItem (item : Item) (targetDate : string)
| CopySchedule (sourceSchedule : Schedule) (targetDate : string).

(** Forget the value a callback returns. *)
Definition ignore {A} (m : M A) : M unit := m ≫= (fun _ => mret tt).

Definition mutate {rt : DateRuntime} {ar : Arithmetic} (r : Render.t)
    (m : Mutation) : M unit :=
  match m with
  | CreateSchedule scheduleData => ignore (createSchedule r scheduleData)
  | UpdateSchedule id updates => ignore (updateSchedule r id updates)
  | DeleteSchedule id => deleteSchedule r id
  | AddScheduleItem scheduleId itemData =>
      ignore (addScheduleItem r scheduleId itemData)
  | UpdateScheduleItem scheduleId itemId updates =>
      ignore (updateScheduleItem r scheduleId itemId updates)
  | DeleteScheduleItem scheduleId itemId =>
      ignore (deleteScheduleItem r scheduleId itemId)
  | CopyScheduleItem item targetDate =>
      ignore (copyScheduleItem r item targetDate)
  | CopySchedule sourceSchedule targetDate =>
      ignore (copySchedule r sourceSchedule targetDate)
  end.

(** ** A backend for evaluation *)

(** Modelled from the spec: the REST backend is not part of the excerpt;
    this in-memory one follows the interface of section 6 (a created
    schedule is returned with the identifier assigned to it, an item
    request returns the whole updated parent schedule). It is used to run
    the callbacks on concrete inputs only. *)
Module Backend.

Record Db := {
  rows : list Schedule;
  counter : nat
}.

Definition freshId (db : Db) : string :=
  String.append "id" (NilZero.string_of_uint (Nat.to_uint (counter db))).

Definition orField {A} (update current : option A) : option A :=
  match update with
  | Some _ => update
  | None => current
  end.

(** A partial update of a schedule. *)
Definition patch (updates current : Schedule) : Schedule :=
  {| sched_id := sched_id current;
     date := orField (date updates) (date current);
     dayType := orField (dayType updates) (dayType current);
     status := orField (status updates) (status current);
     items := orField (items updates) (items current) |}.

Definition patchItem (updates current : Item) : Item :=
  {| item_id := item_id current;
     category := orField (category updates) (category current);
     priority := orField (priority updates) (priority current);
     startTime := orField (startTime updates) (startTime current);
     endTime := orField (endTime updates) (endTime current);
     completed := orField (completed updates) (completed current);
     itemRest := itemRest current |}.

Definition itemsOrNone (s : Schedule) : list Item :=
  match items s with
  | Some l => l
  | None => []
  end.

(** Apply [f] to the row with identifier [id]. *)
Definition onRow (id : string) (f : Schedule -> Schedule)
    (l : list Schedule) : list Schedule :=
  map (fun s => if strictEq (sched_id s) id then f s else s) l.

Definition lookupRow (id : string) (l : list Schedule) : option Schedule :=
  List.find (fun s => strictEq (sched_id s) id) l.

(** The effect of a request on the database. *)
Definition apply (db : Db) (c : Call) : Db :=
  match c with
  | Sent r =>
      match r with
      | POST_schedules body =>
          {| rows := rows db ++ [storedAs (freshId db) body];
             counter := S (counter db) |}
      | PUT_schedule id body =>
          {| rows := onRow id (patch body) (rows db);
             counter := counter db |}
      | DELETE_schedule id =>
          {| rows := List.filter (fun s => negb (strictEq (sched_id s) id))
                                 (rows db);
             counter := counter db |}
      | POST_item scheduleId body =>
          {| rows := onRow scheduleId
                       (fun s => withItems s
                          (itemsOrNone s ++ [itemStoredAs (freshId db) body]))
                       (rows db);
             counter := S (counter db) |}
      | PUT_item scheduleId itemId body =>
          {| rows := onRow scheduleId
                       (fun s => withItems s
                          (map (fun item =>
                                  if strictEq (item_id item) itemId
                                  then patchItem body item else item)
                               (itemsOrNone s)))
                       (rows db);
             counter := counter db |}
      | DELETE_item scheduleId itemId =>
          {| rows := onRow scheduleId
                       (fun s => withItems s
                          (List.filter
                             (fun item =>
                                negb (strictEq (item_id item) itemId))
                             (itemsOrNone s)))
                       (rows db);
             counter := counter db |}
      | GET_schedules _ => db
      | GET_categories => db
      end
  end.

Definition replay (history : list Call) : Db :=
  fold_left apply history {| rows := []; counter := 0 |}.

Definition notFound {A} : Reply A := Rejects (Some "Not found").

(** The parent schedule after the request, when it exists. *)
Definition parentAfter (db : Db) (c : Call) (scheduleId : string)
  : Reply Schedule :=
  match lookupRow scheduleId (rows (apply db c)) with
  | Some s => Resolves s
  | None => notFound
  end.

Definition answer (db : Db) (A : Type) (r : Request A) : Reply A :=
  match r in Request T return Reply T with
  | GET_schedules _ => Resolves (Some (rows db))
  | POST_schedules body => Resolves (Some (storedAs (freshId db) body))
  | PUT_schedule id body =>
      match lookupRow id (rows db) with
      | Some s => Resolves (Some (patch body s))
      | None => notFound
      end
  | DELETE_schedule id =>
      match lookupRow id (rows db) with
      | Some _ => Resolves tt
      | None => notFound
      end
  | POST_item scheduleId body =>
      parentAfter db (Sent (POST_item scheduleId body)) scheduleId
  | PUT_item scheduleId itemId body =>
      parentAfter db (Sent (PUT_item scheduleId itemId body)) scheduleId
  | DELETE_item scheduleId itemId =>
      parentAfter db (Sent (DELETE_item scheduleId itemId)) scheduleId
  | GET_categories =>
      Resolves (bareArray [{| name := "DSA" |}; {| name := "Reading" |}])
  end.

(** The backend that serves every request. *)
Definition honest : Server :=
  fun A history r => answer (replay history) A r.



(** A backend that returns, for a created schedule, a record whose date
    cannot be read. *)
Definition garbledDates : Server :=
  fun A history r =>
    match r in Request T return Reply T with
    | POST_schedules body =>
        Resolves (Some (withDate (storedAs "id0" body) "not-a-date"))
    | other => answer (replay history) _ other
    end.

End Backend.

(** ** Concrete inputs *)

(** Unless told otherwise, what is evaluated is evaluated in binary64. *)
#[export] Existing Instance binary64.

Module Sample.

(** 2024-03-09T12:00:00.000Z, a Saturday. *)
Definition clock : Z := 1709985600000.

Definition utc : DateRuntime := UTC.runtime clock.

Definition task : Item :=
  {| item_id := Some "item-7";
     category := Some "DSA";
     priority := Some "High";
     startTime := Some "09:00";
     endTime := Some "10:30";
     completed := Some true;
     itemRest := [("title", "Graphs")] |}.

Definition note : Item :=
  {| item_id := Some "item-8";
     category := None;
     priority := Some "Low";
     startTime := None;
     endTime := Some "11:00";
     completed := None;
     itemRest := [("title", "Notes")] |}.

Definition reading : Item :=
  {| item_id := Some "item-9";
     category := Some "Learning";
     priority := Some "Medium";
     startTime := Some "14:00";
     endTime := Some "14:20";
     completed := Some false;
     itemRest := [] |}.

(** The input of a [createSchedule] for Friday 2024-03-08. *)
Definition friday : Schedule :=
  {| sched_id := None;
     date := Some "2024-03-08";
     dayType := Some "Weekday";
     status := Some "Planned";
     items := Some [task; note; reading] |}.

(** The input of a [createSchedule] for Saturday 2024-03-09. *)
Definition saturday : Schedule :=
  {| sched_id := None;
     date := Some "2024-03-09";
     dayType := Some "Weekend";
     status := Some "In Progress";
     items := Some [note] |}.

(** A schedule whose date cannot be read, and that has no [items]. *)
Definition undated : Schedule :=
  {| sched_id := Some "id9";
     date := Some "not-a-date";
     dayType := None;
     status := None;
     items := None |}.

(** A schedule for Sunday 2024-03-10 that has no [items]. *)
Definition bare : Schedule :=
  {| sched_id := Some "id8";
     date := Some "2024-03-10T00:00:00.000Z";
     dayType := Some "Weekend";
     status := Some "Planned";
     items := None |}.

(** The hook after mounting, with the given backend. *)
Definition mounted (backend : Server) : World :=
  {| store := initialStore; sent := []; server := backend |}.

(** The state after [m] is run by the callbacks of the current render. *)
Definition after (m : Mutation) (w : World) : World :=
  snd (mutate (rt := utc) (render true (store w)) m w).

(** The store holding the Friday schedule, then also the Saturday one. *)
Definition withFriday : World :=
  after (CreateSchedule friday) (mounted Backend.honest).

Definition withBoth : World :=
  after (CreateSchedule saturday) withFriday.

(** The records the backend keeps for the two. *)
Definition storedFriday : Schedule :=
  storedAs "id0" (withDate friday "2024-03-08T00:00:00.000Z").

Definition storedSaturday : Schedule :=
  storedAs "id1" (withDate saturday "2024-03-09T00:00:00.000Z").

(** Midnight of 2024-03-09, in milliseconds. *)
Definition march9 : Z := 1709942400000.

End Sample.

(** ** The effect that loads the schedules, and sessions of the hook *)

Inductive Operation :=
| Mutate (m : Mutation)
| FetchSchedules (startDate endDate status : option string)
| FetchCategories
| LoadEffect.

Section Session.
Context {rt : DateRuntime} {ar : Arithmetic}.

(** [useEffect(() => { if (isAuthenticated) { fetchSchedules(); } }, ...)] *)
Definition loadEffect (r : Render.t) : M unit :=
  if Render.isAuthenticated r
  then ignore (fetchSchedules r None None None)
  else mret tt.

Definition perform (r : Render.t) (op : Operation) : M unit :=
  match op with
  | Mutate m => mutate r m
  | FetchSchedules startDate endDate status =>
      ignore (fetchSchedules r startDate endDate status)
  | FetchCategories => ignore (fetchCategories r)
  | LoadEffect => loadEffect r
  end.

(** A session: every operation is run by the callbacks of the render that
    follows the previous one; a rejected promise does not end the
    session. *)
Fixpoint session (isAuthenticated : bool) (ops : list Operation)
    (w : World) : World :=
  match ops with
  | [] => w
  | op :: rest =>
      session isAuthenticated rest
        (snd (perform (render isAuthenticated (store w)) op w))
  end.

(** The schedules [calculateStats] counts as today's. *)
Definition datedToday (s : Schedule) : bool :=
  truthy (date s)
  && match isoDay (date s) with
     | Some d => String.eqb d today
     | None => false
     end.

(** A date that is present and that [toISOString] cannot format. *)
Definition unreadableDate (s : Schedule) : bool :=
  truthy (date s)
  && match isoDay (date s) with
     | Some _ => false
     | None => true
     end.

(** An item with both times of which one is not a clock time. *)
Definition unreadableTime (item : Item) : bool :=
  hasBothTimes item
  && match clockTime (startTime item), clockTime (endTime item) with
     | Some _, Some _ => false
     | _, _ => true
     end.

End Session.

(** The number a property of [categories] holds, 0 for a string. *)
Definition tallyCount (t : Tally) : nat :=
  match t with
  | Count n => n
  | Text => 0
  end.

(** The count recorded for a label: 0 when the object has no such
    property of its own. *)
Definition countFor (cats : list (string * Tally)) (k : string) : nat :=
  match own cats k with
  | Some t => tallyCount t
  | None => 0
  end.

(** What the distribution holds for a label that occurs among [ls]. *)
Definition tallyFor (ls : list string) (k : string) : Tally :=
  if isInheritedFunction k then Text
  else Count (count_occ string_dec ls k).

(** The labels that get a property: all but [__proto__]. *)
Definition keyLabels (ls : list string) : list string :=
  List.filter (fun k => negb (String.eqb k "__proto__")) ls.

(** The schedule a mutation replaces in place, for the four that do. *)
Definition replacedId (m : Mutation) : option string :=
  match m with
  | UpdateSchedule id _ => Some id
  | AddScheduleItem scheduleId _ => Some scheduleId
  | UpdateScheduleItem scheduleId _ _ => Some scheduleId
  | DeleteScheduleItem scheduleId _ => Some scheduleId
  | _ => None
  end.

(** The record a reconciling mutation puts into the cache is the
    backend's answer to the one request it sent. *)
Definition answered (w w' : World) (m : Mutation) (updated : Schedule)
  : Prop :=
  match m with
  | UpdateSchedule id _ =>
      exists body data,
        sent w' = sent w ++ [Sent (PUT_schedule id body)]
        /\ server w _ (sent w) (PUT_schedule id body) = Resolves data
        /\ updated = orEmptyObject data
  | AddScheduleItem scheduleId itemData =>
      sent w' = sent w ++ [Sent (POST_item scheduleId itemData)]
      /\ server w _ (sent w) (POST_item scheduleId itemData)
         = Resolves updated
  | UpdateScheduleItem scheduleId itemId updates =>
      sent w' = sent w ++ [Sent (PUT_item scheduleId itemId updates)]
      /\ server w _ (sent w) (PUT_item scheduleId itemId updates)
         = Resolves updated
  | DeleteScheduleItem scheduleId itemId =>
      sent w' = sent w ++ [Sent (DELETE_item scheduleId itemId)]
      /\ server w _ (sent w) (DELETE_item scheduleId itemId)
         = Resolves updated
  | _ => False
  end.

(** The fields of an item other than its identifier. *)
Definition sameContent (a b : Item) : Prop :=
  category a = category b
  /\ priority a = priority b
  /\ startTime a = startTime b
  /\ endTime a = endTime b
  /\ completed a = completed b
  /\ itemRest a = itemRest b.

(** [a] is the beginning of [b]. *)
Definition isPrefix {A} (a b : list A) : Prop := exists c, b = a ++ c.

(** ** The rest of [AddSkillModal]: submission and inline categories *)

(** An element of the [categories] prop: a string or an object with a
    name. *)
Inductive CategoryProp :=
| Label (s : string)
| Named (c : Category).

(** [typeof category === "string" ? category : category.name] *)
Definition optionValue (c : CategoryProp) : string :=
  match c with
  | Label s => s
  | Named c => name c
  end.

(** The [category] of the initial form. *)
Definition initialCategory (categories : list CategoryProp) : string :=
  match categories with
  | first :: _ => optionValue first
  | [] => ""
  end.

(** [String.prototype.trim], on the white space of the model. *)
Fixpoint trimEnd (s : string) : string :=
  match s with
  | EmptyString => EmptyString
  | String c rest =>
      match trimEnd rest with
      | EmptyString => if isWhiteSpace c then EmptyString
                       else String c EmptyString
      | kept => String c kept
      end
  end.

Definition trim (s : string) : string := trimEnd (skipWhiteSpace s).

(** The value as a condition: [undefined], [""] and [0] are falsy. *)
Definition formTruthy (v : option FormValue) : bool :=
  match v with
  | Some (FStr s) => negb (String.eqb s "")
  | Some (FNum n) => negb (n =? 0)%Z
  | None => false
  end.

(** What the range input reports for the position [n]. *)
Definition sliderValue (n : nat) : string :=
  NilZero.string_of_uint (Nat.to_uint n).

Module Modal.

(** The [useState] cells of the component. *)
Record t := {
  formData : gmap string FormValue;
  isSubmitting : bool;
  error : string;
  showNewCategory : bool;
  newCategory : string
}.

(** What the component calls outside itself. [preventDefault] and
    [onClose] are taken to return normally; the two awaited calls may
    reject. *)
Inductive Call :=
| PreventDefault
| AddSkill (skill : gmap string FormValue)
| AddCategory (label : string)
| OnClose.

(** How an awaited call settles. *)
Inductive Settled :=
| Fulfilled
| Failed (message : option string).

(** [addSkill] and [addCategory], knowing the calls made before. *)
Definition Services : Type := list Call -> Call -> Settled.

Record World := {
  state : t;
  calls : list Call;
  services : Services
}.

Definition initial (categories : list CategoryProp) : t :=
  {| formData := initialFormData (initialCategory categories);
     isSubmitting := false;
     error := "";
     showNewCategory := false;
     newCategory := "" |}.

Definition update (f : t -> t) (w : World) : World :=
  {| state := f (state w); calls := calls w; services := services w |}.

Definition logCall (c : Call) (w : World) : World :=
  {| state := state w; calls := calls w ++ [c]; services := services w |}.

Definition setFormData
    (f : gmap string FormValue -> gmap string FormValue) : World -> World :=
  update (fun s =>
    {| formData := f (formData s); isSubmitting := isSubmitting s;
       error := error s; showNewCategory := showNewCategory s;
       newCategory := newCategory s |}).

Definition setIsSubmitting (b : bool) : World -> World :=
  update (fun s =>
    {| formData := formData s; isSubmitting := b;
       error := error s; showNewCategory := showNewCategory s;
       newCategory := newCategory s |}).

Definition setError (message : string) : World -> World :=
  update (fun s =>
    {| formData := formData s; isSubmitting := isSubmitting s;
       error := message; showNewCategory := showNewCategory s;
       newCategory := newCategory s |}).

Definition setShowNewCategory (b : bool) : World -> World :=
  update (fun s =>
    {| formData := formData s; isSubmitting := isSubmitting s;
       error := error s; showNewCategory := b;
       newCategory := newCategory s |}).

Definition setNewCategory (value : string) : World -> World :=
  update (fun s =>
    {| formData := formData s; isSubmitting := isSubmitting s;
       error := error s; showNewCategory := showNewCategory s;
       newCategory := value |}).

(** [handleSubmit], as the handler of the render [r]. *)
Definition handleSubmit (r : t) (w : World) : Outcome unit * World :=
  let w := logCall PreventDefault w in
  if isSubmitting r then (Returned tt, w)
  else
    match formData r !! "name" with
    | Some (FStr skillName) =>
        if negb (truthy (Some (trim skillName)))
        then (Returned tt, setError "Skill name is required" w)
        else if negb (formTruthy (formData r !! "category"))
        then (Returned tt, setError "Category is required" w)
        else
          let w := setIsSubmitting true (setError "" w) in
          let settled := services w (calls w) (AddSkill (formData r)) in
          let w := logCall (AddSkill (formData r)) w in
          let w :=
            match settled with
            | Fulfilled => logCall OnClose w
            | Failed message =>
                setError (orElse message "Failed to add skill") w
            end in
          (Returned tt, setIsSubmitting false w)
    | _ => (Threw TypeError, w)
    end.

(** [handleAddCategory], as the handler of the render [r]. *)
Definition handleAddCategory (r : t) (w : World) : World :=
  if negb (truthy (Some (trim (newCategory r))))
  then setError "Category name is required" w
  else
    let label := trim (newCategory r) in
    let settled := services w (calls w) (AddCategory label) in
    let w := logCall (AddCategory label) w in
    match settled with
    | Fulfilled =>
        setShowNewCategory false
          (setNewCategory ""
             (setFormData (fun prev => <["category" := FStr label]> prev) w))
    | Failed message =>
        setError (orElse message "Failed to add category") w
    end.

(** What the user can do with the form. *)
Inductive Event :=
| Change (field value : string)      (* [onChange={handleChange}] *)
| TypeCategory (value : string)      (* [setNewCategory(e.target.value)] *)
| OpenNewCategory                    (* [setShowNewCategory(true)] *)
| ConfirmCategory                    (* [onClick={handleAddCategory}] *)
| Submit.                            (* [onSubmit={handleSubmit}] *)

(** One event, handled by the handlers of the current render. *)
Definition step (e : Event) (w : World) : World :=
  match e with
  | Change field value =>
      setFormData
        (applyUpdates (handleChange (formData (state w)) field value)) w
  | TypeCategory value => setNewCategory value w
  | OpenNewCategory => setShowNewCategory true w
  | ConfirmCategory => handleAddCategory (state w) w
  | Submit => snd (handleSubmit (state w) w)
  end.

Definition run (events : list Event) (w : World) : World :=
  fold_left (fun w e => step e w) events w.

(** The component when it is mounted. *)
Definition mounted (categories : list CategoryProp) (s : Services) : World :=
  {| state := initial categories; calls := []; services := s |}.

End Modal.

(** The form holds a progress between 0 and 100. *)
Definition progressInRange (form : gmap string FormValue) : Prop :=
  exists p, form !! "progress" = Some (FNum p) /\ (0 <= p <= 100)%Z.

(** The form holds a string as the name of the skill. *)
Definition nameIsString (form : gmap string FormValue) : Prop :=
  exists s, form !! "name" = Some (FStr s).

(** Every skill handed to [addSkill] so far has a progress in range. *)
Definition skillsInRange (calls : list Modal.Call) : Prop :=
  Forall (fun c =>
            match c with
            | Modal.AddSkill skill => progressInRange skill
            | _ => True
            end) calls.

(** Every character of the string is white space. *)
Fixpoint allWhiteSpace (s : string) : bool :=
  match s with
  | EmptyString => true
  | String c rest => isWhiteSpace c && allWhiteSpace rest
  end.

(** The last character of a string, if any. *)
Fixpoint lastChar (s : string) : option ascii :=
  match s with
  | EmptyString => None
  | String c EmptyString => Some c
  | String _ rest => lastChar rest
  end.

(** The events that cannot give the form a category. *)
Definition leavesCategory (e : Modal.Event) : Prop :=
  match e with
  | Modal.Change field _ => field <> "category"
  | Modal.ConfirmCategory => False
  | _ => True
  end.


(** ** More concrete inputs *)

Module Scenario.

(** Updates that only set the status. *)
Definition finished : Schedule :=
  {| sched_id := None;
     date := None;
     dayType := None;
     status := Some "Completed";
     items := None |}.

(** The hook while a fetch of the categories is in flight. *)
Definition fetching : World :=
  {| store := {| Store.schedules := [];
                 Store.loading := false;
                 Store.error := None;
                 Store.stats := defaultStats;
                 Store.categories := ["DSA"];
                 Store.isFetchingCategories := true |};
     sent := [Sent GET_categories];
     server := Backend.honest |}.

(** The runtime of a zone five hours behind UTC, as New York is on
    2024-03-09. *)
Definition eastern : DateRuntime :=
  Zone.runtime (-5 * 3600000) Sample.clock.

(** The copy of the Friday schedule the backend stores for Saturday. *)
Definition copied : Schedule :=
  storedAs "id1"
    (copyFor (rt := Sample.utc) Sample.march9
              [Sample.task; Sample.note; Sample.reading]).

(** An item that is completed or not, and nothing else. *)
Definition ticked (done : bool) : Item :=
  {| item_id := None;
     category := None;
     priority := None;
     startTime := None;
     endTime := None;
     completed := Some done;
     itemRest := [] |}.

(** A schedule of a hundred items, seven of them completed. *)
Definition hundred : Schedule :=
  {| sched_id := Some "id7";
     date := Some "2024-03-08T00:00:00.000Z";
     dayType := Some "Weekday";
     status := Some "In Progress";
     items := Some (repeat (ticked true) 7 ++ repeat (ticked false) 93) |}.

(** An item that has a category, and nothing else. *)
Definition labelled (label : string) : Item :=
  {| item_id := None;
     category := Some label;
     priority := None;
     startTime := None;
     endTime := None;
     completed := None;
     itemRest := [] |}.

(** An item from 09:00 to the given time. *)
Definition sprint (until : string) : Item :=
  {| item_id := None;
     category := None;
     priority := None;
     startTime := Some "09:00";
     endTime := Some until;
     completed := None;
     itemRest := [] |}.

(** A schedule of three items that last 6, 12 and 18 minutes. *)
Definition sprints : Schedule :=
  {| sched_id := Some "id6";
     date := Some "2024-03-08T00:00:00.000Z";
     dayType := Some "Weekday";
     status := Some "Planned";
     items := Some [sprint "09:06"; sprint "09:12"; sprint "09:18"] |}.

End Scenario.

(** ** Auxiliary notions used by the statements *)

(** In exact arithmetic no operation of the hook yields an infinity. *)
Definition notInfinite (x : Number) : Prop :=
  match x with
  | Infinity _ => False
  | _ => True
  end.

(** The property the object holds for a label, after the labels [ls]. *)
Definition expected (ls : list string) (k : string) : option Tally :=
  if existsb (String.eqb k) ls && negb (String.eqb k "__proto__")
  then Some (tallyFor ls k) else None.

(** ** Rounding in binary64 *)

Module RoundProofs.
Import Binary64.
Local Open Scope Q_scope.

Lemma pow2_pos (e : Z) : 0 < pow2 e.
Proof.
  unfold pow2. destruct (0 <=? e)%Z eqn:E.
  - apply Z.leb_le in E. rewrite <- (Zlt_Qlt 0). apply Z.pow_pos_nonneg; lia.
  - reflexivity.
Qed.

(** For [e <= 0], [2 ^ e] is the inverse of the integer [2 ^ (- e)]. *)
Lemma pow2_inverse (e : Z) :
  (e <= 0)%Z -> pow2 e * inject_Z (2 ^ (- e)) == 1.
Proof.
  intros He. unfold pow2. destruct (0 <=? e)%Z eqn:E.
  - apply Z.leb_le in E. assert (e = 0%Z) by lia. subst e. reflexivity.
  - assert (Hpos : (0 < 2 ^ (- e))%Z) by (apply Z.pow_pos_nonneg; lia).
    destruct (2 ^ (- e))%Z as [|p|p]; try lia.
    unfold Qeq. simpl. lia.
Qed.

Lemma Qabs_nonneg_eq (q : Q) : (0 <= Qnum q)%Z -> Qabs q = q.
Proof.
  destruct q as [n d]. simpl. intros Hn. unfold Qabs.
  rewrite Z.abs_eq by exact Hn. reflexivity.
Qed.

Lemma Qnum_pos (q : Q) : 0 < q -> (0 < Qnum q)%Z.
Proof. unfold Qlt. simpl. lia. Qed.

(** What [round] computes for a positive rational. *)
Lemma round_positive (q : Q) :
  0 < q ->
  round q
  = let ulp := pow2 (Z.max (binade q) (-1022) - 52) in
    let r := inject_Z (nearestEven (q / ulp)) * ulp in
    if Qle_bool (pow2 1024) r then Infinity false else Num (Qred r).
Proof.
  intros Hq. pose proof (Qnum_pos q Hq) as Hn. unfold round.
  destruct (Qeq_bool q 0) eqn:Ez.
  - apply Qeq_bool_iff in Ez. rewrite Ez in Hq. destruct (Qlt_irrefl _ Hq).
  - rewrite Qabs_nonneg_eq by lia.
    assert (Hneg : isNegative q = false)
      by (unfold isNegative; apply Z.ltb_ge; lia).
    rewrite Hneg. reflexivity.
Qed.

Lemma Qfloor_integer (x : Q) (m : Z) : x == inject_Z m -> Qfloor x = m.
Proof. intros E. rewrite (Qfloor_comp _ _ E). apply Qfloor_Z. Qed.

Lemma nearestEven_integer (x : Q) (m : Z) :
  x == inject_Z m -> nearestEven x = m.
Proof.
  intros E. unfold nearestEven. rewrite (Qfloor_integer x m E).
  assert (Hr : x - inject_Z m == 0) by (rewrite E; ring).
  rewrite (Qcompare_comp _ _ Hr (1 # 2) (1 # 2) (Qeq_refl _)).
  reflexivity.
Qed.

Lemma nearestEven_nonneg (x : Q) : 0 <= x -> (0 <= nearestEven x)%Z.
Proof.
  intros Hx. unfold nearestEven.
  assert (Hf : (0 <= Qfloor x)%Z).
  { change 0%Z with (Qfloor 0). apply Qfloor_resp_le, Hx. }
  destruct (Qcompare _ _); [destruct (Z.even _)| |]; lia.
Qed.

Lemma nearestEven_below (x : Q) (k : Z) :
  x <= inject_Z k -> (nearestEven x <= k)%Z.
Proof.
  intros Hx. unfold nearestEven.
  assert (Hf : (Qfloor x <= k)%Z).
  { rewrite <- (Qfloor_Z k). apply Qfloor_resp_le, Hx. }
  destruct (Z.eq_dec (Qfloor x) k) as [E|E].
  - assert (Hle : inject_Z (Qfloor x) <= x) by apply Qfloor_le.
    assert (Hr : x - inject_Z (Qfloor x) == 0).
    { rewrite E in *. apply Qle_antisym.
      - apply (Qplus_le_l _ _ (inject_Z k)). ring_simplify. exact Hx.
      - apply (Qplus_le_l _ _ (inject_Z k)). ring_simplify. exact Hle. }
    rewrite (Qcompare_comp _ _ Hr (1 # 2) (1 # 2) (Qeq_refl _)).
    simpl. lia.
  - destruct (Qcompare _ _); [destruct (Z.even _)| |]; lia.
Qed.

(** A positive rational below [2 ^ 53] is in a binade below 53. *)
Lemma binade_below (q : Q) (B : Z) :
  0 < q -> q <= inject_Z B -> (B < 2 ^ 53)%Z -> (binade q <= 52)%Z.
Proof.
  intros Hq HB Hlt. pose proof (Qnum_pos q Hq) as Hn.
  destruct q as [n d]. simpl in Hn.
  assert (Hnd : (n <= B * Zpos d)%Z).
  { unfold Qle in HB. simpl in HB. lia. }
  assert (Hd : (Zpos d < 2 ^ (Z.log2 (Zpos d) + 1))%Z).
  { replace (Z.log2 (Zpos d) + 1)%Z with (Z.succ (Z.log2 (Zpos d))) by lia.
    apply Z.log2_spec. lia. }
  assert (HB0 : (0 < B)%Z).
  { destruct (Z_lt_le_dec 0 B) as [H|H]; [exact H|]. nia. }
  assert (He0 : (Z.log2 n <= 53 + Z.log2 (Zpos d))%Z).
  { assert (Hlog : (Z.log2 n < 54 + Z.log2 (Zpos d))%Z).
    { apply Z.log2_lt_pow2; [exact Hn|].
      replace (54 + Z.log2 (Zpos d))%Z
        with (53 + (Z.log2 (Zpos d) + 1))%Z by lia.
      rewrite Z.pow_add_r by (pose proof (Z.log2_nonneg (Zpos d)); lia).
      assert (0 < 2 ^ 53)%Z by (apply Z.pow_pos_nonneg; lia).
      nia. }
    lia. }
  unfold binade. simpl Qnum. simpl Qden.
  destruct (Qle_bool (pow2 (Z.log2 n - Z.log2 (Zpos d))) (n # d)) eqn:Eg;
    [|lia].
  destruct (Z.eq_dec (Z.log2 n - Z.log2 (Zpos d))%Z 53%Z) as [E|E]; [|lia].
  rewrite E in Eg. apply Qle_bool_iff in Eg.
  assert (Hcontra : inject_Z (2 ^ 53) <= inject_Z B).
  { eapply Qle_trans; [exact Eg|exact HB]. }
  rewrite <- Zle_Qle in Hcontra. lia.
Qed.

(** Rounding keeps a number between 0 and an integer below [2 ^ 53]. *)
Lemma round_bounded (q : Q) (B : Z) :
  0 <= q -> q <= inject_Z B -> (B < 2 ^ 53)%Z ->
  exists r, round q = Num r /\ 0 <= r <= inject_Z B.
Proof.
  intros H0 HB Hlt.
  assert (HB0 : 0 <= inject_Z B) by (eapply Qle_trans; eassumption).
  destruct (Qeq_bool q 0) eqn:Ez.
  - exists 0. unfold round. rewrite Ez. split; [reflexivity|].
    split; [apply Qle_refl|exact HB0].
  - assert (Hq : 0 < q).
    { apply Qle_lteq in H0. destruct H0 as [H|H]; [exact H|].
      symmetry in H. apply Qeq_bool_iff in H. congruence. }
    rewrite (round_positive q Hq). cbv zeta.
    pose proof (binade_below q B Hq HB Hlt) as He.
    set (E := Z.max (binade q) (-1022)).
    assert (HE : (E - 52 <= 0)%Z) by (unfold E; lia).
    set (ulp := pow2 (E - 52)).
    pose proof (pow2_pos (E - 52)) as Hulp. fold ulp in Hulp.
    pose proof (pow2_inverse (E - 52) HE) as Hinv. fold ulp in Hinv.
    set (K := (B * 2 ^ (- (E - 52)))%Z).
    assert (HK : inject_Z K * ulp == inject_Z B).
    { unfold K. rewrite inject_Z_mult.
      rewrite <- Qmult_assoc, (Qmult_comm (inject_Z _) ulp), Hinv.
      ring. }
    assert (Hx : q / ulp <= inject_Z K).
    { apply Qle_shift_div_r; [exact Hulp|]. rewrite HK. exact HB. }
    assert (Hx0 : 0 <= q / ulp).
    { apply Qle_shift_div_l; [exact Hulp|]. rewrite Qmult_0_l. exact H0. }
    pose proof (nearestEven_below _ _ Hx) as Hup.
    pose proof (nearestEven_nonneg _ Hx0) as Hlow.
    set (m := nearestEven (q / ulp)) in *.
    assert (Hr0 : 0 <= inject_Z m * ulp).
    { apply Qmult_le_0_compat; [|apply Qlt_le_weak, Hulp].
      rewrite <- (Zle_Qle 0). exact Hlow. }
    assert (HrB : inject_Z m * ulp <= inject_Z B).
    { rewrite <- HK. apply Qmult_le_compat_r; [|apply Qlt_le_weak, Hulp].
      rewrite <- Zle_Qle. exact Hup. }
    destruct (Qle_bool (pow2 1024) (inject_Z m * ulp)) eqn:Eo.
    + exfalso. apply Qle_bool_iff in Eo.
      assert (Hbig : inject_Z (2 ^ 1024) <= inject_Z B).
      { eapply Qle_trans; [exact Eo|exact HrB]. }
      rewrite <- Zle_Qle in Hbig.
      assert (2 ^ 53 < 2 ^ 1024)%Z by (apply Z.pow_lt_mono_r; lia).
      lia.
    + eexists. split; [reflexivity|]. rewrite Qred_correct.
      split; assumption.
Qed.

(** An integer from 0 to [2 ^ 53] is a double. *)
Lemma round_integer (n : Z) :
  (0 <= n < 2 ^ 53)%Z ->
  exists r, round (inject_Z n) = Num r /\ r == inject_Z n.
Proof.
  intros [H0 Hlt].
  destruct (Z.eq_dec n 0%Z) as [->|Hn].
  - exists 0. split; reflexivity.
  - assert (Hpos : (0 < n)%Z) by lia.
    assert (Hq : 0 < inject_Z n) by (rewrite <- (Zlt_Qlt 0); exact Hpos).
    rewrite (round_positive _ Hq). cbv zeta.
    assert (Hlog : (0 <= Z.log2 n <= 52)%Z).
    { split; [apply Z.log2_nonneg|].
      assert (Z.log2 n < 53)%Z by (apply Z.log2_lt_pow2; assumption). lia. }
    assert (He : binade (inject_Z n) = Z.log2 n).
    { unfold binade. simpl. rewrite Z.sub_0_r.
      destruct (Qle_bool (pow2 (Z.log2 n)) (inject_Z n)) eqn:Eg;
        [reflexivity|].
      exfalso.
      assert (Hle : pow2 (Z.log2 n) <= inject_Z n).
      { unfold pow2.
        replace (0 <=? Z.log2 n)%Z with true
          by (symmetry; apply Z.leb_le; lia).
        rewrite <- Zle_Qle. apply Z.log2_spec. exact Hpos. }
      apply Qle_bool_iff in Hle. congruence. }
    rewrite He.
    replace (Z.max (Z.log2 n) (-1022)) with (Z.log2 n) by lia.
    set (e := (Z.log2 n - 52)%Z).
    assert (HE : (e <= 0)%Z) by (unfold e; lia).
    set (ulp := pow2 e).
    pose proof (pow2_pos e) as Hulp. fold ulp in Hulp.
    pose proof (pow2_inverse e HE) as Hinv. fold ulp in Hinv.
    set (M := (n * 2 ^ (- e))%Z).
    assert (HM : inject_Z M * ulp == inject_Z n).
    { unfold M. rewrite inject_Z_mult.
      rewrite <- Qmult_assoc, (Qmult_comm (inject_Z _) ulp), Hinv.
      ring. }
    assert (Hx : inject_Z n / ulp == inject_Z M).
    { rewrite <- HM. field. intros E0. rewrite E0 in Hulp.
      destruct (Qlt_irrefl _ Hulp). }
    rewrite (nearestEven_integer _ _ Hx).
    destruct (Qle_bool (pow2 1024) (inject_Z M * ulp)) eqn:Eo.
    + exfalso. apply Qle_bool_iff in Eo. rewrite HM in Eo.
      change (pow2 1024) with (inject_Z (2 ^ 1024)) in Eo.
      rewrite <- Zle_Qle in Eo.
      assert (2 ^ 53 < 2 ^ 1024)%Z by (apply Z.pow_lt_mono_r; lia).
      lia.
    + eexists. split; [reflexivity|]. rewrite Qred_correct. exact HM.
Qed.

(** Rounding to the nearest integer moves a number by at most a half. *)
Lemma nearestEven_error (x : Q) :
  Qabs (inject_Z (nearestEven x) - x) <= 1 # 2.
Proof.
  unfold nearestEven.
  pose proof (Qfloor_le x) as Hlow.
  pose proof (Qlt_floor x) as Hup.
  set (f := Qfloor x) in *.
  assert (Hsucc : inject_Z (f + 1) == inject_Z f + 1).
  { rewrite inject_Z_plus. reflexivity. }
  rewrite Hsucc in Hup.
  apply Qabs_Qle_condition.
  destruct (Qcompare (x - inject_Z f) (1 # 2)) eqn:Ec.
  - apply Qeq_alt in Ec.
    destruct (Z.even f); [|rewrite Hsucc]; lra.
  - apply Qlt_alt in Ec. lra.
  - apply Qgt_alt in Ec. rewrite Hsucc. lra.
Qed.

(** A positive rational below [2 ^ (k + 1)] is in a binade up to [k]. *)
Lemma binade_le (q : Q) (B k : Z) :
  0 < q -> q <= inject_Z B -> (0 <= k)%Z -> (B < 2 ^ (k + 1))%Z ->
  (binade q <= k)%Z.
Proof.
  intros Hq HB Hk Hlt. pose proof (Qnum_pos q Hq) as Hn.
  destruct q as [n d]. simpl in Hn.
  assert (Hnd : (n <= B * Zpos d)%Z).
  { unfold Qle in HB. simpl in HB. lia. }
  assert (Hd : (Zpos d < 2 ^ (Z.log2 (Zpos d) + 1))%Z).
  { replace (Z.log2 (Zpos d) + 1)%Z with (Z.succ (Z.log2 (Zpos d))) by lia.
    apply Z.log2_spec. lia. }
  assert (HB0 : (0 < B)%Z).
  { destruct (Z_lt_le_dec 0 B) as [H|H]; [exact H|]. nia. }
  pose proof (Z.log2_nonneg (Zpos d)) as Hld.
  assert (He0 : (Z.log2 n <= k + 1 + Z.log2 (Zpos d))%Z).
  { assert (Hlog : (Z.log2 n < k + 2 + Z.log2 (Zpos d))%Z).
    { apply Z.log2_lt_pow2; [exact Hn|].
      replace (k + 2 + Z.log2 (Zpos d))%Z
        with ((k + 1) + (Z.log2 (Zpos d) + 1))%Z by lia.
      rewrite Z.pow_add_r by lia.
      assert (0 < 2 ^ (k + 1))%Z by (apply Z.pow_pos_nonneg; lia).
      nia. }
    lia. }
  unfold binade. simpl Qnum. simpl Qden.
  destruct (Qle_bool (pow2 (Z.log2 n - Z.log2 (Zpos d))) (n # d)) eqn:Eg;
    [|lia].
  destruct (Z.eq_dec (Z.log2 n - Z.log2 (Zpos d))%Z (k + 1)%Z) as [E|E];
    [|lia].
  rewrite E in Eg. apply Qle_bool_iff in Eg.
  assert (Hcontra : inject_Z (2 ^ (k + 1)) <= inject_Z B).
  { eapply Qle_trans; [|exact HB].
    unfold pow2 in Eg.
    replace (0 <=? k + 1)%Z with true in Eg
      by (symmetry; apply Z.leb_le; lia).
    exact Eg. }
  rewrite <- Zle_Qle in Hcontra. lia.
Qed.

(** Rounding a number between 0 and an integer below [2 ^ (k + 1)] moves
    it by at most [2 ^ (k - 53)], half the spacing of the doubles of the
    binade [k]. *)
Lemma round_error (q : Q) (B k : Z) :
  0 <= q -> q <= inject_Z B -> (0 <= k <= 52)%Z -> (B < 2 ^ (k + 1))%Z ->
  exists r,
    round q = Num r
    /\ 0 <= r <= inject_Z B
    /\ Qabs (r - q) * inject_Z (2 ^ (53 - k)) <= 1.
Proof.
  intros H0 HB Hk Hlt.
  assert (Hlt53 : (B < 2 ^ 53)%Z).
  { assert (2 ^ (k + 1) <= 2 ^ 53)%Z by (apply Z.pow_le_mono_r; lia). lia. }
  destruct (round_bounded q B H0 HB Hlt53) as (r & Hr & Hr0 & HrB).
  exists r. split; [exact Hr|]. split; [split; assumption|].
  destruct (Qeq_bool q 0) eqn:Ez.
  - apply Qeq_bool_iff in Ez. unfold round in Hr.
    assert (Ez' : Qeq_bool q 0 = true) by (apply Qeq_bool_iff; exact Ez).
    rewrite Ez' in Hr. injection Hr as <-.
    assert (Hz : 0 - q == 0) by (rewrite Ez; ring).
    rewrite Hz. simpl. rewrite Qmult_0_l. discriminate.
  - assert (Hq : 0 < q).
    { apply Qle_lteq in H0. destruct H0 as [H|H]; [exact H|].
      symmetry in H. apply Qeq_bool_iff in H. congruence. }
    rewrite (round_positive q Hq) in Hr. cbv zeta in Hr.
    pose proof (binade_le q B k Hq HB (proj1 Hk) Hlt) as He.
    set (E := Z.max (binade q) (-1022)) in *.
    assert (HE : (E - 52 <= 0)%Z) by (unfold E; lia).
    assert (HEk : (E <= k)%Z) by (unfold E; lia).
    pose proof (pow2_pos (E - 52)) as Hulp.
    pose proof (pow2_inverse (E - 52) HE) as Hinv.
    set (ulp := pow2 (E - 52)) in *.
    pose proof (nearestEven_error (q / ulp)) as Hnear.
    set (m := nearestEven (q / ulp)) in *.
    destruct (Qle_bool (pow2 1024) (inject_Z m * ulp)); [discriminate|].
    injection Hr as <-.
    assert (Hulp0 : ~ ulp == 0).
    { intros E0. rewrite E0 in Hulp. destruct (Qlt_irrefl _ Hulp). }
    assert (Hdiff : Qabs (Qred (inject_Z m * ulp) - q)
                    == Qabs (inject_Z m - q / ulp) * ulp).
    { rewrite Qred_correct.
      assert (Hf : inject_Z m * ulp - q
                   == (inject_Z m - q / ulp) * ulp)
        by (field; exact Hulp0).
      rewrite Hf, Qabs_Qmult.
      rewrite (Qabs_pos ulp) by (apply Qlt_le_weak, Hulp).
      reflexivity. }
    rewrite Hdiff.
    set (a := Qabs (inject_Z m - q / ulp)) in *.
    assert (Ha : 0 <= a) by apply Qabs_nonneg.
    assert (Hpow : (2 ^ (53 - k) = 2 * 2 ^ (52 - k))%Z).
    { replace (53 - k)%Z with (Z.succ (52 - k)) by lia.
      apply Z.pow_succ_r. lia. }
    assert (Hmono : (2 ^ (52 - k) <= 2 ^ (- (E - 52)))%Z).
    { apply Z.pow_le_mono_r; lia. }
    assert (Hp : (0 < 2 ^ (52 - k))%Z) by (apply Z.pow_pos_nonneg; lia).
    rewrite Hpow, inject_Z_mult.
    apply Qle_trans with (ulp * inject_Z (2 ^ (52 - k))).
    + set (p := ulp * inject_Z (2 ^ (52 - k))).
      assert (Hl : a * ulp * (inject_Z 2 * inject_Z (2 ^ (52 - k)))
                   == (a * inject_Z 2) * p) by (unfold p; ring).
      rewrite Hl. apply Qle_trans with (1 * p);
        [|rewrite Qmult_1_l; apply Qle_refl].
      apply Qmult_le_compat_r.
      * change (inject_Z 2) with 2. lra.
      * unfold p. apply Qmult_le_0_compat; [apply Qlt_le_weak, Hulp|].
        rewrite <- (Zle_Qle 0). lia.
    + rewrite <- Hinv. apply Qmult_le_l; [exact Hulp|].
      rewrite <- Zle_Qle. exact Hmono.
Qed.

End RoundProofs.

Lemma ofNat_binary64 (n : nat) :
  ofNat (ar := binary64) n = Binary64.round (inject_Z (Z.of_nat n)).
Proof. reflexivity. Qed.

Lemma numDiv_binary64 (x y : Q) :
  Qeq_bool y 0 = false ->
  numDiv (ar := binary64) (Num x) (Num y) = Binary64.round (x / y).
Proof. intros Hy. unfold numDiv. rewrite Hy. reflexivity. Qed.

Lemma numMul_binary64 (x y : Q) :
  numMul (ar := binary64) (Num x) (Num y) = Binary64.round (x * y).
Proof. reflexivity. Qed.

(** In binary64 the rate of [c] items out of [t], fewer than [2 ^ 53], is
    a percentage, within [3 x 2 ^ -47] of 100 x c / t: the division is
    rounded in a binade up to that of 1 and the product in a binade up to
    that of 64. *)
Lemma completionRate_binary64 (c t : nat) :
  (c <= t)%nat -> (0 < t)%nat -> (Z.of_nat t < 2 ^ 53)%Z ->
  exists q,
    numMul (ar := binary64)
      (numDiv (ar := binary64) (ofNat (ar := binary64) c)
                               (ofNat (ar := binary64) t))
      (Num 100) = Num q
    /\ (0 <= q <= 100)%Q
    /\ (Qabs (q - 100 * countQ c / countQ t)
        <= 3 * Binary64.pow2 (-47))%Q.
Proof.
  intros Hct Ht Hlt. rewrite !ofNat_binary64.
  destruct (RoundProofs.round_integer (Z.of_nat c)) as (rc & -> & Ec);
    [lia|].
  destruct (RoundProofs.round_integer (Z.of_nat t)) as (rt & -> & Et);
    [lia|].
  fold (countQ c) in Ec. fold (countQ t) in Et.
  assert (Hrt : (0 < rt)%Q).
  { rewrite Et. unfold countQ. rewrite <- (Zlt_Qlt 0). lia. }
  assert (Hrc : (0 <= rc)%Q).
  { rewrite Ec. unfold countQ. rewrite <- (Zle_Qle 0). lia. }
  assert (Hle : (rc <= rt)%Q).
  { rewrite Ec, Et. unfold countQ. rewrite <- Zle_Qle. lia. }
  assert (Hnz : ~ (rt == 0)%Q).
  { intros Ez. rewrite Ez in Hrt. destruct (Qlt_irrefl _ Hrt). }
  assert (Hz : Qeq_bool rt 0 = false).
  { destruct (Qeq_bool rt 0) eqn:Ez; [|reflexivity].
    apply Qeq_bool_iff in Ez. destruct (Hnz Ez). }
  rewrite (numDiv_binary64 _ _ Hz).
  destruct (RoundProofs.round_error (rc / rt) 1 0)
    as (x & -> & (Hx0 & Hx1) & Hxe).
  { apply Qle_shift_div_l; [exact Hrt|]. rewrite Qmult_0_l. exact Hrc. }
  { apply Qle_shift_div_r; [exact Hrt|]. rewrite Qmult_1_l. exact Hle. }
  { lia. }
  { reflexivity. }
  rewrite numMul_binary64.
  destruct (RoundProofs.round_error (x * 100) 100 6)
    as (y & -> & Hy & Hye).
  { apply Qmult_le_0_compat; [exact Hx0|discriminate]. }
  { apply Qle_trans with (1 * 100)%Q; [|apply Qle_refl].
    apply Qmult_le_compat_r; [exact Hx1|discriminate]. }
  { lia. }
  { reflexivity. }
  exists y. split; [reflexivity|]. split; [exact Hy|].
  assert (Hideal : (100 * countQ c / countQ t == rc / rt * 100)%Q).
  { rewrite <- Ec, <- Et. field. exact Hnz. }
  rewrite Hideal.
  change (inject_Z (2 ^ (53 - 0))) with (9007199254740992 # 1)%Q in Hxe.
  change (inject_Z (2 ^ (53 - 6))) with (140737488355328 # 1)%Q in Hye.
  change (Binary64.pow2 (-47)) with (1 # 140737488355328)%Q.
  set (ideal := (rc / rt)%Q) in *.
  assert (Hxa : (Qabs (x - ideal) <= 1 # 9007199254740992)%Q).
  { set (a := Qabs (x - ideal)) in *. lra. }
  assert (Hya : (Qabs (y - x * 100) <= 1 # 140737488355328)%Q).
  { set (a := Qabs (y - x * 100)) in *. lra. }
  apply Qabs_Qle_condition in Hxa. apply Qabs_Qle_condition in Hya.
  apply Qabs_Qle_condition. lra.
Qed.

(** ** Properties of the statistics *)

Lemma fold_left_add_from {A} (f : A -> nat) (l : list A) (a : nat) :
  fold_left (fun acc s => acc + f s) l a
  = a + fold_left (fun acc s => acc + f s) l 0.
Proof.
  revert a; induction l as [|x l IH]; intros a; simpl.
  - lia.
  - rewrite (IH (a + f x)), (IH (f x)). lia.
Qed.

Lemma totalItems_length (l : list Schedule) :
  totalItems l = length (allItems l).
Proof.
  unfold totalItems, allItems.
  induction l as [|s l IH]; simpl; [reflexivity|].
  rewrite fold_left_add_from, IH, length_app.
  unfold itemCount. destruct (items s); reflexivity.
Qed.

Lemma completedItems_length (l : list Schedule) :
  completedItems l = completedCount (allItems l).
Proof.
  unfold completedItems, completedCount, allItems.
  induction l as [|s l IH]; simpl; [reflexivity|].
  rewrite fold_left_add_from, IH, List.filter_app, length_app.
  destruct (items s); reflexivity.
Qed.

Lemma highPriorityTasks_length (l : list Schedule) :
  highPriorityTasks l = length (List.filter isHigh (allItems l)).
Proof.
  unfold highPriorityTasks, allItems.
  induction l as [|s l IH]; simpl; [reflexivity|].
  rewrite fold_left_add_from, IH, List.filter_app, length_app.
  destruct (items s); reflexivity.
Qed.

Lemma countQ_pos (n : nat) : ~ (countQ (S n) == 0)%Q.
Proof.
  unfold countQ, Qeq; simpl. lia.
Qed.

Lemma statsFor_fields `{DateRuntime} `{Arithmetic} (l : list Schedule)
    (v : Stats.t) :
  statsFor (arrayOf l) = Some v ->
  Stats.completionRate v = completionRate l
  /\ Stats.totalHours v = totalHours l
  /\ Stats.totalTasks v = totalItems l
  /\ Stats.highPriorityTasks v = highPriorityTasks l
  /\ Stats.topCategory v = topCategory l
  /\ Stats.categoryCount v = categoryCount l.
Proof.
  destruct l as [|s l]; simpl.
  - intros [= <-]. repeat split; reflexivity.
  - unfold statsOf. destruct (todayItems (s :: l)); [|discriminate].
    intros [= <-]. repeat split; reflexivity.
Qed.

(** The rate is computed from the two counts, by a division and then a
    multiplication, in whatever arithmetic. *)
Lemma completionRate_counts `{Arithmetic} (l : list Schedule) :
  completionRate l
  = if (0 <? length (allItems l))%nat
    then numMul (numDiv (ofNat (completedCount (allItems l)))
                        (ofNat (length (allItems l))))
                (Num 100)
    else Num 0.
Proof.
  unfold completionRate.
  rewrite totalItems_length, completedItems_length. reflexivity.
Qed.

(** In exact arithmetic the rate is the rational of the specification. *)
Lemma completionRate_spec (l : list Schedule) :
  numEq (completionRate (ar := exact) l)
        (Num (specCompletionRate (allItems l))).
Proof.
  rewrite completionRate_counts. unfold specCompletionRate.
  destruct (length (allItems l)) as [|n] eqn:E; simpl.
  - reflexivity.
  - unfold numDiv, numMul, ofNat, ofZ. simpl rounded.
    fold (countQ (S n)). fold (countQ (completedCount (allItems l))).
    destruct (Qeq_bool (countQ (S n)) 0) eqn:Ez.
    + apply Qeq_bool_iff in Ez. destruct (countQ_pos n Ez).
    + simpl. field. apply countQ_pos.
Qed.

(** C1, amended. The completion rate [calculateStats] computes is 0 when
    the collection has no item, which includes the empty collection and an
    argument that is not an array. When it has items, the rate is the
    number of completed items divided by the number of items and then
    multiplied by 100, each operation in the arithmetic of the runtime. In
    exact arithmetic that is 100 x completed / total; in binary64, for
    fewer than [2 ^ 53] items, it is within [3 x 2 ^ -47] of it. *)
Theorem calculateStats_completionRate `{DateRuntime} `{Arithmetic}
    (scheduleData : ScheduleData) (v : Stats.t) :
  statsFor scheduleData = Some v ->
  ((0 < length (itemsOf scheduleData))%nat ->
   Stats.completionRate v
   = numMul (numDiv (ofNat (completedCount (itemsOf scheduleData)))
                    (ofNat (length (itemsOf scheduleData))))
            (Num 100))
  /\ (length (itemsOf scheduleData) = 0%nat ->
      Stats.completionRate v = Num 0)
  /\ (forall v',
        statsFor (ar := exact) scheduleData = Some v' ->
        numEq (Stats.completionRate v')
              (Num (specCompletionRate (itemsOf scheduleData)))
        /\ ((0 < length (itemsOf scheduleData))%nat ->
            numEq (Stats.completionRate v')
                  (Num (100 * countQ (completedCount (itemsOf scheduleData))
                        / countQ (length (itemsOf scheduleData))))))
  /\ (forall v',
        statsFor (ar := binary64) scheduleData = Some v' ->
        (0 < length (itemsOf scheduleData))%nat ->
        (Z.of_nat (length (itemsOf scheduleData)) < 2 ^ 53)%Z ->
        exists q,
          Stats.completionRate v' = Num q
          /\ (Qabs (q - 100 * countQ (completedCount (itemsOf scheduleData))
                        / countQ (length (itemsOf scheduleData)))
              <= 3 * Binary64.pow2 (-47))%Q).
Proof.
  intros Hv.
  assert (Hrate : Stats.completionRate v
                  = if (0 <? length (itemsOf scheduleData))%nat
                    then numMul
                           (numDiv
                              (ofNat (completedCount (itemsOf scheduleData)))
                              (ofNat (length (itemsOf scheduleData))))
                           (Num 100)
                    else Num 0).
  { destruct scheduleData as [|l]; simpl in *.
    - injection Hv as <-. reflexivity.
    - destruct (statsFor_fields l v Hv) as [-> _].
      apply completionRate_counts. }
  split; [|split; [|split]].
  - intros Hlen. apply Nat.ltb_lt in Hlen. rewrite Hlen in Hrate.
    exact Hrate.
  - intros Hlen. rewrite Hlen in Hrate. exact Hrate.
  - intros v' Hv'.
    assert (Hspec : numEq (Stats.completionRate v')
                          (Num (specCompletionRate (itemsOf scheduleData)))).
    { destruct scheduleData as [|l]; simpl in *.
      - injection Hv' as <-. reflexivity.
      - destruct (statsFor_fields (H0 := exact) l v' Hv') as [-> _].
        apply completionRate_spec. }
    split; [exact Hspec|].
    intros Hlen. unfold specCompletionRate in Hspec.
    destruct (length (itemsOf scheduleData)); [lia|exact Hspec].
  - intros v' Hv' Hlen Hsize.
    assert (Hrate' : Stats.completionRate v'
                     = numMul (ar := binary64)
                         (numDiv (ar := binary64)
                            (ofNat (ar := binary64)
                               (completedCount (itemsOf scheduleData)))
                            (ofNat (ar := binary64)
                               (length (itemsOf scheduleData))))
                         (Num 100)).
    { destruct scheduleData as [|l]; simpl in *; [lia|].
      destruct (statsFor_fields (H0 := binary64) l v' Hv') as [-> _].
      rewrite completionRate_counts.
      apply Nat.ltb_lt in Hlen. rewrite Hlen. reflexivity. }
    destruct (completionRate_binary64
                (completedCount (itemsOf scheduleData))
                (length (itemsOf scheduleData)))
      as (q & Hq & _ & Herr);
      [apply List.filter_length_le|exact Hlen|exact Hsize|].
    exists q. rewrite Hrate'. split; [exact Hq|exact Herr].
Qed.

Lemma numEq_refl (a : Number) : numEq a a.
Proof. destruct a; simpl; [exact I|reflexivity|reflexivity]. Qed.

Lemma numEq_sym (a b : Number) : numEq a b -> numEq b a.
Proof. destruct a, b; simpl; auto. intros E; symmetry; exact E. Qed.

Lemma numEq_trans (a b c : Number) : numEq a b -> numEq b c -> numEq a c.
Proof.
  destruct a, b, c; simpl; auto; try contradiction.
  - intros -> ->. reflexivity.
  - intros E1 E2. rewrite E1. exact E2.
Qed.

(** Addition in exact arithmetic. *)
Lemma numAdd_compat (a a' b b' : Number) :
  numEq a a' -> numEq b b' ->
  numEq (numAdd (ar := exact) a b) (numAdd (ar := exact) a' b').
Proof.
  destruct a, a', b, b'; simpl; auto; try contradiction.
  - intros -> ->. apply numEq_refl.
  - intros E1 E2. rewrite E1, E2. reflexivity.
Qed.

Lemma numAdd_assoc (a b c : Number) :
  numEq (numAdd (ar := exact) (numAdd (ar := exact) a b) c)
        (numAdd (ar := exact) a (numAdd (ar := exact) b c)).
Proof.
  destruct a as [|[]|], b as [|[]|], c as [|[]|]; simpl; auto. ring.
Qed.

Lemma numAdd_zero_l (a : Number) :
  numEq (numAdd (ar := exact) (Num 0) a) a.
Proof. destruct a; simpl; auto. ring. Qed.

Lemma numAdd_zero_r (a : Number) :
  numEq (numAdd (ar := exact) a (Num 0)) a.
Proof. destruct a; simpl; auto. ring. Qed.

Lemma sumNumbers_app (l1 l2 : list Number) :
  numEq (sumNumbers (ar := exact) (l1 ++ l2))
        (numAdd (ar := exact) (sumNumbers (ar := exact) l1)
                (sumNumbers (ar := exact) l2)).
Proof.
  induction l1 as [|x l1 IH]; simpl.
  - apply numEq_sym, numAdd_zero_l.
  - eapply numEq_trans; [|apply numEq_sym, numAdd_assoc].
    apply numAdd_compat; [apply numEq_refl|exact IH].
Qed.

Section HoursOrder.
Context {rt : DateRuntime} {ar : Arithmetic}.

(** The reducer leaves the sum as it is when a time is missing, and adds
    the duration otherwise. *)
Lemma addItemHours_duration (acc : Number) (item : Item) :
  addItemHours acc item
  = if hasBothTimes item then numAdd acc (duration item) else acc.
Proof.
  unfold addItemHours, hasBothTimes, duration.
  destruct (truthy (startTime item)), (truthy (endTime item)); reflexivity.
Qed.

Lemma fold_addItemHours_order (l : list Item) (acc : Number) :
  fold_left addItemHours l acc
  = fold_left numAdd (map duration (List.filter hasBothTimes l)) acc.
Proof.
  revert acc; induction l as [|x l IH]; intros acc; simpl; [reflexivity|].
  rewrite IH, addItemHours_duration.
  destruct (hasBothTimes x); reflexivity.
Qed.

Lemma fold_schedule_hours_order (l : list Schedule) (acc : Number) :
  fold_left
    (fun acc schedule =>
       match items schedule with
       | None => acc
       | Some l => numAdd acc (fold_left addItemHours l (Num 0))
       end) l acc
  = fold_left numAdd (map scheduleHours (itemLists l)) acc.
Proof.
  revert acc; induction l as [|s l IH]; intros acc; simpl; [reflexivity|].
  rewrite IH. unfold itemLists; simpl.
  destruct (items s) as [l0|]; simpl; [|reflexivity].
  unfold scheduleHours, sumInOrder. rewrite fold_addItemHours_order.
  reflexivity.
Qed.

(** The total is added schedule by schedule, and within a schedule item
    by item. *)
Lemma totalHours_order (l : list Schedule) :
  totalHours l = sumInOrder (map scheduleHours (itemLists l)).
Proof. apply fold_schedule_hours_order. Qed.

End HoursOrder.

Section HoursProofs.
Context {rt : DateRuntime}.

(** In exact arithmetic the reducer adds the item's contribution: nothing
    when a time is missing, the duration otherwise. *)
Lemma addItemHours_contribution (acc : Number) (item : Item) :
  numEq (addItemHours (ar := exact) acc item)
        (numAdd (ar := exact) acc (contribution (ar := exact) item)).
Proof.
  rewrite addItemHours_duration. unfold contribution.
  destruct (hasBothTimes item).
  - apply numEq_refl.
  - apply numEq_sym, numAdd_zero_r.
Qed.

Lemma fold_addItemHours (l : list Item) (acc : Number) :
  numEq (fold_left (addItemHours (ar := exact)) l acc)
        (numAdd (ar := exact) acc
           (sumNumbers (ar := exact) (map (contribution (ar := exact)) l))).
Proof.
  revert acc; induction l as [|x l IH]; intros acc; simpl.
  - apply numEq_sym, numAdd_zero_r.
  - eapply numEq_trans; [apply IH|].
    eapply numEq_trans; [|apply numAdd_assoc].
    apply numAdd_compat; [|apply numEq_refl].
    apply addItemHours_contribution.
Qed.

Lemma fold_schedule_hours (l : list Schedule) (acc : Number) :
  numEq
    (fold_left
       (fun acc schedule =>
          match items schedule with
          | None => acc
          | Some l =>
              numAdd (ar := exact) acc
                (fold_left (addItemHours (ar := exact)) l (Num 0))
          end) l acc)
    (numAdd (ar := exact) acc
       (sumNumbers (ar := exact)
          (map (contribution (ar := exact)) (allItems l)))).
Proof.
  revert acc; induction l as [|s l IH]; intros acc; simpl.
  - apply numEq_sym, numAdd_zero_r.
  - eapply numEq_trans; [apply IH|].
    unfold allItems in *; simpl.
    destruct (items s) as [l0|]; simpl.
    + rewrite map_app.
      eapply numEq_trans;
        [|apply numAdd_compat;
           [apply numEq_refl|apply numEq_sym, sumNumbers_app]].
      eapply numEq_trans; [|apply numAdd_assoc].
      apply numAdd_compat; [|apply numEq_refl].
      apply numAdd_compat; [apply numEq_refl|].
      eapply numEq_trans; [apply fold_addItemHours|apply numAdd_zero_l].
    + apply numEq_refl.
Qed.

Lemma totalHours_contributions (l : list Schedule) :
  numEq (totalHours (ar := exact) l)
        (sumNumbers (ar := exact)
           (map (contribution (ar := exact)) (allItems l))).
Proof.
  unfold totalHours.
  eapply numEq_trans; [apply fold_schedule_hours|apply numAdd_zero_l].
Qed.

(** Summing the contributions of all items is summing the durations of
    the items that have both times. *)
Lemma contributions_specTotalHours (l : list Item) :
  numEq (sumNumbers (ar := exact) (map (contribution (ar := exact)) l))
        (specTotalHours (ar := exact) l).
Proof.
  unfold specTotalHours.
  induction l as [|x l IH]; simpl; [reflexivity|].
  unfold contribution at 1.
  destruct (hasBothTimes x); simpl.
  - apply numAdd_compat; [apply numEq_refl|exact IH].
  - eapply numEq_trans; [apply numAdd_zero_l|exact IH].
Qed.

(** C2, amended. The total of hours [calculateStats] computes is a sum of
    (end - start), read as clock times of one day and measured in hours,
    over the items that have both a start and an end time; an item that
    lacks a time leaves the sum as it is. The durations of a schedule are
    added in order, starting from 0, and these sums are added schedule by
    schedule, each operation in the arithmetic of the runtime; in exact
    arithmetic the result is the sum over all such items. *)
Theorem calculateStats_totalHours `{Arithmetic}
    (scheduleData : ScheduleData) (v : Stats.t) :
  statsFor scheduleData = Some v ->
  Stats.totalHours v
  = sumInOrder (map scheduleHours (itemListsOf scheduleData))
  /\ (forall item acc,
        hasBothTimes item = false ->
        addItemHours acc item = acc /\ contribution item = Num 0)
  /\ (forall v',
        statsFor (ar := exact) scheduleData = Some v' ->
        numEq (Stats.totalHours v')
              (specTotalHours (ar := exact) (itemsOf scheduleData))
        /\ numEq (Stats.totalHours v')
                 (sumNumbers (ar := exact)
                    (map (contribution (ar := exact))
                         (itemsOf scheduleData)))).
Proof.
  intros Hv. split; [|split].
  - destruct scheduleData as [|l]; simpl in *.
    + injection Hv as <-. reflexivity.
    + destruct (statsFor_fields l v Hv) as (_ & -> & _).
      apply totalHours_order.
  - intros item acc Hmissing.
    rewrite addItemHours_duration. unfold contribution.
    rewrite Hmissing. split; reflexivity.
  - intros v' Hv'.
    assert (Hsum : numEq (Stats.totalHours v')
                     (sumNumbers (ar := exact)
                        (map (contribution (ar := exact))
                             (itemsOf scheduleData)))).
    { destruct scheduleData as [|l]; simpl in *.
      - injection Hv' as <-. simpl. reflexivity.
      - destruct (statsFor_fields (H0 := exact) l v' Hv') as (_ & -> & _).
        apply totalHours_contributions. }
    split; [|exact Hsum].
    eapply numEq_trans; [exact Hsum|apply contributions_specTotalHours].
Qed.

End HoursProofs.

Section StatsProofs.
Context {rt : DateRuntime} {ar : Arithmetic}.

Lemma filterThrowing_defined {A} (p : A -> option bool) (l : list A) :
  Forall (fun x => p x <> None) l ->
  exists kept, filterThrowing p l = Some kept.
Proof.
  induction 1 as [|x l Hx _ [kept IH]]; simpl.
  - eexists; reflexivity.
  - destruct (p x) as [b|]; [|contradiction].
    rewrite IH. eexists; reflexivity.
Qed.

Lemma filterThrowing_app {A} (p : A -> option bool) (l1 l2 : list A) :
  filterThrowing p (l1 ++ l2)
  = match filterThrowing p l1, filterThrowing p l2 with
    | Some k1, Some k2 => Some (k1 ++ k2)
    | _, _ => None
    end.
Proof.
  induction l1 as [|x l1 IH]; simpl.
  - destruct (filterThrowing p l2); reflexivity.
  - destruct (p x) as [b|]; [|reflexivity].
    rewrite IH.
    destruct (filterThrowing p l1), (filterThrowing p l2), b; reflexivity.
Qed.

Lemma isToday_defined (s : Schedule) :
  (truthy (date s) = true -> isoDay (date s) <> None) ->
  isToday s <> None.
Proof.
  unfold isToday. intros Hvalid.
  destruct (truthy (date s)); [|discriminate].
  destruct (isoDay (date s)); [discriminate|].
  exfalso. apply Hvalid; reflexivity.
Qed.

(** On a collection whose dates can be formatted the computation returns. *)
Lemma statsFor_defined (l : list Schedule) :
  datesValid l -> exists v, statsFor (arrayOf l) = Some v.
Proof.
  intros Hvalid.
  destruct l as [|s l]; [eexists; reflexivity|].
  simpl. unfold statsOf, todayItems, todaySchedules.
  destruct (filterThrowing_defined isToday (s :: l)) as [kept ->].
  - eapply List.Forall_impl; [|exact Hvalid].
    intros x. apply isToday_defined.
  - eexists; reflexivity.
Qed.

Lemma itemCount_sum (l : list Schedule) :
  fold_left (fun acc s => acc + itemCount s) l 0 = length (allItems l).
Proof. apply totalItems_length. Qed.

Lemma allItems_without (l1 l2 : list Schedule) (s : Schedule) :
  items s = None -> allItems (l1 ++ s :: l2) = allItems (l1 ++ l2).
Proof.
  intros Hs. unfold allItems.
  rewrite !flat_map_app. simpl. rewrite Hs. reflexivity.
Qed.

Lemma todayItems_without (l1 l2 : list Schedule) (s : Schedule) :
  items s = None -> isToday s <> None ->
  todayItems (l1 ++ s :: l2) = todayItems (l1 ++ l2).
Proof.
  intros Hs Hdef. unfold todayItems, todaySchedules.
  rewrite !filterThrowing_app. simpl.
  destruct (isToday s) as [b|]; [|contradiction].
  destruct (filterThrowing isToday l1) as [k1|]; [|reflexivity].
  destruct (filterThrowing isToday l2) as [k2|]; [|reflexivity].
  rewrite !itemCount_sum. destruct b; [|reflexivity].
  rewrite allItems_without by exact Hs. reflexivity.
Qed.

Lemma countItem_labels (l : list Item) (cats : list (string * Tally)) :
  fold_left countItem l cats = fold_left bump (labels l) cats.
Proof.
  revert cats; induction l as [|x l IH]; intros cats; [reflexivity|].
  simpl. rewrite IH. unfold countItem, labels. simpl.
  destruct (truthy (category x)); reflexivity.
Qed.

Lemma labels_app (l1 l2 : list Item) :
  labels (l1 ++ l2) = labels l1 ++ labels l2.
Proof. unfold labels. rewrite List.filter_app, map_app. reflexivity. Qed.

Lemma fold_categories (l : list Schedule) (cats : list (string * Tally)) :
  fold_left
    (fun cats schedule =>
       match items schedule with
       | None => cats
       | Some l => fold_left countItem l cats
       end) l cats
  = fold_left bump (labels (allItems l)) cats.
Proof.
  revert cats; induction l as [|s l IH]; intros cats; [reflexivity|].
  simpl. rewrite IH. unfold allItems; simpl.
  destruct (items s) as [l0|]; simpl; [|reflexivity].
  rewrite labels_app, fold_left_app, countItem_labels. reflexivity.
Qed.

(** The category distribution counts the labels of the items that have a
    category, and nothing else. *)
Lemma categories_labels (l : list Schedule) :
  categories l = fold_left bump (labels (allItems l)) [].
Proof. apply fold_categories. Qed.

Lemma labels_none (l : list Item) :
  Forall (fun item => truthy (category item) = false) l -> labels l = [].
Proof.
  unfold labels. induction 1 as [|x l Hx _ IH]; simpl; [reflexivity|].
  rewrite Hx. exact IH.
Qed.

(** C10, amended. On every collection whose dates, where present, can be
    formatted, the computation of the statistics returns. A schedule
    without [items] adds nothing to the items of today, to the number of
    tasks, to the hours, to the high-priority tasks or to the category
    distribution; the distribution and [categoryCount] count only the items
    that have a category; and when no item has one, [topCategory] is the
    empty string. *)
Theorem calculateStats_total_on_valid_dates (l : list Schedule) :
  datesValid l ->
  (exists v, statsFor (arrayOf l) = Some v
             /\ forall w, calculateStats (arrayOf l) w
                          = setStats v w)
  /\ (forall l1 s l2,
        l = l1 ++ s :: l2 -> items s = None ->
        todayItems l = todayItems (l1 ++ l2)
        /\ totalItems l = totalItems (l1 ++ l2)
        /\ totalHours l = totalHours (l1 ++ l2)
        /\ highPriorityTasks l = highPriorityTasks (l1 ++ l2)
        /\ categories l = categories (l1 ++ l2))
  /\ categories l = fold_left bump (labels (allItems l)) []
  /\ categoryCount l = length (fold_left bump (labels (allItems l)) [])
  /\ (Forall (fun item => truthy (category item) = false) (allItems l) ->
      topCategory l = "" /\ categoryCount l = 0%nat).
Proof.
  intros Hvalid. split; [|split; [|split; [|split]]].
  - destruct (statsFor_defined l Hvalid) as [v Hv].
    exists v. split; [exact Hv|].
    intros w. unfold calculateStats. rewrite Hv. reflexivity.
  - intros l1 s l2 -> Hs.
    assert (Hs' : isToday s <> None).
    { apply isToday_defined.
      unfold datesValid in Hvalid. rewrite Forall_app in Hvalid.
      destruct Hvalid as [_ Hvalid]. inversion Hvalid; assumption. }
    split; [apply todayItems_without; assumption|].
    unfold totalItems, totalHours, highPriorityTasks, categories, itemCount.
    rewrite !fold_left_app. simpl. rewrite Hs, !Nat.add_0_r.
    repeat split; reflexivity.
  - apply categories_labels.
  - unfold categoryCount. rewrite categories_labels. reflexivity.
  - intros Hnone. unfold topCategory, categoryCount.
    rewrite categories_labels, (labels_none _ Hnone). split; reflexivity.
Qed.

End StatsProofs.

(** ** The skill form *)

Lemma clampProgress_range (value : string) :
  (0 <= clampProgress value <= 100)%Z.
Proof. unfold clampProgress. lia. Qed.

Lemma clampProgress_parsed (value : string) (n : Z) :
  parseInt value = Some n -> clampProgress value = Z.min 100 (Z.max 0 n).
Proof.
  unfold clampProgress. intros ->.
  destruct (Z.eqb_spec n 0) as [->|_]; reflexivity.
Qed.

Lemma formAfter_progress (formData : gmap string FormValue)
    (value : string) :
  formAfter formData "progress" value !! "progress"
  = Some (FNum (clampProgress value)).
Proof.
  unfold formAfter, handleChange, applyUpdates. simpl.
  apply lookup_insert_eq.
Qed.

(** C9. Whatever the form held, changing [status] to ["completed"] sets
    [progress] to 100; changing [progress] stores the parsed integer
    clamped into [0, 100]: ["150"] gives 100, ["-5"] gives 0, and a value
    with no leading number gives 0. *)
Theorem handleChange_status_progress (formData : gmap string FormValue) :
  formAfter formData "status" "completed" !! "progress" = Some (FNum 100)
  /\ formAfter formData "status" "completed" !! "status"
     = Some (FStr "completed")
  /\ (forall value n,
        parseInt value = Some n ->
        formAfter formData "progress" value !! "progress"
        = Some (FNum (Z.min 100 (Z.max 0 n))))
  /\ (forall value, exists p,
        formAfter formData "progress" value !! "progress" = Some (FNum p)
        /\ (0 <= p <= 100)%Z)
  /\ formAfter formData "progress" "150" !! "progress" = Some (FNum 100)
  /\ formAfter formData "progress" "-5" !! "progress" = Some (FNum 0)
  /\ (forall value,
        parseInt value = None ->
        formAfter formData "progress" value !! "progress" = Some (FNum 0)).
Proof.
  repeat split.
  - unfold formAfter, handleChange, applyUpdates. simpl.
    apply lookup_insert_eq.
  - unfold formAfter, handleChange, applyUpdates. simpl.
    rewrite lookup_insert_ne by discriminate.
    apply lookup_insert_eq.
  - intros value n Hn.
    rewrite formAfter_progress, (clampProgress_parsed _ _ Hn). reflexivity.
  - intros value. exists (clampProgress value).
    split; [apply formAfter_progress|apply clampProgress_range].
  - apply formAfter_progress.
  - apply formAfter_progress.
  - intros value Hnan. rewrite formAfter_progress.
    unfold clampProgress. rewrite Hnan. reflexivity.
Qed.

(** Witness of C9: the initial form, and the values ["42"] and ["abc"]. *)
Lemma handleChange_status_progress_witness :
  formAfter (initialFormData "DSA") "progress" "42" !! "progress"
  = Some (FNum 42)
  /\ formAfter (initialFormData "DSA") "progress" "abc" !! "progress"
     = Some (FNum 0).
Proof.
  destruct (handleChange_status_progress (initialFormData "DSA"))
    as (_ & _ & Hparsed & _ & _ & _ & Hnan).
  split.
  - apply (Hparsed "42" 42%Z). reflexivity.
  - apply (Hnan "abc"). reflexivity.
Defined.

(** ** The callbacks *)

Arguments statsFor : simpl never.
Arguments dayTypeOf : simpl never.

Ltac run_hook :=
  unfold mbind, M_bind, mret, M_ret, try_catch, try_finally, throw, request,
    calculateStats, findSchedule, isoString,
    setSchedules, setLoading, setError, setStats, setCategories,
    setIsFetchingCategories, modify;
  simpl.

Ltac run_hook_in H :=
  unfold mbind, M_bind, mret, M_ret, try_catch, try_finally, throw, request,
    calculateStats, findSchedule, isoString,
    setSchedules, setLoading, setError, setStats, setCategories,
    setIsFetchingCategories, modify in H;
  simpl in H.

(** Case analysis on every test the run of a callback goes through. *)
Ltac split_cases H :=
  repeat (simpl in H;
          match type of H with
          | context [match ?x with _ => _ end] =>
              match x with
              | context [match _ with _ => _ end] => fail 1
              | _ => destruct x eqn:?
              end
          end).

Section HookProofs.
Context {rt : DateRuntime} {ar : Arithmetic}.

(** C7, amended. An authenticated [createSchedule] throws a validation
    error, and sends nothing, when the input has no date; it throws another
    validation error, and sends nothing, when [items] is absent or empty.
    Otherwise, when the date can be parsed, the one request it sends
    carries the input with its date replaced by the ISO string of that
    date; when the date cannot be parsed, it fails with a [RangeError] and
    sends nothing. *)
Theorem createSchedule_validation (w : World) (scheduleData : Schedule) :
  let r := render true (store w) in
  (truthy (date scheduleData) = false ->
   createSchedule r scheduleData w
   = (Threw (Error "Date is required"), w))
  /\ (truthy (date scheduleData) = true ->
      items scheduleData = None \/ items scheduleData = Some [] ->
      createSchedule r scheduleData w
      = (Threw (Error "At least one schedule item is required"), w))
  /\ (truthy (date scheduleData) = true ->
      (exists x l, items scheduleData = Some (x :: l)) ->
      match newDate (date scheduleData) with
      | Some t =>
          exists body,
            sent (snd (createSchedule r scheduleData w))
            = sent w ++ [Sent (POST_schedules body)]
            /\ date body = Some (toISOString t)
            /\ sched_id body = sched_id scheduleData
            /\ dayType body = dayType scheduleData
            /\ status body = status scheduleData
            /\ items body = items scheduleData
      | None => createSchedule r scheduleData w = (Threw RangeError, w)
      end).
Proof.
  intros r. unfold createSchedule. simpl.
  split; [|split].
  - intros ->. run_hook. reflexivity.
  - intros -> Hitems. unfold noItems.
    destruct Hitems as [-> | ->]; run_hook; reflexivity.
  - intros -> (x & l & Hitems). unfold noItems. rewrite Hitems. simpl.
    destruct (newDate (date scheduleData)) as [t|]; run_hook.
    + exists (withDate scheduleData (toISOString t)).
      split; [|repeat split; simpl; congruence].
      destruct (server w _ _ _) as [data|message]; simpl; [|reflexivity].
      destruct (statsFor _); run_hook; reflexivity.
    + reflexivity.
Qed.


(** X16. The guard of [fetchCategories]: while a fetch is in flight a call
    returns the cached list and touches nothing. *)
Lemma fetchCategories_in_flight (w : World) :
  Store.isFetchingCategories (store w) = true ->
  fetchCategories (render true (store w)) w
  = (Returned (Store.categories (store w)), w).
Proof.
  intros Hbusy. unfold fetchCategories. simpl. rewrite Hbusy. reflexivity.
Qed.

End HookProofs.

Lemma sameId_refl (id : option string) : sameId id id = true.
Proof. destruct id; simpl; [apply String.eqb_refl|reflexivity]. Qed.

Lemma sameId_true (a b : option string) : sameId a b = true <-> a = b.
Proof.
  destruct a, b; simpl; try (split; [discriminate|congruence]).
  - rewrite String.eqb_eq. split; congruence.
  - split; reflexivity.
Qed.

Lemma sameId_false (a b : option string) : sameId a b = false <-> a <> b.
Proof.
  rewrite <- sameId_true. destruct (sameId a b); split; congruence.
Qed.

Lemma replaceById_fresh (id : option string) (u : Schedule)
    (l : list Schedule) :
  Forall (fun s => sched_id s <> id) l -> replaceById id u l = l.
Proof.
  unfold replaceById. induction 1 as [|s l Hs _ IH]; simpl.
  - reflexivity.
  - rewrite IH. apply sameId_false in Hs. rewrite Hs. reflexivity.
Qed.

Lemma replaceById_app (id : option string) (u : Schedule)
    (l1 l2 : list Schedule) :
  replaceById id u (l1 ++ l2) = replaceById id u l1 ++ replaceById id u l2.
Proof. apply map_app. Qed.

Lemma weekend_rule (d : Weekday) :
  (dayIndex d mod 6 =? 0)%Z = true <-> d = Saturday \/ d = Sunday.
Proof.
  destruct d; simpl; split; intros H; try discriminate; auto;
    destruct H; discriminate.
Qed.

Section CopyProofs.
Context {rt : DateRuntime} {ar : Arithmetic}.

Lemma dayTypeOf_weekend (t : Z) :
  dayTypeOf (Some t) = "Weekend"
  <-> getDay t = Saturday \/ getDay t = Sunday.
Proof.
  rewrite <- weekend_rule. unfold dayTypeOf.
  destruct (dayIndex (getDay t) mod 6 =? 0)%Z; split;
    intros; try reflexivity; discriminate.
Qed.

Lemma dayTypeOf_weekday (t : Z) :
  dayTypeOf (Some t) = "Weekday"
  <-> ~ (getDay t = Saturday \/ getDay t = Sunday).
Proof.
  rewrite <- weekend_rule. unfold dayTypeOf.
  destruct (dayIndex (getDay t) mod 6 =? 0)%Z; split;
    intros; try reflexivity; try discriminate; congruence.
Qed.

Lemma findThrowing_none {A} (p : A -> option bool) (l : list A) :
  Forall (fun x => p x = Some false) l -> findThrowing p l = Some None.
Proof.
  induction 1 as [|x l Hx _ IH]; simpl; [reflexivity|].
  rewrite Hx. exact IH.
Qed.

Lemma onDay_datesValid (targetDate : string) (l : list Schedule) :
  Forall (fun s => onDay targetDate s <> None) l -> datesValid l.
Proof.
  apply List.Forall_impl. intros s Hs _. unfold onDay in Hs.
  destruct (isoDay (date s)); congruence.
Qed.

(** What [copyScheduleItem] does when no cached schedule is for
    [targetDate], against a backend that stores what it is sent. It
    creates one schedule, with no item, dated at the local midnight
    [formattedDate] of the day the target date falls in, and typed by the
    local day of the week of that instant; it then adds one item to it, the
    source item without its identifier and with every other field, and the
    cache ends with that schedule holding this one item under the
    identifier the backend assigned. Whether the schedule is for
    [targetDate] depends on the time zone of the browser. *)
Lemma copyScheduleItem_new_day (w : World) (item : Item)
    (targetDate : string) (t : Z) (sid iid : string) :
  let cache := Store.schedules (store w) in
  let formattedDate := setHoursZero t in
  let created := storedAs sid (emptyScheduleFor formattedDate) in
  let updated := withItems created [itemStoredAs iid (withoutId item)] in
  parseDate targetDate = Some t ->
  Forall (fun s => onDay targetDate s = Some false) cache ->
  Forall (fun s => sched_id s <> Some sid) cache ->
  server w _ (sent w) (POST_schedules (emptyScheduleFor formattedDate))
  = Resolves (Some created) ->
  server w _ (sent w ++ [Sent (POST_schedules
                                 (emptyScheduleFor formattedDate))])
         (POST_item sid (withoutId item))
  = Resolves updated ->
  exists w',
    copyScheduleItem (render true (store w)) item targetDate w
    = (Returned (Some updated), w')
    /\ Store.schedules (store w') = cache ++ [updated]
    /\ sent w'
       = sent w ++ [Sent (POST_schedules (emptyScheduleFor formattedDate));
                    Sent (POST_item sid (withoutId item))]
    /\ items (emptyScheduleFor formattedDate) = Some []
    /\ (dayType updated = Some "Weekend"
        <-> getDay formattedDate = Saturday
            \/ getDay formattedDate = Sunday)
    /\ (dayType updated = Some "Weekday"
        <-> ~ (getDay formattedDate = Saturday
               \/ getDay formattedDate = Sunday))
    /\ (dayIndex (getDay formattedDate) mod 6 = 0
        <-> getDay formattedDate = Saturday
            \/ getDay formattedDate = Sunday)%Z
    /\ items updated = Some [itemStoredAs iid (withoutId item)]
    /\ item_id (withoutId item) = None
    /\ sameContent (withoutId item) item
    /\ withoutId (itemStoredAs iid (withoutId item)) = withoutId item.
Proof.
  intros cache formattedDate created updated Hparse Hnone Hfresh
         Hcreate Hadd.
  assert (Hstats : exists v, statsFor (arrayOf cache) = Some v).
  { apply statsFor_defined, (onDay_datesValid targetDate).
    eapply List.Forall_impl; [|exact Hnone]. intros s ->. discriminate. }
  destruct Hstats as [v Hv].
  subst cache formattedDate created updated.
  unfold copyScheduleItem. simpl. run_hook.
  rewrite (findThrowing_none _ _ Hnone). simpl.
  unfold formatDate. rewrite Hparse. simpl.
  unfold emptyScheduleFor in *. simpl in *.
  rewrite Hcreate. simpl.
  rewrite Hadd. simpl. rewrite Hv. run_hook.
  eexists. split; [reflexivity|]. simpl.
  split; [|split; [|split; [|split; [|split; [|split]]]]].
  - rewrite replaceById_app, (replaceById_fresh _ _ _ Hfresh).
    unfold replaceById. simpl. rewrite String.eqb_refl. reflexivity.
  - rewrite <- app_assoc. reflexivity.
  - reflexivity.
  - rewrite <- dayTypeOf_weekend. split; congruence.
  - rewrite <- dayTypeOf_weekday. split; congruence.
  - rewrite <- weekend_rule, Z.eqb_eq. reflexivity.
  - repeat split; reflexivity.
Qed.

Lemma onDay_forDay (targetDate : string) (s : Schedule) :
  isoDay (date s) <> None -> onDay targetDate s = Some (forDay targetDate s).
Proof.
  unfold onDay, forDay. destruct (isoDay (date s)); congruence.
Qed.

(** When every cached date can be formatted and the schedules of the
    target day are all the same record, [find] returns it. *)
Lemma findThrowing_unique (targetDate : string) (l : list Schedule)
    (existing : Schedule) :
  Forall (fun s => isoDay (date s) <> None) l ->
  In existing l ->
  (forall s, In s l -> forDay targetDate s = true -> s = existing) ->
  forDay targetDate existing = true ->
  findThrowing (onDay targetDate) l = Some (Some existing).
Proof.
  intros Hvalid Hin Huniq Hfor.
  induction Hvalid as [|s l Hs _ IH]; [destruct Hin|].
  simpl. rewrite (onDay_forDay _ _ Hs).
  destruct (forDay targetDate s) eqn:Es.
  - rewrite (Huniq s (or_introl eq_refl) Es). reflexivity.
  - apply IH.
    + destruct Hin as [-> | Hin]; [congruence|exact Hin].
    + intros s' Hs'. apply Huniq. right; exact Hs'.
Qed.

Lemma filter_forDay_removed (targetDate : string) (l : list Schedule)
    (existing : Schedule) :
  (forall s, In s l -> forDay targetDate s = true -> s = existing) ->
  List.filter (forDay targetDate) (removeById (sched_id existing) l) = [].
Proof.
  intros Huniq. unfold removeById.
  induction l as [|s l IH]; simpl; [reflexivity|].
  assert (IH' : List.filter (forDay targetDate)
                  (List.filter
                     (fun schedule =>
                        negb (sameId (sched_id schedule)
                                     (sched_id existing))) l) = []).
  { apply IH. intros s' Hs'. apply Huniq. right; exact Hs'. }
  destruct (sameId (sched_id s) (sched_id existing)) eqn:Eid; simpl.
  - exact IH'.
  - destruct (forDay targetDate s) eqn:Es; [|exact IH'].
    rewrite (Huniq s (or_introl eq_refl) Es), sameId_refl in Eid.
    discriminate.
Qed.

Lemma removeById_not_in (existing : Schedule) (l : list Schedule) :
  ~ In existing (removeById (sched_id existing) l).
Proof.
  unfold removeById. rewrite filter_In, sameId_refl.
  intros [_ H]; discriminate.
Qed.

Lemma datesValid_removeById (id : option string) (l : list Schedule) :
  Forall (fun s => isoDay (date s) <> None) l ->
  Forall (fun s => isoDay (date s) <> None) (removeById id l).
Proof.
  unfold removeById. rewrite !List.Forall_forall.
  intros H s Hs. apply filter_In in Hs. apply H, Hs.
Qed.

(** What [copySchedule] does when one schedule already exists for
    [targetDate] and the source has N items, against a backend that stores
    what it is sent. The former schedule is gone and no schedule kept from
    before is for that date. The schedule submitted has N items, each with
    [completed] false and none with an identifier, and its status is
    Planned; it is dated at the local midnight [formattedDate] of the day
    the target date falls in, and typed by the local day of the week of
    that instant. It is the one schedule for [targetDate] when that date is
    read back as the target day, which depends on the time zone of the
    browser. *)
Lemma copySchedule_overwrites (w : World)
    (sourceSchedule existing : Schedule) (sourceItems : list Item)
    (targetDate : string) (t : Z) (id : string) :
  let cache := Store.schedules (store w) in
  let formattedDate := setHoursZero t in
  let submitted := copyFor formattedDate sourceItems in
  let created := storedAs id submitted in
  parseDate targetDate = Some t ->
  items sourceSchedule = Some sourceItems ->
  Forall (fun s => isoDay (date s) <> None) cache ->
  In existing cache ->
  forDay targetDate existing = true ->
  (forall s, In s cache -> forDay targetDate s = true -> s = existing) ->
  sched_id existing <> Some id ->
  isoDay (date submitted) <> None ->
  server w _ (sent w) (DELETE_schedule (interpolate (sched_id existing)))
  = Resolves tt ->
  server w _
         (sent w ++ [Sent (DELETE_schedule
                             (interpolate (sched_id existing)))])
         (POST_schedules submitted)
  = Resolves (Some created) ->
  exists w',
    copySchedule (render true (store w)) sourceSchedule targetDate w
    = (Returned (Some created), w')
    /\ Store.schedules (store w')
       = removeById (sched_id existing) cache ++ [created]
    /\ List.filter (forDay targetDate)
                   (removeById (sched_id existing) cache) = []
    /\ (isoDay (date submitted) = Some targetDate ->
        List.filter (forDay targetDate) (Store.schedules (store w'))
        = [created])
    /\ ~ In existing (Store.schedules (store w'))
    /\ sent w'
       = sent w ++ [Sent (DELETE_schedule
                            (interpolate (sched_id existing)));
                    Sent (POST_schedules submitted)]
    /\ (exists newItems,
          items submitted = Some newItems
          /\ length newItems = length sourceItems
          /\ Forall (fun item => completed item = Some false
                                 /\ item_id item = None) newItems)
    /\ status submitted = Some "Planned"
    /\ (dayType submitted = Some "Weekend"
        <-> getDay formattedDate = Saturday
            \/ getDay formattedDate = Sunday)
    /\ (dayType submitted = Some "Weekday"
        <-> ~ (getDay formattedDate = Saturday
               \/ getDay formattedDate = Sunday))
    /\ (dayIndex (getDay formattedDate) mod 6 = 0
        <-> getDay formattedDate = Saturday
            \/ getDay formattedDate = Sunday)%Z.
Proof.
  intros cache formattedDate submitted created Hparse Hitems Hvalid Hin
         Hfor Huniq Hfresh Hread Hdelete Hcreate.
  assert (Hstats : exists v,
             statsFor (arrayOf (removeById (sched_id existing) cache
                                ++ [created])) = Some v).
  { apply statsFor_defined. unfold datesValid.
    apply Forall_app. split.
    - eapply List.Forall_impl;
        [|apply datesValid_removeById; exact Hvalid].
      intros s Hs _. exact Hs.
    - constructor; [|constructor]. intros _. exact Hread. }
  destruct Hstats as [v Hv].
  subst cache.
  unfold copySchedule. simpl. run_hook.
  rewrite (findThrowing_unique _ _ _ Hvalid Hin Huniq Hfor). simpl.
  rewrite Hdelete. simpl.
  unfold formatDate. rewrite Hparse. simpl. rewrite Hitems. simpl.
  fold formattedDate. fold (copyFor formattedDate sourceItems).
  fold submitted. rewrite Hcreate. simpl.
  fold created. rewrite Hv. run_hook.
  eexists. split; [reflexivity|]. simpl.
  split; [reflexivity|].
  split; [apply (filter_forDay_removed _ _ _ Huniq)|].
  split; [|split; [|split; [|split; [|split; [|split; [|split]]]]]].
  - intros Hday.
    rewrite List.filter_app, (filter_forDay_removed _ _ _ Huniq).
    simpl. unfold forDay.
    change (date created) with (Some (toISOString formattedDate)).
    rewrite Hday, String.eqb_refl. reflexivity.
  - rewrite in_app_iff. intros [Hrem | [Heq | []]].
    + exact (removeById_not_in _ _ Hrem).
    + apply Hfresh. rewrite <- Heq. reflexivity.
  - rewrite <- app_assoc. reflexivity.
  - exists (map resetItem sourceItems). split; [reflexivity|].
    split; [apply length_map|].
    apply Forall_map. apply List.Forall_forall. intros item _.
    split; reflexivity.
  - reflexivity.
  - change (dayType submitted) with (Some (dayTypeOf (Some formattedDate))).
    rewrite <- dayTypeOf_weekend. split; congruence.
  - change (dayType submitted) with (Some (dayTypeOf (Some formattedDate))).
    rewrite <- dayTypeOf_weekday. split; congruence.
  - rewrite <- weekend_rule, Z.eqb_eq. reflexivity.
Qed.

End CopyProofs.

(** ** Failures and the cache *)


Section FailureProofs.
Context {rt : DateRuntime} {ar : Arithmetic}.



End FailureProofs.

(** ** Statistics after an operation *)

Lemma removeById_none (l : list Schedule) :
  Forall (fun s => sched_id s <> None) l -> removeById None l = l.
Proof.
  unfold removeById. induction 1 as [|s l Hs _ IH]; simpl; [reflexivity|].
  destruct (sched_id s); [|contradiction]. simpl. rewrite IH. reflexivity.
Qed.

Section RecomputeProofs.
Context {rt : DateRuntime} {ar : Arithmetic}.

Ltac recomputed H :=
  try discriminate H;
  injection H as <-; simpl;
  try assumption;
  try reflexivity.

(** After [fetchSchedules] the statistics are those of the cache, whether
    the request succeeded or not. *)
Lemma fetchSchedules_stats (w w' : World)
    (startDate endDate status : option string)
    (o : Outcome (option (list Schedule))) :
  fetchSchedules (render true (store w)) startDate endDate status w
  = (o, w') ->
  statsFor (arrayOf (Store.schedules (store w')))
  = Some (Store.stats (store w')).
Proof.
  intros Hrun. unfold fetchSchedules in Hrun. run_hook_in Hrun.
  split_cases Hrun; injection Hrun as <- <-; simpl;
    try assumption; reflexivity.
Qed.

(** X15. After every successful mutation other than [copyScheduleItem],
    called as the callback of the current render (the one whose schedules
    are the cache), the statistics are those of the cache the mutation
    leaves (for [copySchedule], in a cache whose schedules all have an
    identifier). *)
Lemma mutation_stats_recomputed (r : Render.t) (w w' : World)
    (m : Mutation) :
  Render.isAuthenticated r = true ->
  Render.schedules r = Store.schedules (store w) ->
  (forall item targetDate, m <> CopyScheduleItem item targetDate) ->
  (forall sourceSchedule targetDate,
     m = CopySchedule sourceSchedule targetDate ->
     Forall (fun s => sched_id s <> None) (Store.schedules (store w))) ->
  mutate r m w = (Returned tt, w') ->
  statsFor (arrayOf (Store.schedules (store w')))
  = Some (Store.stats (store w')).
Proof.
  intros Hauth Hfresh Hnot Hids Hrun.
  destruct m; unfold mutate, ignore in Hrun.
  - unfold createSchedule in Hrun. rewrite Hauth, Hfresh in Hrun.
    run_hook_in Hrun. split_cases Hrun; recomputed Hrun.
  - unfold updateSchedule in Hrun. rewrite Hauth, Hfresh in Hrun.
    run_hook_in Hrun. split_cases Hrun; recomputed Hrun.
  - unfold deleteSchedule in Hrun. rewrite Hauth, Hfresh in Hrun.
    run_hook_in Hrun. split_cases Hrun; recomputed Hrun.
  - unfold addScheduleItem in Hrun. rewrite Hauth, Hfresh in Hrun.
    run_hook_in Hrun. split_cases Hrun; recomputed Hrun.
  - unfold updateScheduleItem in Hrun. rewrite Hauth, Hfresh in Hrun.
    run_hook_in Hrun. split_cases Hrun; recomputed Hrun.
  - unfold deleteScheduleItem in Hrun. rewrite Hauth, Hfresh in Hrun.
    run_hook_in Hrun. split_cases Hrun; recomputed Hrun.
  - exfalso. eapply Hnot. reflexivity.
  - specialize (Hids _ _ eq_refl).
    unfold copySchedule in Hrun. rewrite Hauth, Hfresh in Hrun.
    run_hook_in Hrun. split_cases Hrun; recomputed Hrun.
    rewrite (removeById_none _ Hids) in *. assumption.
Qed.

(** [copyScheduleItem] is the exception: when it succeeds, the statistics
    are those of the schedules of the render it was created in, that is of
    the cache before the copy. *)
Lemma copyScheduleItem_stats_of_render (w w' : World) (item : Item)
    (targetDate : string) (updated : option Schedule) :
  copyScheduleItem (render true (store w)) item targetDate w
  = (Returned updated, w') ->
  statsFor (arrayOf (Store.schedules (store w)))
  = Some (Store.stats (store w')).
Proof.
  intros Hrun. unfold copyScheduleItem in Hrun. run_hook_in Hrun.
  split_cases Hrun; try discriminate Hrun;
    injection Hrun as <- <-; simpl; first [assumption|reflexivity].
Qed.

End RecomputeProofs.

(** ** The theorems at concrete inputs *)

(** The rounding of [binary64] is that of the Standard Library's
    specification of the format: the two agree on the rate of every
    collection of at most forty items, and on the sums of the durations
    below. *)
Lemma binary64_agrees_with_SpecFloat :
  forallb
    (fun t =>
       forallb
         (fun c =>
            numEqb
              (numMul (numDiv (ofNat c) (ofNat (S t))) (Num 100))
              (Binary64.ofSpec
                 (SFmul 53 1024
                    (SFdiv 53 1024 (Binary64.specOfZ (Z.of_nat c))
                                   (Binary64.specOfZ (Z.of_nat (S t))))
                    (Binary64.specOfZ 100))))
         (seq 0 (S (S t))))
    (seq 0 40)
  = true
  /\ (let hours ms :=
        SFdiv 53 1024 (Binary64.specOfZ ms) (Binary64.specOfZ 3600000) in
      Binary64.ofSpec
        (SFadd 53 1024
           (SFadd 53 1024
              (SFadd 53 1024 (Binary64.specOfZ 0) (hours 360000%Z))
              (hours 720000%Z))
           (hours 1080000%Z))
      = Num (1351079888211149 # 2251799813685248)).
Proof. split; vm_compute; reflexivity. Qed.

(** Witness of C1: one completed item out of four is 25 per cent, in
    binary64 as in exact arithmetic. *)
Lemma calculateStats_completionRate_witness :
  let scheduleData := arrayOf (Store.schedules (store Sample.withBoth)) in
  Stats.completionRate (Store.stats (store Sample.withBoth)) = Num 25
  /\ (forall v',
        statsFor (rt := Sample.utc) (ar := exact) scheduleData = Some v' ->
        numEq (Stats.completionRate v') (Num 25)).
Proof.
  intros scheduleData.
  assert (Hv : statsFor (rt := Sample.utc) scheduleData
               = Some (Store.stats (store Sample.withBoth)))
    by (vm_compute; reflexivity).
  destruct (calculateStats_completionRate (H := Sample.utc) _ _ Hv)
    as (Hrate & _ & Hexact & _).
  split.
  - rewrite Hrate; [vm_compute; reflexivity|vm_compute; lia].
  - intros v' Hv'. destruct (Hexact v' Hv') as [Hspec _].
    eapply numEq_trans; [exact Hspec|]. vm_compute. reflexivity.
Defined.

(** Counterexample to C1 as stated: seven completed items out of a hundred.
    The code computes (7 / 100) * 100 in binary64, which is
    7.000000000000001 and not 7; the claim's 100 x 7 / 100 is 7, also when
    it is computed in binary64. *)
Lemma completionRate_seven_of_hundred :
  let scheduleData := arrayOf [Scenario.hundred] in
  exists v,
    statsFor (rt := Sample.utc) (ar := binary64) scheduleData = Some v
    /\ completedCount (itemsOf scheduleData) = 7%nat
    /\ length (itemsOf scheduleData) = 100%nat
    /\ (specCompletionRate (itemsOf scheduleData) == 7)%Q
    /\ numDiv (ar := binary64)
         (numMul (ar := binary64) (Num 100) (ofNat (ar := binary64) 7))
         (ofNat (ar := binary64) 100)
       = Num 7
    /\ Stats.completionRate v = Num (7881299347898369 # 1125899906842624)
    /\ ~ numEq (Stats.completionRate v)
               (Num (specCompletionRate (itemsOf scheduleData))).
Proof.
  intros scheduleData. eexists.
  split; [vm_compute; reflexivity|].
  split; [vm_compute; reflexivity|].
  split; [vm_compute; reflexivity|].
  split; [vm_compute; reflexivity|].
  split; [vm_compute; reflexivity|].
  split; [vm_compute; reflexivity|].
  vm_compute. intros E. discriminate E.
Qed.

(** Witness of C2: 09:00-10:30 and 14:00-14:20 make 11/6 of an hour, which
    binary64 rounds; the item without a start time adds nothing. *)
Lemma calculateStats_totalHours_witness :
  let scheduleData := arrayOf (Store.schedules (store Sample.withBoth)) in
  Stats.totalHours (Store.stats (store Sample.withBoth))
  = Binary64.round (11 # 6)
  /\ addItemHours (rt := Sample.utc) (Num 1) Sample.note = Num 1
  /\ (forall v',
        statsFor (rt := Sample.utc) (ar := exact) scheduleData = Some v' ->
        numEq (Stats.totalHours v') (Num (11 # 6))).
Proof.
  intros scheduleData.
  assert (Hv : statsFor (rt := Sample.utc) scheduleData
               = Some (Store.stats (store Sample.withBoth)))
    by (vm_compute; reflexivity).
  destruct (calculateStats_totalHours (rt := Sample.utc) _ _ Hv)
    as (Hsum & Hskip & Hexact).
  split; [rewrite Hsum; vm_compute; reflexivity|]. split.
  - apply (Hskip Sample.note (Num 1)). vm_compute; reflexivity.
  - intros v' Hv'. destruct (Hexact v' Hv') as [Hspec _].
    eapply numEq_trans; [exact Hspec|]. vm_compute. reflexivity.
Defined.

(** Counterexample to C2 as stated: three items of 6, 12 and 18 minutes.
    Their durations add up to 3/5 of an hour; the code's sum in binary64 is
    0.6000000000000001, which is neither 3/5 nor the double nearest to
    it. *)
Lemma totalHours_three_sprints :
  let scheduleData := arrayOf [Scenario.sprints] in
  exists v,
    statsFor (rt := Sample.utc) (ar := binary64) scheduleData = Some v
    /\ numEq (specTotalHours (rt := Sample.utc) (ar := exact)
                (itemsOf scheduleData))
             (Num (3 # 5))
    /\ Stats.totalHours v = Num (1351079888211149 # 2251799813685248)
    /\ ~ numEq (Stats.totalHours v) (Num (3 # 5))
    /\ ~ numEq (Stats.totalHours v) (Binary64.round (3 # 5)).
Proof.
  intros scheduleData. eexists.
  split; [vm_compute; reflexivity|].
  split; [vm_compute; reflexivity|].
  split; [vm_compute; reflexivity|].
  split; vm_compute; intros E; discriminate E.
Qed.

(** Counterexample to C10 as stated: a collection of one schedule, without
    [items], whose date cannot be read makes the computation throw. *)
Lemma calculateStats_throws_on_unreadable_date :
  statsFor (rt := Sample.utc) (arrayOf [Sample.undated]) = None
  /\ items Sample.undated = None
  /\ fst (calculateStats (rt := Sample.utc) (arrayOf [Sample.undated])
            (Sample.mounted Backend.honest))
     = Threw RangeError.
Proof. repeat split; vm_compute; reflexivity. Qed.

(** Witness of C10, amended: the Friday schedule and one without items. *)
Lemma calculateStats_total_on_valid_dates_witness :
  (exists v,
     statsFor (rt := Sample.utc)
       (arrayOf [Sample.storedFriday; Sample.bare]) = Some v)
  /\ @totalItems [Sample.storedFriday; Sample.bare]
     = @totalItems [Sample.storedFriday]
  /\ @categoryCount [Sample.storedFriday; Sample.bare] = 2%nat.
Proof.
  destruct (calculateStats_total_on_valid_dates (rt := Sample.utc)
              [Sample.storedFriday; Sample.bare])
    as ((v & Hv & _) & Hbare & _ & Hcount & _).
  - repeat (apply List.Forall_cons; [intros _; vm_compute; discriminate|]).
    apply List.Forall_nil.
  - split; [exists v; exact Hv|]. split.
    + apply (Hbare [Sample.storedFriday] Sample.bare []); reflexivity.
    + rewrite Hcount. vm_compute. reflexivity.
Defined.

Lemma withFriday_cache :
  Store.schedules (store Sample.withFriday) = [Sample.storedFriday].
Proof. vm_compute; reflexivity. Qed.

Lemma withBoth_cache :
  Store.schedules (store Sample.withBoth)
  = [Sample.storedFriday; Sample.storedSaturday].
Proof. vm_compute; reflexivity. Qed.

(** In UTC: copying the Friday schedule (three items) onto Saturday
    2024-03-09, for which a schedule exists. *)
Lemma copySchedule_overwrites_witness :
  exists w',
    copySchedule (rt := Sample.utc) (render true (store Sample.withBoth))
      Sample.storedFriday "2024-03-09" Sample.withBoth
    = (Returned
         (Some (storedAs "id2"
                  (copyFor (rt := Sample.utc) Sample.march9
                            [Sample.task; Sample.note; Sample.reading]))),
       w')
    /\ length (List.filter (forDay (rt := Sample.utc) "2024-03-09")
                          (Store.schedules (store w'))) = 1%nat
    /\ ~ In Sample.storedSaturday (Store.schedules (store w')).
Proof.
  destruct (copySchedule_overwrites (rt := Sample.utc) Sample.withBoth
              Sample.storedFriday Sample.storedSaturday
              [Sample.task; Sample.note; Sample.reading]
              "2024-03-09" Sample.march9 "id2")
    as (w' & Hrun & _ & _ & Hone & Hgone & _).
  - vm_compute; reflexivity.
  - vm_compute; reflexivity.
  - rewrite withBoth_cache.
    repeat (apply List.Forall_cons; [vm_compute; discriminate|]).
    apply List.Forall_nil.
  - vm_compute. right; left; reflexivity.
  - vm_compute; reflexivity.
  - intros s Hs. vm_compute in Hs.
    destruct Hs as [<- | [<- | []]]; vm_compute; intros H;
      [discriminate H|reflexivity].
  - vm_compute; discriminate.
  - vm_compute; discriminate.
  - vm_compute; reflexivity.
  - vm_compute; reflexivity.
  - exists w'. split; [exact Hrun|]. split; [|exact Hgone].
    rewrite Hone; [reflexivity|vm_compute; reflexivity].
Defined.

(** In UTC: copying an item onto Saturday 2024-03-09 when only the
    Friday schedule is cached. *)
Lemma copyScheduleItem_new_day_witness :
  exists w',
    copyScheduleItem (rt := Sample.utc) (render true (store Sample.withFriday))
      Sample.task "2024-03-09" Sample.withFriday
    = (Returned
         (Some (withItems
                  (storedAs "id1" (emptyScheduleFor (rt := Sample.utc) Sample.march9))
                  [itemStoredAs "id2" (withoutId Sample.task)])),
       w')
    /\ length (Store.schedules (store w')) = 2%nat.
Proof.
  destruct (copyScheduleItem_new_day (rt := Sample.utc) Sample.withFriday
              Sample.task "2024-03-09" Sample.march9 "id1" "id2")
    as (w' & Hrun & Hcache & _).
  - vm_compute; reflexivity.
  - rewrite withFriday_cache.
    repeat (apply List.Forall_cons; [vm_compute; reflexivity|]).
    apply List.Forall_nil.
  - rewrite withFriday_cache.
    repeat (apply List.Forall_cons; [vm_compute; discriminate|]).
    apply List.Forall_nil.
  - vm_compute; reflexivity.
  - vm_compute; reflexivity.
  - exists w'. split; [exact Hrun|]. rewrite Hcache. vm_compute. reflexivity.
Defined.

(** C3. Five hours behind UTC, [copySchedule] onto Saturday 2024-03-09,
    for which a schedule is cached, deletes that schedule and creates the
    copy for the day before: [setHours(0, 0, 0, 0)] takes the local
    midnight of an instant that was parsed as UTC midnight, and
    [toISOString] writes it back in UTC. No schedule is left for the target
    date, two are for 2024-03-08, and the day type is that of a Friday. The
    copy has the three items of the source, not completed and without
    identifiers, and its status is Planned. *)
Theorem copySchedule_misses_target_day :
  let w := Sample.withBoth in
  let result :=
    copySchedule (rt := Scenario.eastern) (render true (store w))
      Sample.storedFriday "2024-03-09" w in
  let cache := Store.schedules (store (snd result)) in
  findThrowing (onDay (rt := Scenario.eastern) "2024-03-09")
               (Store.schedules (store w))
  = Some (Some Sample.storedSaturday)
  /\ UTC.weekday Sample.march9 = Saturday
  /\ (exists created newItems,
        fst result = Returned (Some created)
        /\ cache = [Sample.storedFriday; created]
        /\ date created = Some "2024-03-08T05:00:00.000Z"
        /\ dayType created = Some "Weekday"
        /\ status created = Some "Planned"
        /\ items created = Some newItems
        /\ Forall2 (fun copy source =>
                      item_id copy = None
                      /\ completed copy = Some false
                      /\ category copy = category source
                      /\ priority copy = priority source
                      /\ startTime copy = startTime source
                      /\ endTime copy = endTime source
                      /\ itemRest copy = itemRest source)
                   newItems [Sample.task; Sample.note; Sample.reading])
  /\ ~ In Sample.storedSaturday cache
  /\ List.filter (forDay (rt := Scenario.eastern) "2024-03-09") cache = []
  /\ length (List.filter (forDay (rt := Scenario.eastern) "2024-03-08")
                         cache) = 2%nat.
Proof.
  intros w result cache. subst w result cache.
  split; [vm_compute; reflexivity|].
  split; [vm_compute; reflexivity|].
  split.
  - eexists. eexists.
    split; [vm_compute; reflexivity|].
    split; [vm_compute; reflexivity|].
    split; [reflexivity|]. split; [reflexivity|]. split; [reflexivity|].
    split; [reflexivity|].
    repeat (apply List.Forall2_cons; [repeat split; reflexivity|]).
    apply List.Forall2_nil.
  - split; [|split; vm_compute; reflexivity].
    vm_compute. intros [E | [E | []]]; discriminate E.
Qed.

(** C4. Five hours behind UTC, [copyScheduleItem] onto Saturday
    2024-03-09, for which no schedule is cached, creates a schedule for the
    day before, typed Weekday, and adds the copy of the item to it; no
    schedule is for the target date afterwards. The defect is the one of
    [copySchedule]: the local midnight of an instant parsed as UTC
    midnight, written back in UTC. The item posted is the source item
    without its identifier. *)
Theorem copyScheduleItem_misses_target_day :
  let w := Sample.withFriday in
  let result :=
    copyScheduleItem (rt := Scenario.eastern) (render true (store w))
      Sample.task "2024-03-09" w in
  let cache := Store.schedules (store (snd result)) in
  findThrowing (onDay (rt := Scenario.eastern) "2024-03-09")
               (Store.schedules (store w))
  = Some None
  /\ UTC.weekday Sample.march9 = Saturday
  /\ (exists created posted updated,
        sent (snd result)
        = sent w ++ [Sent (POST_schedules created);
                     Sent (POST_item "id1" posted)]
        /\ date created = Some "2024-03-08T05:00:00.000Z"
        /\ dayType created = Some "Weekday"
        /\ items created = Some []
        /\ item_id posted = None
        /\ sameContent posted Sample.task
        /\ fst result = Returned (Some updated)
        /\ cache = [Sample.storedFriday; updated]
        /\ date updated = Some "2024-03-08T05:00:00.000Z"
        /\ items updated = Some [itemStoredAs "id2" posted])
  /\ List.filter (forDay (rt := Scenario.eastern) "2024-03-09") cache = []
  /\ length (List.filter (forDay (rt := Scenario.eastern) "2024-03-08")
                         cache) = 2%nat.
Proof.
  intros w result cache. subst w result cache.
  split; [vm_compute; reflexivity|].
  split; [vm_compute; reflexivity|].
  split; [|split; vm_compute; reflexivity].
  eexists. eexists. eexists.
  split; [vm_compute; reflexivity|].
  split; [reflexivity|]. split; [reflexivity|]. split; [reflexivity|].
  split; [reflexivity|]. split; [repeat split; reflexivity|].
  split; [vm_compute; reflexivity|].
  split; [vm_compute; reflexivity|].
  split; reflexivity.
Qed.

(** C5. The statistics are not recomputed from the cache
    [copyScheduleItem] leaves: copying one item onto a new day ends with
    four items cached while the statistics still count three, those of the
    render the callback was created in. *)
Theorem copyScheduleItem_stats_stale :
  let w := Sample.withFriday in
  let result :=
    copyScheduleItem (rt := Sample.utc) (render true (store w))
      Sample.task "2024-03-09" w in
  (exists s, fst result = Returned (Some s))
  /\ length (allItems (Store.schedules (store (snd result)))) = 4%nat
  /\ Stats.totalTasks (Store.stats (store (snd result))) = 3%nat
  /\ Store.stats (store (snd result)) = Store.stats (store w)
  /\ statsFor (rt := Sample.utc)
       (arrayOf (Store.schedules (store (snd result))))
     <> Some (Store.stats (store (snd result))).
Proof.
  intros w result. subst w result.
  split; [eexists; vm_compute; reflexivity|].
  split; [vm_compute; reflexivity|].
  split; [vm_compute; reflexivity|].
  split; [vm_compute; reflexivity|].
  vm_compute. intros H. discriminate H.
Qed.


(** A failure outside the amended statement: the backend answers a
    creation with a record whose date cannot be read; the record is
    appended, then the statistics throw and [createSchedule] fails. *)
Lemma createSchedule_failure_after_append :
  let w := Sample.mounted Backend.garbledDates in
  let result :=
    mutate (rt := Sample.utc) (render true (store w))
      (CreateSchedule Sample.friday) w in
  fst result = Threw RangeError
  /\ length (Store.schedules (store (snd result))) = 1%nat.
Proof.
  intros w result. subst w result.
  split; vm_compute; reflexivity.
Qed.


(** Witness of C7: no date; a date and no item; a date and three items. *)
Lemma createSchedule_validation_witness :
  let w := Sample.mounted Backend.honest in
  let r := render true (store w) in
  createSchedule (rt := Sample.utc) r emptyObject w
  = (Threw (Error "Date is required"), w)
  /\ createSchedule (rt := Sample.utc) r (withItems Sample.bare []) w
     = (Threw (Error "At least one schedule item is required"), w)
  /\ (exists body,
        sent (snd (createSchedule (rt := Sample.utc) r Sample.friday w))
        = [Sent (POST_schedules body)]
        /\ date body = Some "2024-03-08T00:00:00.000Z"
        /\ items body = Some [Sample.task; Sample.note; Sample.reading]).
Proof.
  intros w r.
  destruct (createSchedule_validation (rt := Sample.utc) w emptyObject)
    as (Hdate & _ & _).
  destruct (createSchedule_validation (rt := Sample.utc) w
              (withItems Sample.bare [])) as (_ & Hitems & _).
  destruct (createSchedule_validation (rt := Sample.utc) w Sample.friday)
    as (_ & _ & Hsent).
  split; [|split].
  - apply Hdate. vm_compute; reflexivity.
  - apply Hitems.
    + vm_compute; reflexivity.
    + right; vm_compute; reflexivity.
  - assert (Htruthy : truthy (date Sample.friday) = true)
      by (vm_compute; reflexivity).
    specialize (Hsent Htruthy
                  (ex_intro _ Sample.task
                     (ex_intro _ [Sample.note; Sample.reading] eq_refl))).
    change (newDate (rt := Sample.utc) (date Sample.friday))
      with (Some 1709856000000%Z) in Hsent.
    destruct Hsent as (body & Hbody & Hiso & _ & _ & _ & Hlist).
    exists body. split; [exact Hbody|]. split; [|exact Hlist].
    rewrite Hiso. vm_compute; reflexivity.
Defined.

(** Counterexample to C7 as stated: an input that has items and a date
    that cannot be parsed is none of the two rejected cases, and yet its
    date is not normalized and no request is sent: the call fails on
    [toISOString]. *)
Lemma createSchedule_unreadable_date :
  let w := Sample.mounted Backend.honest in
  let scheduleData := withDate Sample.friday "not-a-date" in
  let result :=
    createSchedule (rt := Sample.utc) (render true (store w))
      scheduleData w in
  date scheduleData = Some "not-a-date"
  /\ items scheduleData = Some [Sample.task; Sample.note; Sample.reading]
  /\ fst result = Threw RangeError
  /\ sent (snd result) = []
  /\ snd result = w.
Proof.
  intros w scheduleData result. subst w scheduleData result.
  repeat split; vm_compute; reflexivity.
Qed.



(** ** More on the callbacks: the gate, the fetch, the identifiers *)

Ltac conclude H :=
  try discriminate H;
  first [injection H as <- <- | injection H as <-]; simpl.

Section GateProofs.
Context {rt : DateRuntime} {ar : Arithmetic}.

(** X1. Without authentication nothing happens: every operation returns at
    once, sends no request and leaves the whole state as it was, and so
    does every session. *)
Theorem unauthenticated_session :
  (forall op w, perform (render false (store w)) op w = (Returned tt, w))
  /\ (forall ops w, session false ops w = w).
Proof.
  assert (Hone : forall op w,
             perform (render false (store w)) op w = (Returned tt, w)).
  { intros op w. destruct op as [m| | |]; [destruct m| | |]; reflexivity. }
  split; [exact Hone|].
  intros ops. induction ops as [|op ops IH]; intros w; simpl.
  - reflexivity.
  - rewrite Hone. simpl. apply IH.
Qed.

Lemma statsFor_readable (l : list Schedule) (v : Stats.t) :
  statsFor (arrayOf l) = Some v -> datesValid l.
Proof.
  destruct l as [|s l]; [constructor|].
  unfold statsFor, statsOf, todayItems, todaySchedules.
  generalize (s :: l). clear s l. intros l.
  destruct (filterThrowing isToday l) as [kept|] eqn:E; [|discriminate].
  intros _. revert kept E.
  induction l as [|s l IH]; intros kept E; [constructor|].
  simpl in E. destruct (isToday s) as [b|] eqn:Es; [|discriminate].
  destruct (filterThrowing isToday l) as [k|]; [|discriminate].
  constructor; [|eapply IH; reflexivity].
  intros Hd. unfold isToday in Es. rewrite Hd in Es.
  destruct (isoDay (date s)); [discriminate|discriminate Es].
Qed.

(** X2. An authenticated [fetchSchedules] sends one list query that carries
    the filters that are set, never rejects and always ends with [loading]
    false. A rejected query empties the cache, resets the statistics and
    records the message (or a default one); so does a response whose
    statistics cannot be computed; otherwise the response replaces the
    cache, no error is recorded and the list is returned. *)
Theorem fetchSchedules_settles (w : World)
    (startDate endDate status : option string) :
  let query := GET_schedules {| p_startDate := ifTruthy startDate;
                                p_endDate := ifTruthy endDate;
                                p_status := ifTruthy status |} in
  let result :=
    fetchSchedules (render true (store w)) startDate endDate status w in
  let after := store (snd result) in
  Store.loading after = false
  /\ sent (snd result) = sent w ++ [Sent query]
  /\ (exists returned, fst result = Returned returned)
  /\ (forall message,
        server w _ (sent w) query = Rejects message ->
        fst result = Returned None
        /\ Store.schedules after = []
        /\ Store.stats after = defaultStats
        /\ Store.error after
           = Some (orElse message "Failed to fetch schedules"))
  /\ (forall data,
        server w _ (sent w) query = Resolves data ->
        let fetched := match data with Some l => l | None => [] end in
        match statsFor (arrayOf fetched) with
        | Some v =>
            fst result = Returned (Some fetched)
            /\ Store.schedules after = fetched
            /\ Store.stats after = v
            /\ Store.error after = None
        | None =>
            fst result = Returned None
            /\ Store.schedules after = []
            /\ Store.stats after = defaultStats
            /\ Store.error after = messageOf RangeError
        end).
Proof.
  intros query result after. subst query result after.
  unfold fetchSchedules. simpl. run_hook.
  destruct (server w _ (sent w) _) as [data|message]; simpl.
  - destruct (statsFor _) eqn:Ev; run_hook.
    + repeat split; try reflexivity; try discriminate.
      * eexists; reflexivity.
      * intros data' [= <-]. simpl. rewrite Ev. repeat split; reflexivity.
    + repeat split; try reflexivity; try discriminate.
      * eexists; reflexivity.
      * intros data' [= <-]. simpl. rewrite Ev. repeat split; reflexivity.
  - split; [reflexivity|]. split; [reflexivity|].
    split; [eexists; reflexivity|]. split; [|discriminate].
    intros message' [= <-]. repeat split; reflexivity.
Qed.

(** X3. Whatever the backend answers, no schedule whose date is present and
    cannot be formatted is in the cache after an authenticated
    [fetchSchedules]. *)
Theorem fetchSchedules_cache_readable (w : World)
    (startDate endDate status : option string) :
  let result :=
    fetchSchedules (render true (store w)) startDate endDate status w in
  datesValid (Store.schedules (store (snd result)))
  /\ Forall (fun s => unreadableDate s = false)
            (Store.schedules (store (snd result))).
Proof.
  intros result.
  assert (Hvalid : datesValid (Store.schedules (store (snd result)))).
  { destruct result as [o w'] eqn:Hrun. subst result.
    apply (statsFor_readable _ (Store.stats (store w'))).
    eapply fetchSchedules_stats. exact Hrun. }
  split; [exact Hvalid|].
  eapply List.Forall_impl; [|exact Hvalid].
  intros s Hs. simpl in Hs. unfold unreadableDate.
  destruct (truthy (date s)); [|reflexivity].
  destruct (isoDay (date s)); [reflexivity|].
  exfalso. apply Hs; reflexivity.
Qed.

(** X4. A call without the identifier it needs fails with a validation error
    before any request, and changes nothing. *)
Theorem missing_identifier_rejected (w : World) (updates : Schedule)
    (item : Item) (scheduleId itemId : string) :
  let r := render true (store w) in
  updateSchedule r "" updates w
  = (Threw (Error "Schedule ID is required"), w)
  /\ deleteSchedule r "" w
     = (Threw (Error "Schedule ID is required"), w)
  /\ addScheduleItem r "" item w
     = (Threw (Error "Schedule ID is required"), w)
  /\ updateScheduleItem r "" itemId item w
     = (Threw (Error "Schedule ID and Item ID are required"), w)
  /\ updateScheduleItem r scheduleId "" item w
     = (Threw (Error "Schedule ID and Item ID are required"), w)
  /\ deleteScheduleItem r "" itemId w
     = (Threw (Error "Schedule ID and Item ID are required"), w)
  /\ deleteScheduleItem r scheduleId "" w
     = (Threw (Error "Schedule ID and Item ID are required"), w).
Proof.
  intros r.
  repeat split; try reflexivity.
  - unfold updateScheduleItem. simpl.
    rewrite orb_true_r. reflexivity.
  - unfold deleteScheduleItem. simpl.
    rewrite orb_true_r. reflexivity.
Qed.

(** X5. [updateSchedule] sends the updates as they are when they carry no
    date, and with the date in the ISO format when they carry one; when
    that date cannot be parsed it fails before any request and changes
    nothing. *)
Theorem updateSchedule_normalizes_date (w : World) (id : string)
    (updates : Schedule) :
  id <> "" ->
  let result := updateSchedule (render true (store w)) id updates w in
  if truthy (date updates) then
    match newDate (date updates) with
    | Some t =>
        sent (snd result)
        = sent w ++ [Sent (PUT_schedule id
                             (withDate updates (toISOString t)))]
    | None => result = (Threw RangeError, w)
    end
  else sent (snd result) = sent w ++ [Sent (PUT_schedule id updates)].
Proof.
  intros Hid result. subst result.
  unfold updateSchedule. simpl.
  destruct (String.eqb_spec id "") as [->|_]; [contradiction|]. simpl.
  destruct (truthy (date updates)); run_hook.
  - destruct (newDate (date updates)) as [t|]; simpl; [|reflexivity].
    destruct (server w _ _ _); simpl; [|reflexivity].
    destruct (statsFor _); reflexivity.
  - destruct (server w _ _ _); simpl; [|reflexivity].
    destruct (statsFor _); reflexivity.
Qed.

End GateProofs.


(** ** More on the callbacks: what a mutation does to the cache *)

Lemma replaceById_nth (id : option string) (updated : Schedule)
    (l : list Schedule) (i : nat) (s : Schedule) :
  nth_error l i = Some s ->
  nth_error (replaceById id updated l) i
  = Some (if sameId (sched_id s) id then updated else s).
Proof.
  intros Hs. unfold replaceById.
  rewrite nth_error_map, Hs. reflexivity.
Qed.

Lemma removeById_clean (id : option string) (l : list Schedule) :
  Forall (fun s => sched_id s <> id) (removeById id l).
Proof.
  unfold removeById. apply List.Forall_forall. intros s Hs.
  apply filter_In in Hs. destruct Hs as [_ Hs].
  apply sameId_false. destruct (sameId (sched_id s) id); [discriminate|].
  reflexivity.
Qed.

Lemma removeById_keeps (id : option string) (l : list Schedule)
    (s : Schedule) :
  In s l -> sched_id s <> id -> In s (removeById id l).
Proof.
  intros Hin Hid. unfold removeById. apply filter_In. split; [exact Hin|].
  apply sameId_false in Hid. rewrite Hid. reflexivity.
Qed.

Lemma removeById_length (id : option string) (l : list Schedule) :
  (length (removeById id l) <= length l)%nat.
Proof. apply List.filter_length_le. Qed.

Section CacheProofs.
Context {rt : DateRuntime} {ar : Arithmetic}.

(** X6. The four operations that reconcile one schedule ([updateSchedule]
    and the three item operations), when they succeed, have sent one
    request, and they put the record the backend answered it with in the
    place of every cached schedule that has the identifier, leaving the
    others where they were: the cache keeps its length and its order, and
    it does not change at all when no cached schedule has the identifier. *)
Theorem replacement_in_place (w w' : World) (m : Mutation) (id : string) :
  replacedId m = Some id ->
  mutate (render true (store w)) m w = (Returned tt, w') ->
  exists updated,
    answered w w' m updated
    /\ Store.schedules (store w')
       = replaceById (Some id) updated (Store.schedules (store w))
    /\ length (Store.schedules (store w'))
       = length (Store.schedules (store w))
    /\ (forall i s,
          nth_error (Store.schedules (store w)) i = Some s ->
          nth_error (Store.schedules (store w')) i
          = Some (if sameId (sched_id s) (Some id) then updated else s))
    /\ (Forall (fun s => sched_id s <> Some id)
               (Store.schedules (store w)) ->
        Store.schedules (store w') = Store.schedules (store w)).
Proof.
  intros Hid Hrun.
  assert (Hcache : exists updated,
             answered w w' m updated
             /\ Store.schedules (store w')
                = replaceById (Some id) updated
                              (Store.schedules (store w))).
  { destruct m; try discriminate Hid; injection Hid as ->;
      unfold mutate, ignore in Hrun.
    - unfold updateSchedule in Hrun. run_hook_in Hrun.
      split_cases Hrun; conclude Hrun;
        (eexists; split; [|reflexivity]);
        (eexists; eexists; split; [reflexivity|]);
        (split; [eassumption|reflexivity]).
    - unfold addScheduleItem in Hrun. run_hook_in Hrun.
      split_cases Hrun; conclude Hrun;
        (eexists; split; [|reflexivity]);
        (split; [reflexivity|eassumption]).
    - unfold updateScheduleItem in Hrun. run_hook_in Hrun.
      split_cases Hrun; conclude Hrun;
        (eexists; split; [|reflexivity]);
        (split; [reflexivity|eassumption]).
    - unfold deleteScheduleItem in Hrun. run_hook_in Hrun.
      split_cases Hrun; conclude Hrun;
        (eexists; split; [|reflexivity]);
        (split; [reflexivity|eassumption]). }
  destruct Hcache as (updated & Hanswer & Hcache). exists updated.
  split; [exact Hanswer|]. split; [exact Hcache|]. rewrite Hcache.
  split; [apply length_map|]. split.
  - intros i s. apply replaceById_nth.
  - apply replaceById_fresh.
Qed.

(** X7. A successful [deleteSchedule] has sent one request, which the
    backend accepted, and sets the cache to the schedules of its render
    that have another identifier, in their order: none with the identifier
    remains. When the callback is the one of the current render, whose
    schedules are the cache, every cached schedule that has another
    identifier is kept and the cache does not grow. *)
Theorem deleteSchedule_removes (r : Render.t) (w w' : World) (id : string) :
  Render.isAuthenticated r = true ->
  deleteSchedule r id w = (Returned tt, w') ->
  Store.schedules (store w') = removeById (Some id) (Render.schedules r)
  /\ Forall (fun s => sched_id s <> Some id) (Store.schedules (store w'))
  /\ sent w' = sent w ++ [Sent (DELETE_schedule id)]
  /\ server w _ (sent w) (DELETE_schedule id) = Resolves tt
  /\ (Render.schedules r = Store.schedules (store w) ->
      (forall s, In s (Store.schedules (store w)) ->
                 sched_id s <> Some id ->
                 In s (Store.schedules (store w')))
      /\ (length (Store.schedules (store w'))
          <= length (Store.schedules (store w)))%nat).
Proof.
  intros Hauth Hrun.
  assert (H : Store.schedules (store w')
              = removeById (Some id) (Render.schedules r)
              /\ sent w' = sent w ++ [Sent (DELETE_schedule id)]
              /\ server w _ (sent w) (DELETE_schedule id) = Resolves tt).
  { unfold deleteSchedule in Hrun. rewrite Hauth in Hrun.
    run_hook_in Hrun.
    split_cases Hrun; conclude Hrun;
      (split; [reflexivity|split; [reflexivity|]]);
      match goal with
      | |- Resolves ?u = _ => destruct u; reflexivity
      end. }
  destruct H as (Hcache & Hsent & Hanswer). rewrite Hcache.
  split; [reflexivity|]. split; [apply removeById_clean|].
  split; [exact Hsent|]. split; [exact Hanswer|].
  intros ->. split; [intros s; apply removeById_keeps|].
  apply removeById_length.
Qed.

(** X8. When a schedule is cached for the target date, [copyScheduleItem]
    creates none: its only request adds the item, without its identifier,
    to that schedule. If the request succeeds, the returned schedule takes
    the place of the cached one and the cache keeps its length; if it is
    rejected the cache is as before. *)
Theorem copyScheduleItem_existing_day (w : World) (item : Item)
    (targetDate : string) (existing : Schedule) (v : Stats.t) :
  findThrowing (onDay targetDate) (Store.schedules (store w))
  = Some (Some existing) ->
  statsFor (arrayOf (Store.schedules (store w))) = Some v ->
  let add := POST_item (interpolate (sched_id existing)) (withoutId item) in
  let result :=
    copyScheduleItem (render true (store w)) item targetDate w in
  sent (snd result) = sent w ++ [Sent add]
  /\ Store.loading (store (snd result)) = false
  /\ (forall updated,
        server w _ (sent w) add = Resolves updated ->
        fst result = Returned (Some updated)
        /\ Store.schedules (store (snd result))
           = replaceById (sched_id existing) updated
                         (Store.schedules (store w))
        /\ length (Store.schedules (store (snd result)))
           = length (Store.schedules (store w)))
  /\ (forall message,
        server w _ (sent w) add = Rejects message ->
        fst result = Threw (Rejected message)
        /\ Store.schedules (store (snd result))
           = Store.schedules (store w)).
Proof.
  intros Hfind Hv add result. subst add result.
  unfold copyScheduleItem. simpl. run_hook.
  rewrite Hfind. simpl.
  destruct (server w _ (sent w) _) as [updated|message]; simpl.
  - rewrite Hv. run_hook.
    split; [reflexivity|]. split; [reflexivity|]. split; [|discriminate].
    intros updated' [= <-].
    split; [reflexivity|]. split; [reflexivity|].
    unfold replaceById. apply length_map.
  - split; [reflexivity|]. split; [reflexivity|]. split; [discriminate|].
    intros message' [= <-]. split; reflexivity.
Qed.

(** X9. When no schedule is cached for the target date, [copySchedule]
    deletes nothing: its only request creates the copy, and when it
    succeeds the new record is appended to the cache, which keeps every
    schedule it had. *)
Theorem copySchedule_fresh_day (w : World) (sourceSchedule : Schedule)
    (sourceItems : list Item) (targetDate : string) (t : Z)
    (data : option Schedule) (v : Stats.t) :
  findThrowing (onDay targetDate) (Store.schedules (store w))
  = Some None ->
  parseDate targetDate = Some t ->
  items sourceSchedule = Some sourceItems ->
  let submitted := copyFor (setHoursZero t) sourceItems in
  server w _ (sent w) (POST_schedules submitted) = Resolves data ->
  statsFor (arrayOf (removeById None (Store.schedules (store w))
                     ++ [orEmptyObject data])) = Some v ->
  exists w',
    copySchedule (render true (store w)) sourceSchedule targetDate w
    = (Returned (Some (orEmptyObject data)), w')
    /\ Store.schedules (store w')
       = Store.schedules (store w) ++ [orEmptyObject data]
    /\ sent w' = sent w ++ [Sent (POST_schedules submitted)]
    /\ Store.loading (store w') = false.
Proof.
  intros Hfind Hparse Hitems submitted Hpost Hv. subst submitted.
  unfold copySchedule. simpl. run_hook.
  rewrite Hfind. simpl.
  unfold formatDate. rewrite Hparse. simpl. rewrite Hitems. simpl.
  unfold copyFor in Hpost. rewrite Hpost. simpl.
  rewrite Hv. run_hook.
  eexists. repeat split; reflexivity.
Qed.

(** X10. Copying a schedule that has no [items] fails with a [TypeError], and
    it does so after the schedule of the target date was deleted: that one
    is gone from the backend and from the cache, and nothing was created.
    When no schedule existed for the date, nothing is sent at all. *)
Theorem copySchedule_source_without_items (w : World)
    (sourceSchedule : Schedule) (targetDate : string) (t : Z) :
  parseDate targetDate = Some t ->
  items sourceSchedule = None ->
  let result :=
    copySchedule (render true (store w)) sourceSchedule targetDate w in
  (forall existing,
     findThrowing (onDay targetDate) (Store.schedules (store w))
     = Some (Some existing) ->
     server w _ (sent w)
            (DELETE_schedule (interpolate (sched_id existing)))
     = Resolves tt ->
     fst result = Threw TypeError
     /\ Store.schedules (store (snd result))
        = removeById (sched_id existing) (Store.schedules (store w))
     /\ ~ In existing (Store.schedules (store (snd result)))
     /\ sent (snd result)
        = sent w ++ [Sent (DELETE_schedule
                             (interpolate (sched_id existing)))])
  /\ (findThrowing (onDay targetDate) (Store.schedules (store w))
      = Some None ->
      fst result = Threw TypeError
      /\ Store.schedules (store (snd result)) = Store.schedules (store w)
      /\ sent (snd result) = sent w).
Proof.
  intros Hparse Hitems result. subst result.
  unfold copySchedule. simpl. run_hook. split.
  - intros existing Hfind Hdelete. rewrite Hfind. simpl.
    rewrite Hdelete. simpl.
    unfold formatDate. rewrite Hparse. simpl. rewrite Hitems. simpl.
    split; [reflexivity|]. split; [reflexivity|].
    split; [apply removeById_not_in|reflexivity].
  - intros Hfind. rewrite Hfind. simpl.
    unfold formatDate. rewrite Hparse. simpl. rewrite Hitems. simpl.
    repeat split; reflexivity.
Qed.

(** X11. A target date that cannot be parsed, when no cached schedule matches
    it, makes both copies fail with a [RangeError] before any request; the
    cache is untouched and [loading] is false again. *)
Theorem copy_unreadable_target (w : World) (item : Item)
    (sourceSchedule : Schedule) (targetDate : string) :
  parseDate targetDate = None ->
  findThrowing (onDay targetDate) (Store.schedules (store w))
  = Some None ->
  let r := render true (store w) in
  fst (copyScheduleItem r item targetDate w) = Threw RangeError
  /\ fst (copySchedule r sourceSchedule targetDate w) = Threw RangeError
  /\ sent (snd (copyScheduleItem r item targetDate w)) = sent w
  /\ sent (snd (copySchedule r sourceSchedule targetDate w)) = sent w
  /\ Store.schedules (store (snd (copyScheduleItem r item targetDate w)))
     = Store.schedules (store w)
  /\ Store.schedules
       (store (snd (copySchedule r sourceSchedule targetDate w)))
     = Store.schedules (store w)
  /\ Store.loading (store (snd (copyScheduleItem r item targetDate w)))
     = false
  /\ Store.loading
       (store (snd (copySchedule r sourceSchedule targetDate w)))
     = false.
Proof.
  intros Hparse Hfind r. subst r.
  unfold copyScheduleItem, copySchedule. simpl. run_hook.
  rewrite Hfind. simpl. unfold formatDate. rewrite Hparse. simpl.
  repeat split; reflexivity.
Qed.

End CacheProofs.


(** ** More on the callbacks: what an operation leaves alone *)

Section FrameProofs.
Context {rt : DateRuntime} {ar : Arithmetic}.

Ltac unfold_operation H :=
  unfold perform, loadEffect, mutate, ignore, fetchSchedules,
    fetchCategories, createSchedule, updateSchedule, deleteSchedule,
    addScheduleItem, updateScheduleItem, deleteScheduleItem,
    copyScheduleItem, copySchedule in H;
  run_hook_in H.

(** X12. Whether it succeeds or fails, an authenticated copy ends with
    [loading] false; the six other mutations never change [loading]. *)
Theorem loading_after_mutation (w w' : World) (m : Mutation)
    (o : Outcome unit) :
  mutate (render true (store w)) m w = (o, w') ->
  Store.loading (store w')
  = match m with
    | CopyScheduleItem _ _ => false
    | CopySchedule _ _ => false
    | _ => Store.loading (store w)
    end.
Proof.
  intros Hrun.
  destruct m; unfold_operation Hrun;
    split_cases Hrun; conclude Hrun; reflexivity.
Qed.

(** X13. The operations keep to their part of the state. A mutation never
    touches the categories, the in-flight flag or the recorded error (a
    failing mutation records no error); fetching the schedules never
    touches the categories or the flag; fetching the categories never
    touches the schedules, the statistics, [loading] or the error. *)
Theorem operation_frame (isAuthenticated : bool) (w w' : World)
    (op : Operation) (o : Outcome unit) :
  perform (render isAuthenticated (store w)) op w = (o, w') ->
  match op with
  | Mutate _ =>
      Store.categories (store w') = Store.categories (store w)
      /\ Store.isFetchingCategories (store w')
         = Store.isFetchingCategories (store w)
      /\ Store.error (store w') = Store.error (store w)
  | FetchCategories =>
      Store.schedules (store w') = Store.schedules (store w)
      /\ Store.stats (store w') = Store.stats (store w)
      /\ Store.loading (store w') = Store.loading (store w)
      /\ Store.error (store w') = Store.error (store w)
  | _ =>
      Store.categories (store w') = Store.categories (store w)
      /\ Store.isFetchingCategories (store w')
         = Store.isFetchingCategories (store w)
  end.
Proof.
  intros Hrun.
  destruct op as [m| | |]; [destruct m| | |]; unfold_operation Hrun;
    split_cases Hrun; conclude Hrun; repeat split; reflexivity.
Qed.

Ltac extends :=
  unfold isPrefix;
  first [ exists []; rewrite app_nil_r; reflexivity
        | eexists; reflexivity
        | eexists; rewrite <- app_assoc; reflexivity ].

Lemma perform_log (isAuthenticated : bool) (w w' : World)
    (op : Operation) (o : Outcome unit) :
  perform (render isAuthenticated (store w)) op w = (o, w') ->
  isPrefix (sent w) (sent w')
  /\ (length (sent w')
      <= length (sent w)
         + match op with
           | Mutate (CopyScheduleItem _ _) => 2
           | Mutate (CopySchedule _ _) => 2
           | _ => 1
           end)%nat
  /\ server w' = server w.
Proof.
  intros Hrun.
  destruct op as [m| | |]; [destruct m| | |]; unfold_operation Hrun;
    split_cases Hrun; conclude Hrun;
    (split; [extends|split; [rewrite ?length_app; simpl; lia|reflexivity]]).
Qed.

(** X14. The log of requests only grows: what was sent before an operation is
    the beginning of what is sent after it, and after a whole session. An
    operation sends at most one request, a copy at most two, and the
    backend is the same afterwards. *)
Theorem requests_only_appended (isAuthenticated : bool) (w : World) :
  (forall op o w',
     perform (render isAuthenticated (store w)) op w = (o, w') ->
     isPrefix (sent w) (sent w')
     /\ (length (sent w')
         <= length (sent w)
            + match op with
              | Mutate (CopyScheduleItem _ _) => 2
              | Mutate (CopySchedule _ _) => 2
              | _ => 1
              end)%nat
     /\ server w' = server w)
  /\ (forall ops,
        isPrefix (sent w) (sent (session isAuthenticated ops w))
        /\ (length (sent (session isAuthenticated ops w))
            <= length (sent w) + 2 * length ops)%nat).
Proof.
  split; [intros op o w'; apply perform_log|].
  intros ops. revert w.
  induction ops as [|op ops IH]; intros w; simpl.
  - split; [exists []; rewrite app_nil_r; reflexivity|lia].
  - destruct (perform (render isAuthenticated (store w)) op w)
      as [o w1] eqn:Hrun. simpl.
    destruct (perform_log _ _ _ _ _ Hrun) as ([c1 H1] & Hlen & _).
    destruct (IH w1) as ([c2 H2] & Hlen2).
    split.
    + exists (c1 ++ c2). rewrite H2, H1, app_assoc. reflexivity.
    + assert (length (sent w1) <= length (sent w) + 2)%nat.
      { destruct op as [[]| | |]; lia. }
      lia.
Qed.

End FrameProofs.


(** ** More on the statistics *)

Lemma filter_length_le_all {A} (p : A -> bool) (l : list A) :
  (length (List.filter p l) <= length l)%nat.
Proof. apply List.filter_length_le. Qed.

Lemma ofNat_exact (n : nat) : ofNat (ar := exact) n = Num (countQ n).
Proof. reflexivity. Qed.

Lemma countQ_le (a b : nat) : (a <= b)%nat -> (countQ a <= countQ b)%Q.
Proof.
  intros H. unfold countQ. rewrite <- Zle_Qle. lia.
Qed.

(** X17. The completion rate is a percentage: it lies between 0 and 100, in
    exact arithmetic and, for a collection of fewer than [2 ^ 53] items,
    in binary64; the completed items and the high-priority items are among
    the items counted by [totalTasks]. *)
Theorem completionRate_is_percentage (l : list Schedule) :
  (exists q, completionRate (ar := exact) l = Num q /\ (0 <= q <= 100)%Q)
  /\ ((Z.of_nat (totalItems l) < 2 ^ 53)%Z ->
      exists q,
        completionRate (ar := binary64) l = Num q /\ (0 <= q <= 100)%Q)
  /\ (completedItems l <= totalItems l)%nat
  /\ (highPriorityTasks l <= totalItems l)%nat.
Proof.
  assert (Hc : (completedItems l <= totalItems l)%nat).
  { rewrite completedItems_length, totalItems_length.
    apply filter_length_le_all. }
  split; [|split; [|split; [exact Hc|]]].
  - unfold completionRate.
    destruct (0 <? totalItems l)%nat eqn:Ht;
      [|exists 0%Q; split; [reflexivity|split; discriminate]].
    apply Nat.ltb_lt in Ht.
    rewrite !ofNat_exact. unfold numDiv.
    assert (Hpos : (0 < countQ (totalItems l))%Q).
    { unfold countQ. rewrite <- (Zlt_Qlt 0). lia. }
    assert (H0 : (0 <= countQ (completedItems l))%Q).
    { unfold countQ. rewrite <- (Zle_Qle 0). lia. }
    pose proof (countQ_le _ _ Hc) as Hle.
    assert (Ez : Qeq_bool (countQ (totalItems l)) 0 = false).
    { destruct (Qeq_bool (countQ (totalItems l)) 0) eqn:Ez; [|reflexivity].
      apply Qeq_bool_iff in Ez. rewrite Ez in Hpos.
      destruct (Qlt_irrefl _ Hpos). }
    rewrite Ez.
    eexists. split; [reflexivity|]. split.
    + apply Qmult_le_0_compat; [|discriminate].
      apply Qle_shift_div_l; [exact Hpos|].
      rewrite Qmult_0_l. exact H0.
    + apply Qle_trans with (1 * 100)%Q;
        [|rewrite Qmult_1_l; apply Qle_refl].
      apply Qmult_le_compat_r; [|discriminate].
      apply Qle_shift_div_r; [exact Hpos|].
      rewrite Qmult_1_l. exact Hle.
  - intros Hsize. unfold completionRate.
    destruct (0 <? totalItems l)%nat eqn:Ht;
      [|exists 0%Q; split; [reflexivity|split; discriminate]].
    apply Nat.ltb_lt in Ht.
    destruct (completionRate_binary64 _ _ Hc Ht Hsize)
      as (q & Hq & Hbounds & _).
    exists q. split; assumption.
  - rewrite highPriorityTasks_length, totalItems_length.
    apply filter_length_le_all.
Qed.

Section MoreStatsProofs.
Context {rt : DateRuntime} {ar : Arithmetic}.

Lemma isToday_datedToday (s : Schedule) (b : bool) :
  isToday s = Some b -> b = datedToday s.
Proof.
  unfold isToday, datedToday.
  destruct (truthy (date s)); simpl.
  - destruct (isoDay (date s)); [|discriminate]. intros [= <-]. reflexivity.
  - intros [= <-]. reflexivity.
Qed.

Lemma filterThrowing_isToday (l kept : list Schedule) :
  filterThrowing isToday l = Some kept ->
  kept = List.filter datedToday l.
Proof.
  revert kept. induction l as [|s l IH]; intros kept; simpl.
  - intros [= <-]. reflexivity.
  - destruct (isToday s) as [b|] eqn:Es; [|discriminate].
    destruct (filterThrowing isToday l) as [k|]; [|discriminate].
    intros [= <-]. rewrite <- (isToday_datedToday _ _ Es), <- (IH k eq_refl).
    reflexivity.
Qed.

Lemma allItems_filter_length (p : Schedule -> bool) (l : list Schedule) :
  (length (allItems (List.filter p l)) <= length (allItems l))%nat.
Proof.
  unfold allItems. induction l as [|s l IH]; simpl; [lia|].
  destruct (p s); simpl; rewrite ?length_app; lia.
Qed.

(** X18. When the computation returns, [todayItems] is the number of items of
    the schedules whose date, formatted, is today's day; it is at most
    [totalTasks]. *)
Theorem todayItems_counts_today (l : list Schedule) (n : nat) :
  todayItems l = Some n ->
  n = length (allItems (List.filter datedToday l))
  /\ (n <= totalItems l)%nat.
Proof.
  unfold todayItems, todaySchedules.
  destruct (filterThrowing isToday l) as [kept|] eqn:E; [|discriminate].
  intros [= <-]. rewrite (filterThrowing_isToday _ _ E), itemCount_sum.
  split; [reflexivity|].
  rewrite totalItems_length. apply allItems_filter_length.
Qed.

Lemma filterThrowing_none_iff (l : list Schedule) :
  filterThrowing isToday l = None
  <-> Exists (fun s => unreadableDate s = true) l.
Proof.
  induction l as [|s l IH]; simpl.
  - split; [discriminate|]. intros H; inversion H.
  - unfold isToday at 1, unreadableDate at 1.
    rewrite Exists_cons, <- IH. unfold unreadableDate.
    destruct (truthy (date s)); simpl.
    + destruct (isoDay (date s)); simpl.
      * destruct (filterThrowing isToday l); split; try discriminate;
          auto; intros [H|H]; discriminate.
      * split; auto.
    + destruct (filterThrowing isToday l); split; try discriminate;
        auto; intros [H|H]; discriminate.
Qed.

(** X19. [calculateStats] throws exactly when some schedule of the collection
    has a date that is present and cannot be formatted; it then sets
    nothing. *)
Theorem calculateStats_throws_iff (l : list Schedule) :
  (statsFor (arrayOf l) = None
   <-> Exists (fun s => unreadableDate s = true) l)
  /\ (forall w,
        Exists (fun s => unreadableDate s = true) l ->
        calculateStats (arrayOf l) w = (Threw RangeError, w)).
Proof.
  assert (Hiff : statsFor (arrayOf l) = None
                 <-> Exists (fun s => unreadableDate s = true) l).
  { rewrite <- filterThrowing_none_iff.
    destruct l as [|s l].
    - simpl. split; discriminate.
    - unfold statsFor, statsOf, todayItems, todaySchedules.
      destruct (filterThrowing isToday (s :: l)); split;
        congruence. }
  split; [exact Hiff|].
  intros w Hbad. apply Hiff in Hbad.
  unfold calculateStats. rewrite Hbad. reflexivity.
Qed.

(** A sum that meets a [NaN] is [NaN], in whatever arithmetic. *)
Lemma sumInOrder_from_nan (l : list Number) :
  fold_left numAdd l NaN = NaN.
Proof. induction l as [|x l IH]; simpl; [reflexivity|exact IH]. Qed.

Lemma sumInOrder_nan (l : list Number) (acc : Number) :
  In NaN l -> fold_left numAdd l acc = NaN.
Proof.
  revert acc; induction l as [|x l IH]; intros acc; simpl; [intros []|].
  intros [-> | Hin]; [|apply IH, Hin].
  replace (numAdd acc NaN) with NaN by (destruct acc; reflexivity).
  apply sumInOrder_from_nan.
Qed.

Lemma duration_nan (item : Item) :
  unreadableTime item = true -> duration item = NaN.
Proof.
  unfold unreadableTime, duration, dateDiff.
  destruct (hasBothTimes item); [|discriminate]. simpl.
  destruct (clockTime (endTime item)), (clockTime (startTime item));
    try discriminate; reflexivity.
Qed.

Lemma unreadableTime_hasBothTimes (item : Item) :
  unreadableTime item = true -> hasBothTimes item = true.
Proof.
  unfold unreadableTime. destruct (hasBothTimes item); [reflexivity|].
  discriminate.
Qed.

Lemma allItems_itemLists (l : list Schedule) (item : Item) :
  In item (allItems l) <-> exists li, In li (itemLists l) /\ In item li.
Proof.
  unfold allItems, itemLists. rewrite in_flat_map. split.
  - intros (s & Hs & Hitem). destruct (items s) as [li|] eqn:E;
      [|destruct Hitem].
    exists li. split; [|exact Hitem].
    apply in_flat_map. exists s. split; [exact Hs|].
    rewrite E. left; reflexivity.
  - intros (li & Hli & Hitem). apply in_flat_map in Hli.
    destruct Hli as (s & Hs & Hli). exists s. split; [exact Hs|].
    destruct (items s); [|destruct Hli].
    destruct Hli as [<- | []]. exact Hitem.
Qed.

(** One unreadable time spoils the whole total, in whatever arithmetic. *)
Lemma totalHours_spoiled (l : list Schedule) :
  Exists (fun item => unreadableTime item = true) (allItems l) ->
  totalHours l = NaN.
Proof.
  rewrite List.Exists_exists. intros (item & Hin & Hitem).
  apply allItems_itemLists in Hin. destruct Hin as (li & Hli & Hin).
  rewrite totalHours_order. unfold sumInOrder.
  apply sumInOrder_nan. apply in_map_iff. exists li.
  split; [|exact Hli].
  unfold scheduleHours, sumInOrder. apply sumInOrder_nan.
  apply in_map_iff. exists item. split; [apply duration_nan, Hitem|].
  apply filter_In. split; [exact Hin|].
  apply unreadableTime_hasBothTimes, Hitem.
Qed.

End MoreStatsProofs.

Lemma sumNumbers_notInfinite (l : list Number) :
  Forall notInfinite l -> notInfinite (sumNumbers (ar := exact) l).
Proof.
  induction 1 as [|x l Hx _ IH]; simpl; [exact I|].
  destruct x, (sumNumbers (ar := exact) l); simpl in *;
    try contradiction; exact I.
Qed.

Lemma sumNumbers_nan (l : list Number) :
  Forall notInfinite l ->
  sumNumbers (ar := exact) l = NaN <-> Exists (fun x => x = NaN) l.
Proof.
  induction 1 as [|x l Hx Hl IH]; simpl.
  - split; [discriminate|]. intros H; inversion H.
  - rewrite Exists_cons, <- IH.
    pose proof (sumNumbers_notInfinite l Hl) as Hsum.
    destruct x, (sumNumbers (ar := exact) l); simpl in *;
      try contradiction; split; auto;
      try discriminate; intros [E|E]; discriminate.
Qed.

Section ExactHours.
Context {rt : DateRuntime}.

Lemma contribution_notInfinite (item : Item) :
  notInfinite (contribution (ar := exact) item).
Proof.
  unfold contribution, duration, dateDiff.
  destruct (hasBothTimes item); [|exact I].
  destruct (clockTime (endTime item)), (clockTime (startTime item));
    exact I.
Qed.

Lemma contribution_nan (item : Item) :
  contribution (ar := exact) item = NaN <-> unreadableTime item = true.
Proof.
  unfold contribution, unreadableTime, duration, dateDiff.
  destruct (hasBothTimes item); simpl; [|split; discriminate].
  destruct (clockTime (startTime item)), (clockTime (endTime item));
    simpl; split; auto; discriminate.
Qed.

(** X20. The total of hours is [NaN] as soon as some item that has both
    times has one that is not a clock time: one such item spoils the whole
    total, in whatever arithmetic. In exact arithmetic, where no sum
    overflows, that is the only way to a [NaN]. *)
Theorem totalHours_nan_iff (l : list Schedule) :
  (totalHours (ar := exact) l = NaN
   <-> Exists (fun item => unreadableTime item = true) (allItems l))
  /\ (forall ar : Arithmetic,
        Exists (fun item => unreadableTime item = true) (allItems l) ->
        totalHours l = NaN).
Proof.
  split; [|intros ar; apply totalHours_spoiled].
  pose proof (totalHours_contributions l) as Heq.
  assert (Hsum : totalHours (ar := exact) l = NaN
                 <-> sumNumbers (ar := exact)
                       (map (contribution (ar := exact)) (allItems l))
                     = NaN).
  { destruct (totalHours l), (sumNumbers _); simpl in Heq; split;
      try discriminate; auto; contradiction. }
  rewrite Hsum, sumNumbers_nan, !List.Exists_exists.
  - split.
    + intros (x & Hin & Hx). apply in_map_iff in Hin.
      destruct Hin as (item & <- & Hin). exists item.
      split; [exact Hin|]. apply contribution_nan, Hx.
    + intros (item & Hin & Hitem).
      exists (contribution (ar := exact) item).
      split; [apply in_map; exact Hin|]. apply contribution_nan, Hitem.
  - apply List.Forall_forall. intros x Hin. apply in_map_iff in Hin.
    destruct Hin as (item & <- & _). apply contribution_notInfinite.
Qed.

End ExactHours.



(** ** More on the statistics: the category distribution *)

Lemma own_none {V} (cats : list (string * V)) (k : string) :
  own cats k = None <-> ~ In k (map fst cats).
Proof.
  unfold own. induction cats as [|[k' v] cats IH]; simpl.
  - split; [intros _ []|reflexivity].
  - destruct (String.eqb_spec k' k) as [->|Hne]; simpl.
    + split; [discriminate|]. intros Hnot. exfalso. apply Hnot. auto.
    + rewrite IH. split; [intros Hnot [E|Hin]; auto|auto].
Qed.

Lemma own_assign {V} (cats : list (string * V)) (k k' : string) (v : V) :
  own (assign cats k v) k'
  = if String.eqb k k' then Some v else own cats k'.
Proof.
  unfold own. induction cats as [|[k0 v0] cats IH]; simpl.
  - destruct (String.eqb k k'); reflexivity.
  - destruct (String.eqb_spec k0 k) as [->|Hne]; simpl.
    + destruct (String.eqb k k'); reflexivity.
    + destruct (String.eqb_spec k0 k') as [->|Hne']; simpl.
      * destruct (String.eqb_spec k k') as [->|_]; [contradiction|].
        reflexivity.
      * exact IH.
Qed.

Lemma assign_keys {V} (cats : list (string * V)) (k : string) (v : V) :
  map fst (assign cats k v)
  = if existsb (String.eqb k) (map fst cats)
    then map fst cats else map fst cats ++ [k].
Proof.
  induction cats as [|[k' n] cats IH]; simpl; [reflexivity|].
  rewrite (String.eqb_sym k k').
  destruct (String.eqb k' k); simpl; [reflexivity|].
  rewrite IH. destruct (existsb _ _); reflexivity.
Qed.

Lemma existsb_eqb_In (k : string) (l : list string) :
  existsb (String.eqb k) l = true <-> In k l.
Proof.
  rewrite existsb_exists. split.
  - intros (x & Hin & Hx). apply String.eqb_eq in Hx. subst. exact Hin.
  - intros Hin. exists k. split; [exact Hin|apply String.eqb_refl].
Qed.

Lemma assign_NoDup {V} (cats : list (string * V)) (k : string) (v : V) :
  List.NoDup (map fst cats) -> List.NoDup (map fst (assign cats k v)).
Proof.
  intros Hnd. rewrite assign_keys.
  destruct (existsb (String.eqb k) (map fst cats)) eqn:E; [exact Hnd|].
  apply List.NoDup_app;
    [exact Hnd|constructor; [intros []|constructor]|].
  intros x Hx [<- | []]. apply existsb_eqb_In in Hx. congruence.
Qed.

(** What [assign] does to the sum of the counts. *)
Lemma assign_sum (cats : list (string * Tally)) (k : string) (v : Tally) :
  list_sum (map (fun kv => tallyCount (snd kv)) (assign cats k v))
  + countFor cats k
  = list_sum (map (fun kv => tallyCount (snd kv)) cats) + tallyCount v.
Proof.
  unfold countFor, own.
  induction cats as [|[k' t] cats IH]; simpl; [lia|].
  destruct (String.eqb k' k); simpl; lia.
Qed.

Lemma bump_NoDup (cats : list (string * Tally)) (k : string) :
  List.NoDup (map fst cats) -> List.NoDup (map fst (bump cats k)).
Proof.
  intros Hnd. unfold bump.
  destruct (String.eqb k "__proto__"); [exact Hnd|].
  apply assign_NoDup, Hnd.
Qed.

Lemma own_bump (cats : list (string * Tally)) (k k' : string) :
  own (bump cats k) k'
  = if String.eqb k "__proto__" then own cats k'
    else if String.eqb k k' then Some (incremented (own cats k) k)
    else own cats k'.
Proof.
  unfold bump. destruct (String.eqb k "__proto__"); [reflexivity|].
  apply own_assign.
Qed.

Lemma fold_bump_snoc (ls : list string) (k : string)
    (cats : list (string * Tally)) :
  fold_left bump (ls ++ [k]) cats = bump (fold_left bump ls cats) k.
Proof. rewrite fold_left_app. reflexivity. Qed.

Lemma count_occ_snoc (ls : list string) (k k' : string) :
  count_occ string_dec (ls ++ [k]) k'
  = if String.eqb k k' then S (count_occ string_dec ls k')
    else count_occ string_dec ls k'.
Proof.
  rewrite count_occ_app. simpl.
  destruct (string_dec k k') as [->|Hne].
  - rewrite String.eqb_refl. lia.
  - apply String.eqb_neq in Hne. rewrite Hne. lia.
Qed.

Lemma existsb_snoc (ls : list string) (k k' : string) :
  existsb (String.eqb k') (ls ++ [k])
  = existsb (String.eqb k') ls || String.eqb k k'.
Proof.
  rewrite existsb_app. simpl. rewrite orb_false_r, (String.eqb_sym k' k).
  reflexivity.
Qed.

Lemma count_occ_absent (ls : list string) (k : string) :
  existsb (String.eqb k) ls = false -> count_occ string_dec ls k = 0%nat.
Proof.
  intros Hnot. apply count_occ_not_In. intros Hin.
  apply existsb_eqb_In in Hin. congruence.
Qed.

(** What the loop over the labels builds. *)
Lemma distribution_of_labels (ls : list string) :
  let cats := fold_left bump ls [] in
  List.NoDup (map fst cats)
  /\ (forall k, own cats k = expected ls k)
  /\ list_sum (map (fun kv => tallyCount (snd kv)) cats)
     = length (List.filter (fun k => negb (isInherited k)) ls).
Proof.
  induction ls as [|k ls IH] using rev_ind; simpl.
  - repeat split; try constructor.
  - destruct IH as (Hnd & Hown & Hsum).
    rewrite fold_bump_snoc.
    split; [apply bump_NoDup, Hnd|]. split.
    + intros k'. rewrite own_bump, !Hown. unfold expected, tallyFor.
      rewrite existsb_snoc, !count_occ_snoc.
      destruct (String.eqb_spec k "__proto__") as [->|Hproto].
      * destruct (String.eqb_spec "__proto__" k') as [<-|Hne];
          [rewrite !andb_false_r; reflexivity|].
        rewrite orb_false_r. reflexivity.
      * destruct (String.eqb_spec k k') as [<-|Hne].
        -- apply String.eqb_neq in Hproto. rewrite Hproto, orb_true_r.
           simpl. f_equal.
           destruct (existsb (String.eqb k) ls) eqn:Ein; simpl.
           ++ destruct (isInheritedFunction k); [reflexivity|].
              simpl. f_equal. lia.
           ++ destruct (isInheritedFunction k); [reflexivity|].
              rewrite count_occ_absent by exact Ein. reflexivity.
        -- rewrite orb_false_r. reflexivity.
    + rewrite List.filter_app, length_app, <- Hsum. simpl.
      set (cats := fold_left bump ls []) in *.
      unfold bump, isInherited.
      destruct (String.eqb_spec k "__proto__") as [->|Hproto]; simpl;
        [lia|].
      pose proof (assign_sum cats k (incremented (own cats k) k)) as Ha.
      unfold countFor in Ha. rewrite Hown in Ha. rewrite Hown.
      unfold expected, tallyFor, incremented in *.
      apply String.eqb_neq in Hproto. rewrite Hproto in *.
      rewrite andb_true_r in *.
      destruct (existsb (String.eqb k) ls);
        destruct (isInheritedFunction k); simpl in *; lia.
Qed.

Lemma labels_nonempty (l : list Item) (k : string) :
  In k (labels l) -> k <> "".
Proof.
  unfold labels. rewrite in_map_iff. intros (item & <- & Hin).
  apply filter_In in Hin. destruct Hin as [_ Ht].
  unfold truthy in Ht. destruct (category item) as [s|]; [|discriminate].
  simpl. intros ->. discriminate.
Qed.

Lemma expected_some (ls : list string) (k : string) :
  expected ls k <> None <-> In k ls /\ k <> "__proto__".
Proof.
  unfold expected.
  destruct (existsb (String.eqb k) ls) eqn:Ein;
    destruct (String.eqb_spec k "__proto__") as [->|Hne]; simpl;
    split; try congruence; try (intros [_ H]; congruence).
  - intros _. split; [apply existsb_eqb_In, Ein|exact Hne].
  - intros [Hin _]. apply existsb_eqb_In in Hin. congruence.
Qed.

(** The distribution [calculateStats] builds is the one of the labels. *)
Lemma categories_distribution (l : list Schedule) :
  List.NoDup (map fst (categories l))
  /\ (forall k, own (categories l) k = expected (labels (allItems l)) k)
  /\ (forall k, In k (map fst (categories l))
                <-> In k (labels (allItems l)) /\ k <> "__proto__")
  /\ list_sum (map (fun kv => tallyCount (snd kv)) (categories l))
     = length (List.filter (fun k => negb (isInherited k))
                           (labels (allItems l))).
Proof.
  pose proof (distribution_of_labels (labels (allItems l))) as Hdist.
  cbv zeta in Hdist. rewrite <- (categories_labels l) in Hdist.
  destruct Hdist as (Hnd & Hown & Hsum).
  split; [exact Hnd|]. split; [exact Hown|]. split; [|exact Hsum].
  intros k. rewrite <- expected_some, <- Hown.
  pose proof (own_none (categories l) k) as Hnone.
  destruct (own (categories l) k).
  - split; [discriminate|]. intros _.
    destruct (in_dec string_dec k (map fst (categories l))) as [Hin|Hnot];
      [exact Hin|].
    apply Hnone in Hnot. discriminate.
  - split; [|congruence]. intros Hin. exfalso.
    apply (proj1 Hnone); [reflexivity|exact Hin].
Qed.

Lemma keyLabels_In (ls : list string) (k : string) :
  In k (keyLabels ls) <-> In k ls /\ k <> "__proto__".
Proof.
  unfold keyLabels. rewrite filter_In.
  destruct (String.eqb_spec k "__proto__"); simpl; intuition congruence.
Qed.

Lemma filter_all {A} (p : A -> bool) (l : list A) :
  Forall (fun x => p x = true) l -> List.filter p l = l.
Proof.
  induction 1 as [|x l Hx _ IH]; simpl; [reflexivity|].
  rewrite Hx, IH. reflexivity.
Qed.

Lemma notInherited_keyLabels (ls : list string) :
  Forall (fun k => isInherited k = false) ls -> keyLabels ls = ls.
Proof.
  intros Hno. apply filter_all.
  eapply List.Forall_impl; [|exact Hno]. simpl. intros k Hk.
  unfold isInherited in Hk. apply orb_false_elim in Hk.
  destruct Hk as [-> _]. reflexivity.
Qed.

(** X21. The category distribution holds one entry per distinct label of
    the items that have a category, except that the label [__proto__] gets
    none. The entry of a label holds the number of items that carry it,
    unless the label names a function every object inherits, in which case
    it holds a string. [categoryCount] is the number of entries, and no
    label is the empty string. When no label names an inherited property,
    the counts add up to the number of items that have a category. *)
Theorem categories_count_labels (l : list Schedule) :
  let ls := labels (allItems l) in
  List.NoDup (map fst (categories l))
  /\ (forall k, In k (map fst (categories l))
                <-> In k ls /\ k <> "__proto__")
  /\ (forall k, In k ls -> k <> "__proto__" ->
                own (categories l) k
                = Some (if isInheritedFunction k then Text
                        else Count (count_occ string_dec ls k)))
  /\ categoryCount l = length (nodup string_dec (keyLabels ls))
  /\ (forall k, In k (map fst (categories l)) -> k <> "")
  /\ (Forall (fun k => isInherited k = false) ls ->
      (forall k, countFor (categories l) k = count_occ string_dec ls k)
      /\ list_sum (map (fun kv => tallyCount (snd kv)) (categories l))
         = length ls
      /\ categoryCount l = length (nodup string_dec ls)).
Proof.
  intros ls. subst ls.
  destruct (categories_distribution l) as (Hnd & Hown & Hkeys & Hsum).
  assert (Hcount : categoryCount l
                   = length (nodup string_dec
                               (keyLabels (labels (allItems l))))).
  { unfold categoryCount. rewrite <- (length_map fst).
    apply Permutation.Permutation_length.
    apply Permutation.NoDup_Permutation;
      [exact Hnd|apply List.NoDup_nodup|].
    intros k. rewrite nodup_In, keyLabels_In. apply Hkeys. }
  split; [exact Hnd|]. split; [exact Hkeys|]. split; [|split; [|split]].
  - intros k Hin Hproto. rewrite Hown. unfold expected.
    apply existsb_eqb_In in Hin. apply String.eqb_neq in Hproto.
    rewrite Hin, Hproto. reflexivity.
  - exact Hcount.
  - intros k Hk. apply (labels_nonempty (allItems l)), Hkeys, Hk.
  - intros Hno. split; [|split].
    + intros k. unfold countFor. rewrite Hown. unfold expected, tallyFor.
      destruct (existsb (String.eqb k) (labels (allItems l))) eqn:Ein;
        simpl; [|symmetry; apply count_occ_absent, Ein].
      apply existsb_eqb_In in Ein.
      rewrite List.Forall_forall in Hno. specialize (Hno k Ein).
      unfold isInherited in Hno. apply orb_false_elim in Hno.
      destruct Hno as [-> ->]. reflexivity.
    + rewrite Hsum. f_equal. apply filter_all.
      eapply List.Forall_impl; [|exact Hno]. simpl. intros k ->.
      reflexivity.
    + rewrite Hcount, notInherited_keyLabels by exact Hno. reflexivity.
Qed.

(** Witness: the labels "DSA", "constructor" twice and "__proto__" give
    two entries, a count for "DSA" and a string for "constructor"; the sort
    leaves "DSA" first. *)
Lemma categories_count_labels_witness :
  let inherited := fun k => Scenario.labelled k in
  let l := [withItems Sample.bare
              [inherited "DSA"; inherited "constructor";
               inherited "constructor"; inherited "__proto__"]] in
  categories l = [("DSA", Count 1); ("constructor", Text)]
  /\ categoryCount l = 2%nat
  /\ topCategory l = "DSA".
Proof.
  intros inherited l.
  destruct (categories_count_labels l) as (_ & _ & Hown & Hcount & _).
  split; [vm_compute; reflexivity|]. split.
  - rewrite Hcount. vm_compute; reflexivity.
  - vm_compute; reflexivity.
Defined.

Lemma insertSorted_In {A} (before : A -> A -> bool) (x z : A)
    (l : list A) :
  In z (insertSorted before x l) <-> z = x \/ In z l.
Proof.
  induction l as [|y l IH]; simpl.
  - split; [intros [<- | []]; auto|intros [-> | []]; auto].
  - destruct (before y x); simpl; [rewrite IH|]; intuition congruence.
Qed.

Lemma stableSort_In {A} (before : A -> A -> bool) (z : A) (l : list A) :
  In z (stableSort before l) <-> In z l.
Proof.
  unfold stableSort. induction l as [|x l IH]; simpl; [reflexivity|].
  rewrite insertSorted_In, IH. intuition congruence.
Qed.

Lemma insertSorted_ext {A} (before before' : A -> A -> bool) (x : A)
    (l : list A) :
  (forall y, In y l -> before y x = before' y x) ->
  insertSorted before x l = insertSorted before' x l.
Proof.
  induction l as [|y l IH]; intros Hext; simpl; [reflexivity|].
  rewrite <- (Hext y) by (left; reflexivity).
  destruct (before y x); [|reflexivity].
  rewrite IH; [reflexivity|]. intros z Hz. apply Hext. right; exact Hz.
Qed.

Lemma stableSort_ext {A} (before before' : A -> A -> bool) (l : list A) :
  (forall a b, In a l -> In b l -> before a b = before' a b) ->
  stableSort before l = stableSort before' l.
Proof.
  unfold stableSort. induction l as [|x l IH]; intros Hext; simpl;
    [reflexivity|].
  rewrite IH by (intros a b Ha Hb; apply Hext; right; assumption).
  apply insertSorted_ext. intros y Hy.
  fold (stableSort before' l) in Hy. apply stableSort_In in Hy.
  apply Hext; [right; exact Hy|left; reflexivity].
Qed.

Lemma entries_In {V} (cats : list (string * V)) (z : string * V) :
  In z (entries cats) <-> In z cats.
Proof.
  unfold entries. rewrite in_app_iff, stableSort_In, !filter_In.
  destruct (isIndexKey z); simpl; intuition congruence.
Qed.

(** The head of a list sorted by decreasing measure is the first element
    that has the greatest measure. *)
Lemma sorted_head_first_maximal {A} (m : A -> nat) (l : list A) :
  l <> [] ->
  exists before top after,
    l = before ++ top :: after
    /\ hd_error (stableSort (fun a b => (m b <? m a)%nat) l) = Some top
    /\ Forall (fun x => m x < m top)%nat before
    /\ Forall (fun x => m x <= m top)%nat after.
Proof.
  induction l as [|x l IH]; [congruence|]. intros _.
  destruct l as [|y l].
  - exists [], x, []. repeat split; constructor.
  - destruct IH as (before & top & after & Hl & Hhd & Hb & Ha);
      [discriminate|].
    unfold stableSort in *. simpl fold_right in *.
    set (sorted := insertSorted _ y (fold_right _ [] l)) in *.
    destruct sorted as [|h rest] eqn:Es; [discriminate|].
    simpl in Hhd. injection Hhd as ->.
    simpl. destruct (m x <? m top)%nat eqn:Ex.
    + apply Nat.ltb_lt in Ex.
      exists (x :: before), top, after. rewrite Hl.
      repeat split; try assumption. constructor; assumption.
    + apply Nat.ltb_ge in Ex.
      exists [], x, (y :: l). repeat split; [constructor|].
      rewrite Hl. apply Forall_app. split.
      * eapply List.Forall_impl; [|exact Hb]. simpl. intros; lia.
      * constructor; [exact Ex|].
        eapply List.Forall_impl; [|exact Ha]. simpl. intros; lia.
Qed.

Lemma own_In {V} (cats : list (string * V)) (k : string) (v : V) :
  List.NoDup (map fst cats) -> In (k, v) cats -> own cats k = Some v.
Proof.
  unfold own.
  induction cats as [|[k' v'] cats IH]; simpl; [intros _ []|].
  intros Hnd Hin. inversion Hnd as [|? ? Hnotin Hnd']; subst.
  destruct Hin as [[= -> ->] | Hin].
  - rewrite String.eqb_refl. reflexivity.
  - destruct (String.eqb_spec k' k) as [->|_].
    + exfalso. apply Hnotin. apply (in_map fst) in Hin. exact Hin.
    + apply IH; assumption.
Qed.

(** X22. When some item has a category and no label names a property that
    every object inherits, [topCategory] is, in the order of
    [Object.entries], the first label that has the greatest count: every
    label before it has a smaller count and no label has a greater one. *)
Theorem topCategory_first_maximal (l : list Schedule) :
  labels (allItems l) <> [] ->
  Forall (fun k => isInherited k = false) (labels (allItems l)) ->
  exists before n after,
    entries (categories l) = before ++ (topCategory l, Count n) :: after
    /\ Forall (fun kv => tallyCount (snd kv) < n)%nat before
    /\ Forall (fun kv => tallyCount (snd kv) <= n)%nat after
    /\ n = count_occ string_dec (labels (allItems l)) (topCategory l)
    /\ (forall k,
          (count_occ string_dec (labels (allItems l)) k <= n)%nat)
    /\ In (topCategory l) (labels (allItems l)).
Proof.
  intros Hsome Hno.
  destruct (categories_distribution l) as (Hnd & Hown & Hkeys & _).
  assert (Hne : forall k, In k (map fst (categories l)) -> k <> "")
    by (intros k Hk; apply (labels_nonempty (allItems l)), Hkeys, Hk).
  assert (Hvalue : forall k t,
             In (k, t) (categories l) ->
             t = Count (count_occ string_dec (labels (allItems l)) k)).
  { intros k t Hin.
    assert (Hk : In k (labels (allItems l)))
      by (apply Hkeys; apply (in_map fst) in Hin; exact Hin).
    pose proof (own_In _ _ _ Hnd Hin) as Hval.
    rewrite Hown in Hval. unfold expected, tallyFor in Hval.
    rewrite List.Forall_forall in Hno. specialize (Hno k Hk).
    unfold isInherited in Hno. apply orb_false_elim in Hno.
    destruct Hno as [Hp Hf]. rewrite Hp, Hf in Hval.
    apply existsb_eqb_In in Hk. rewrite Hk in Hval. simpl in Hval.
    congruence. }
  assert (Hcats : entries (categories l) <> []).
  { destruct (labels (allItems l)) as [|k ls] eqn:El; [congruence|].
    assert (Hk : In k (map fst (categories l))).
    { apply Hkeys. split; [left; reflexivity|].
      inversion Hno as [|? ? Hk _]; subst. intros ->. discriminate. }
    apply in_map_iff in Hk. destruct Hk as (kv & _ & Hin).
    apply entries_In in Hin. intros E. rewrite E in Hin. destruct Hin. }
  assert (Hsort : stableSort greater (entries (categories l))
                  = stableSort
                      (fun a b =>
                         (tallyCount (snd b) <? tallyCount (snd a))%nat)
                      (entries (categories l))).
  { apply stableSort_ext. intros [ka ta] [kb tb] Ha Hb.
    apply (proj1 (entries_In _ _)) in Ha.
    apply (proj1 (entries_In _ _)) in Hb.
    rewrite (Hvalue _ _ Ha), (Hvalue _ _ Hb). reflexivity. }
  destruct (sorted_head_first_maximal (fun kv => tallyCount (snd kv)) _ Hcats)
    as (before & [k t] & after & He & Hhd & Hb & Ha).
  assert (Hin : In (k, t) (categories l)).
  { apply entries_In. rewrite He. apply in_elt. }
  pose proof (Hvalue _ _ Hin) as Ht. cbv beta in Hhd, Hb, Ha.
  assert (Hk : k <> "").
  { apply Hne. apply (in_map fst) in Hin. exact Hin. }
  assert (Htop : topCategory l = k).
  { assert (Hhead : forall sorted : list (string * Tally),
               hd_error sorted = Some (k, t) ->
               match sorted with
               | [] => ""
               | (k0, _) :: _ => if truthy (Some k0) then k0 else ""
               end = k).
    { intros [|[k0 t0] rest]; simpl; [discriminate|]. intros [= -> ->].
      destruct (String.eqb_spec k "") as [->|_]; [contradiction|].
      reflexivity. }
    unfold topCategory. rewrite Hsort. apply Hhead. exact Hhd. }
  rewrite Htop.
  exists before, (count_occ string_dec (labels (allItems l)) k), after.
  rewrite Ht in He, Hb, Ha. simpl in Hb, Ha.
  split; [exact He|]. split; [exact Hb|]. split; [exact Ha|].
  split; [reflexivity|]. split.
  - intros k'.
    destruct (in_dec string_dec k' (labels (allItems l))) as [Hk'|Hk'];
      [|rewrite (count_occ_not_In string_dec) in Hk'; rewrite Hk'; lia].
    assert (Hkey : In k' (map fst (categories l))).
    { apply Hkeys. split; [exact Hk'|].
      rewrite List.Forall_forall in Hno. specialize (Hno k' Hk').
      intros ->. discriminate. }
    apply in_map_iff in Hkey. destruct Hkey as ([k0 t0] & Ek & Hin0).
    simpl in Ek. subst k0.
    pose proof (Hvalue _ _ Hin0) as Ht0.
    apply (proj2 (entries_In _ _)) in Hin0. rewrite He in Hin0.
    apply in_app_or in Hin0. destruct Hin0 as [Hin0 | [Heq | Hin0]].
    + rewrite List.Forall_forall in Hb. specialize (Hb _ Hin0).
      simpl in Hb. rewrite Ht0 in Hb. simpl in Hb. lia.
    + injection Heq as <- _. lia.
    + rewrite List.Forall_forall in Ha. specialize (Ha _ Hin0).
      simpl in Ha. rewrite Ht0 in Ha. simpl in Ha. lia.
  - apply Hkeys. apply (in_map fst) in Hin. exact Hin.
Qed.


(** ** More on the skill form *)

Lemma formAfter_other (formData : gmap string FormValue)
    (field value other : string) :
  other <> field -> other <> "progress" ->
  formAfter formData field value !! other = formData !! other.
Proof.
  intros Hother Hprogress. unfold formAfter, handleChange, applyUpdates.
  destruct (String.eqb field "progress");
    destruct (String.eqb field "status" && String.eqb value "completed");
    simpl; rewrite ?lookup_insert_ne by congruence; reflexivity.
Qed.

(** X23. A change event writes the field it names and no other, except that
    choosing the status "completed" also sets the progress. *)
Theorem handleChange_touches_one_field (formData : gmap string FormValue)
    (field value : string) :
  (field <> "progress" ->
   formAfter formData field value !! field = Some (FStr value))
  /\ (forall other,
        other <> field -> other <> "progress" ->
        formAfter formData field value !! other = formData !! other)
  /\ (field <> "progress" ->
      field <> "status" \/ value <> "completed" ->
      formAfter formData field value !! "progress"
      = formData !! "progress").
Proof.
  unfold formAfter, handleChange, applyUpdates.
  split; [|split].
  - intros Hfield. pose proof Hfield as Hb.
    apply String.eqb_neq in Hb. rewrite Hb.
    destruct (String.eqb field "status" && String.eqb value "completed");
      simpl.
    + rewrite lookup_insert_ne by congruence. apply lookup_insert_eq.
    + apply lookup_insert_eq.
  - intros other Hother Hprogress.
    destruct (String.eqb field "progress");
      destruct (String.eqb field "status" && String.eqb value "completed");
      simpl; rewrite ?lookup_insert_ne by congruence; reflexivity.
  - intros Hfield Hnot. pose proof Hfield as Hf.
    apply String.eqb_neq in Hf. rewrite Hf.
    assert (Hb : String.eqb field "status" && String.eqb value "completed"
                 = false).
    { destruct Hnot as [H|H]; apply String.eqb_neq in H; rewrite H;
        [reflexivity|apply andb_false_r]. }
    rewrite Hb. simpl. apply lookup_insert_ne. congruence.
Qed.

(** Witness: typing a name leaves the status and the progress alone. *)
Lemma handleChange_touches_one_field_witness :
  formAfter (initialFormData "DSA") "name" "Rocq" !! "name"
  = Some (FStr "Rocq")
  /\ formAfter (initialFormData "DSA") "name" "Rocq" !! "status"
     = Some (FStr "upcoming")
  /\ formAfter (initialFormData "DSA") "name" "Rocq" !! "progress"
     = Some (FNum 0).
Proof.
  destruct (handleChange_touches_one_field (initialFormData "DSA")
              "name" "Rocq") as (Hset & Hother & Hprogress).
  split; [apply Hset; discriminate|]. split.
  - rewrite Hother by discriminate. vm_compute. reflexivity.
  - rewrite Hprogress; [vm_compute; reflexivity|discriminate|].
    left; discriminate.
Defined.

Lemma sliderValues_stored :
  forallb (fun n => (clampProgress (sliderValue n) =? Z.of_nat n)%Z)
          (seq 0 101) = true.
Proof. vm_compute. reflexivity. Qed.

(** X24. Every position of the range input, 0 to 100, is stored as it is. *)
Theorem handleChange_slider_positions (formData : gmap string FormValue)
    (n : nat) :
  (n <= 100)%nat ->
  formAfter formData "progress" (sliderValue n) !! "progress"
  = Some (FNum (Z.of_nat n)).
Proof.
  intros Hn. rewrite formAfter_progress. do 2 f_equal.
  pose proof sliderValues_stored as Hall.
  rewrite forallb_forall in Hall.
  apply Z.eqb_eq, Hall, in_seq. lia.
Qed.

Lemma handleChange_slider_positions_witness :
  formAfter (initialFormData "DSA") "progress" "73" !! "progress"
  = Some (FNum 73).
Proof.
  apply (handleChange_slider_positions (initialFormData "DSA") 73). lia.
Defined.

Lemma formAfter_progressInRange (formData : gmap string FormValue)
    (field value : string) :
  progressInRange formData ->
  progressInRange (formAfter formData field value).
Proof.
  intros (p & Hp & Hrange). unfold progressInRange.
  destruct (String.eqb_spec field "progress") as [->|Hfield].
  - exists (clampProgress value).
    split; [apply formAfter_progress|apply clampProgress_range].
  - destruct (String.eqb field "status" && String.eqb value "completed")
      eqn:Hb.
    + exists 100%Z. split; [|lia].
      unfold formAfter, handleChange, applyUpdates. rewrite Hb.
      apply String.eqb_neq in Hfield. rewrite Hfield. simpl.
      apply lookup_insert_eq.
    + exists p. split; [|exact Hrange]. rewrite <- Hp.
      unfold formAfter, handleChange, applyUpdates. rewrite Hb.
      pose proof Hfield as Hf.
      apply String.eqb_neq in Hfield. rewrite Hfield. simpl.
      apply lookup_insert_ne. congruence.
Qed.

Lemma formAfter_nameIsString (formData : gmap string FormValue)
    (field value : string) :
  nameIsString formData -> nameIsString (formAfter formData field value).
Proof.
  intros (s & Hs). unfold nameIsString.
  unfold formAfter, handleChange, applyUpdates.
  destruct (String.eqb_spec field "progress") as [->|Hfield]; simpl.
  - exists s. rewrite lookup_insert_ne by discriminate. exact Hs.
  - destruct (String.eqb field "status" && String.eqb value "completed");
      simpl; rewrite ?(lookup_insert_ne _ "progress" "name")
        by discriminate;
      (destruct (String.eqb_spec field "name") as [->|Hname];
       [exists value; apply lookup_insert_eq
       |exists s; rewrite lookup_insert_ne by congruence; exact Hs]).
Qed.

Lemma skillsInRange_snoc (calls : list Modal.Call) (c : Modal.Call) :
  skillsInRange calls ->
  match c with
  | Modal.AddSkill skill => progressInRange skill
  | _ => True
  end ->
  skillsInRange (calls ++ [c]).
Proof.
  intros Hcalls Hc. unfold skillsInRange. apply Forall_app.
  split; [exact Hcalls|]. constructor; [exact Hc|constructor].
Qed.

Lemma step_keeps_form_sound (e : Modal.Event) (w : Modal.World) :
  progressInRange (Modal.formData (Modal.state w))
  /\ nameIsString (Modal.formData (Modal.state w))
  /\ skillsInRange (Modal.calls w) ->
  progressInRange (Modal.formData (Modal.state (Modal.step e w)))
  /\ nameIsString (Modal.formData (Modal.state (Modal.step e w)))
  /\ skillsInRange (Modal.calls (Modal.step e w)).
Proof.
  intros (Hp & Hn & Hc).
  destruct e as [field value|value| | |]; simpl.
  - split; [apply formAfter_progressInRange, Hp|].
    split; [apply formAfter_nameIsString, Hn|exact Hc].
  - repeat split; assumption.
  - repeat split; assumption.
  - unfold Modal.handleAddCategory.
    destruct (negb (truthy _)); simpl; [repeat split; assumption|].
    destruct (Modal.services w _ _); simpl.
    + split; [|split].
      * destruct Hp as (p & Hp & Hr). exists p.
        split; [|exact Hr]. rewrite lookup_insert_ne by discriminate.
        exact Hp.
      * destruct Hn as (s & Hs). exists s.
        rewrite lookup_insert_ne by discriminate. exact Hs.
      * apply skillsInRange_snoc; [exact Hc|exact I].
    + split; [exact Hp|]. split; [exact Hn|].
      apply skillsInRange_snoc; [exact Hc|exact I].
  - unfold Modal.handleSubmit.
    assert (Hpd : skillsInRange (Modal.calls w ++ [Modal.PreventDefault]))
      by (apply skillsInRange_snoc; [exact Hc|exact I]).
    destruct (Modal.isSubmitting (Modal.state w)); simpl;
      [repeat split; assumption|].
    destruct Hn as (s & Hs). rewrite Hs.
    destruct (String.eqb (trim s) ""); simpl;
      [repeat split; eauto; exists s; exact Hs|].
    destruct (formTruthy _); simpl;
      [|repeat split; eauto; exists s; exact Hs].
    assert (Hsk : skillsInRange
                    ((Modal.calls w ++ [Modal.PreventDefault])
                     ++ [Modal.AddSkill (Modal.formData (Modal.state w))]))
      by (apply skillsInRange_snoc; [exact Hpd|exact Hp]).
    destruct (Modal.services w _ _); simpl.
    + split; [exact Hp|]. split; [exists s; exact Hs|].
      apply skillsInRange_snoc; [exact Hsk|exact I].
    + split; [exact Hp|]. split; [exists s; exact Hs|exact Hsk].
Qed.

(** X25. Whatever the user does with the form, in any order, the progress it
    holds is a number from 0 to 100 and so is the progress of every skill
    handed to [addSkill]; the name it holds is a string, so that
    [handleSubmit] never throws. *)
Theorem form_progress_always_in_range (categories : list CategoryProp)
    (services : Modal.Services) (events : list Modal.Event) :
  let w := Modal.run events (Modal.mounted categories services) in
  progressInRange (Modal.formData (Modal.state w))
  /\ skillsInRange (Modal.calls w)
  /\ fst (Modal.handleSubmit (Modal.state w) w) = Returned tt.
Proof.
  intros w.
  assert (Hinv : progressInRange (Modal.formData (Modal.state w))
                 /\ nameIsString (Modal.formData (Modal.state w))
                 /\ skillsInRange (Modal.calls w)).
  { subst w. unfold Modal.run.
    induction events as [|e events IH] using rev_ind; simpl.
    - split; [exists 0%Z; split; [reflexivity|lia]|].
      split; [exists ""; reflexivity|constructor].
    - rewrite fold_left_app. simpl. apply step_keeps_form_sound, IH. }
  destruct Hinv as (Hp & (s & Hs) & Hc).
  split; [exact Hp|]. split; [exact Hc|].
  unfold Modal.handleSubmit.
  destruct (Modal.isSubmitting (Modal.state w)); [reflexivity|].
  rewrite Hs.
  destruct (negb (truthy _)); [reflexivity|].
  destruct (negb (formTruthy _)); reflexivity.
Qed.


(** ** More on the skill form: submission and inline categories *)

(** X26. [handleSubmit] always prevents the default action and then stops
    early, calling neither [addSkill] nor [onClose], when a submission is
    in flight (nothing else changes), when the trimmed name is empty, or
    when there is no category (the error says which). *)
Theorem handleSubmit_guards (r : Modal.t) (w : Modal.World) :
  (Modal.isSubmitting r = true ->
   Modal.handleSubmit r w
   = (Returned tt, Modal.logCall Modal.PreventDefault w))
  /\ (forall s,
        Modal.isSubmitting r = false ->
        Modal.formData r !! "name" = Some (FStr s) ->
        trim s = "" ->
        Modal.handleSubmit r w
        = (Returned tt,
           Modal.setError "Skill name is required"
             (Modal.logCall Modal.PreventDefault w)))
  /\ (forall s,
        Modal.isSubmitting r = false ->
        Modal.formData r !! "name" = Some (FStr s) ->
        trim s <> "" ->
        formTruthy (Modal.formData r !! "category") = false ->
        Modal.handleSubmit r w
        = (Returned tt,
           Modal.setError "Category is required"
             (Modal.logCall Modal.PreventDefault w))).
Proof.
  unfold Modal.handleSubmit. split; [|split].
  - intros ->. reflexivity.
  - intros s -> -> ->. reflexivity.
  - intros s -> -> Hname ->. simpl.
    apply String.eqb_neq in Hname. rewrite Hname. reflexivity.
Qed.

(** Witness: a submission in flight; a blank name; no category. *)
Lemma handleSubmit_guards_witness :
  let idle := Modal.mounted [] (fun _ _ => Modal.Fulfilled) in
  let blank := Modal.step (Modal.Change "name" "   ") idle in
  let named := Modal.step (Modal.Change "name" " Rocq ") idle in
  Modal.calls (snd (Modal.handleSubmit
                      (Modal.state (Modal.setIsSubmitting true idle)) idle))
  = [Modal.PreventDefault]
  /\ Modal.error (Modal.state
                    (snd (Modal.handleSubmit (Modal.state blank) blank)))
     = "Skill name is required"
  /\ Modal.error (Modal.state
                    (snd (Modal.handleSubmit (Modal.state named) named)))
     = "Category is required".
Proof.
  intros idle blank named. split; [|split].
  - destruct (handleSubmit_guards
                (Modal.state (Modal.setIsSubmitting true idle)) idle)
      as (Hbusy & _).
    rewrite Hbusy; reflexivity.
  - destruct (handleSubmit_guards (Modal.state blank) blank)
      as (_ & Hblank & _).
    rewrite (Hblank "   "); vm_compute; reflexivity.
  - destruct (handleSubmit_guards (Modal.state named) named)
      as (_ & _ & Hcategory).
    rewrite (Hcategory " Rocq "); vm_compute;
      first [reflexivity|discriminate].
Defined.

(** X27. A form that passes the checks is handed to [addSkill] once, as the
    render holds it. When [addSkill] succeeds the modal is closed and no
    error is shown; when it fails the modal stays open with the message of
    the failure, or a default one. Either way the form is kept as it was
    and [isSubmitting] is false at the end. *)
Theorem handleSubmit_submits (r : Modal.t) (w : Modal.World) (s : string) :
  Modal.isSubmitting r = false ->
  Modal.formData r !! "name" = Some (FStr s) ->
  trim s <> "" ->
  formTruthy (Modal.formData r !! "category") = true ->
  let skill := Modal.formData r in
  let w' := snd (Modal.handleSubmit r w) in
  fst (Modal.handleSubmit r w) = Returned tt
  /\ Modal.isSubmitting (Modal.state w') = false
  /\ Modal.formData (Modal.state w') = Modal.formData (Modal.state w)
  /\ match Modal.services w (Modal.calls w ++ [Modal.PreventDefault])
                          (Modal.AddSkill skill) with
     | Modal.Fulfilled =>
         Modal.calls w'
         = Modal.calls w
           ++ [Modal.PreventDefault; Modal.AddSkill skill; Modal.OnClose]
         /\ Modal.error (Modal.state w') = ""
     | Modal.Failed message =>
         Modal.calls w'
         = Modal.calls w ++ [Modal.PreventDefault; Modal.AddSkill skill]
         /\ Modal.error (Modal.state w')
            = orElse message "Failed to add skill"
     end.
Proof.
  intros Hidle Hname Htrim Hcategory skill w'. subst skill w'.
  unfold Modal.handleSubmit. rewrite Hidle, Hname, Hcategory. simpl.
  apply String.eqb_neq in Htrim. rewrite Htrim. simpl.
  destruct (Modal.services w _ _); simpl; repeat split;
    rewrite <- ?app_assoc; reflexivity.
Qed.

Lemma handleSubmit_submits_witness :
  let refused : Modal.Services := fun _ _ => Modal.Failed None in
  let w := Modal.run [Modal.Change "name" " Rocq "]
                     (Modal.mounted [Label "DSA"] refused) in
  Modal.error (Modal.state (snd (Modal.handleSubmit (Modal.state w) w)))
  = "Failed to add skill"
  /\ Modal.isSubmitting
       (Modal.state (snd (Modal.handleSubmit (Modal.state w) w)))
     = false.
Proof.
  intros refused w.
  destruct (handleSubmit_submits (Modal.state w) w " Rocq ")
    as (_ & Hidle & _ & Hcalls).
  - vm_compute; reflexivity.
  - vm_compute; reflexivity.
  - vm_compute; discriminate.
  - vm_compute; reflexivity.
  - split; [|exact Hidle].
    change (Modal.services w (Modal.calls w ++ [Modal.PreventDefault])
              (Modal.AddSkill (Modal.formData (Modal.state w))))
      with (Modal.Failed None) in Hcalls.
    destruct Hcalls as [_ Herror]. rewrite Herror. reflexivity.
Defined.

Lemma handleSubmit_hands_form (r : Modal.t) (w : Modal.World)
    (s : string) :
  Modal.isSubmitting r = false ->
  Modal.formData r !! "name" = Some (FStr s) ->
  trim s <> "" ->
  formTruthy (Modal.formData r !! "category") = true ->
  In (Modal.AddSkill (Modal.formData r))
     (Modal.calls (snd (Modal.handleSubmit r w))).
Proof.
  intros Hidle Hname Htrim Hcategory.
  unfold Modal.handleSubmit. rewrite Hidle, Hname, Hcategory. simpl.
  apply String.eqb_neq in Htrim. rewrite Htrim. simpl.
  destruct (Modal.services w _ _); simpl; rewrite !in_app_iff; simpl; auto.
Qed.

Lemma skipWhiteSpace_split (s : string) :
  exists a,
    s = String.append a (skipWhiteSpace s) /\ allWhiteSpace a = true.
Proof.
  induction s as [|c s (a & Hs & Ha)]; simpl.
  - exists "". split; reflexivity.
  - destruct (isWhiteSpace c) eqn:Ec.
    + exists (String c a). simpl. rewrite Ec, Ha.
      split; [|reflexivity].
      change (String c s = String c (String.append a (skipWhiteSpace s))).
      f_equal. exact Hs.
    + exists "". split; reflexivity.
Qed.

Lemma skipWhiteSpace_head (s : string) (c : ascii) (rest : string) :
  skipWhiteSpace s = String c rest -> isWhiteSpace c = false.
Proof.
  induction s as [|d s IH]; simpl; [discriminate|].
  destruct (isWhiteSpace d) eqn:Ec; [exact IH|].
  intros [= <- _]. exact Ec.
Qed.

Lemma trimEnd_split (s : string) :
  exists b, s = String.append (trimEnd s) b /\ allWhiteSpace b = true.
Proof.
  induction s as [|c s (b & Hs & Hb)]; simpl.
  - exists "". split; reflexivity.
  - destruct (trimEnd s) as [|d kept] eqn:Et.
    + destruct (isWhiteSpace c) eqn:Ec.
      * exists (String c b). simpl. rewrite Ec, Hb.
        split; [|reflexivity].
        change (String c s = String c b). f_equal. exact Hs.
      * exists b. split; [|exact Hb].
        change (String c s = String c (String.append "" b)).
        f_equal. exact Hs.
    + exists b. split; [|exact Hb].
      change (String c s = String c (String.append (String d kept) b)).
      f_equal. exact Hs.
Qed.

Lemma trimEnd_head (s : string) (c : ascii) (rest : string) :
  trimEnd s = String c rest -> exists tail, s = String c tail.
Proof.
  destruct s as [|d s]; simpl; [discriminate|].
  destruct (trimEnd s); [destruct (isWhiteSpace d)|];
    try discriminate; intros [= <- _]; eexists; reflexivity.
Qed.

Lemma trimEnd_last (s : string) (c : ascii) :
  lastChar (trimEnd s) = Some c -> isWhiteSpace c = false.
Proof.
  induction s as [|d s IH]; simpl; [discriminate|].
  destruct (trimEnd s) as [|e kept] eqn:Et.
  - destruct (isWhiteSpace d) eqn:Ec; simpl; [discriminate|].
    intros [= <-]. exact Ec.
  - simpl. exact IH.
Qed.

(** What [trim] returns: the text without the white space around it. *)
Lemma trim_spec (s : string) :
  (exists a b,
     s = String.append a (String.append (trim s) b)
     /\ allWhiteSpace a = true /\ allWhiteSpace b = true)
  /\ (forall c rest, trim s = String c rest -> isWhiteSpace c = false)
  /\ (forall c, lastChar (trim s) = Some c -> isWhiteSpace c = false).
Proof.
  unfold trim. split; [|split].
  - destruct (skipWhiteSpace_split s) as (a & Hs & Ha).
    destruct (trimEnd_split (skipWhiteSpace s)) as (b & Ht & Hb).
    exists a, b. rewrite <- Ht, <- Hs. repeat split; assumption.
  - intros c rest Ht. apply trimEnd_head in Ht. destruct Ht as [tail Ht].
    apply (skipWhiteSpace_head _ _ _ Ht).
  - intros c. apply trimEnd_last.
Qed.

(** X28. [handleAddCategory] refuses a name that is blank once trimmed,
    without calling [addCategory]. Otherwise it calls [addCategory] once,
    with the name stripped of the white space around it. On success the
    stripped name becomes the category of the form, whose other fields are
    kept, the input is cleared and closed, and the error shown before is
    left as it was; on failure only the error changes. *)
Theorem handleAddCategory_outcome (r : Modal.t) (w : Modal.World) :
  let label := trim (Modal.newCategory r) in
  let after := Modal.handleAddCategory r w in
  (label = "" -> after = Modal.setError "Category name is required" w)
  /\ (label <> "" ->
      Modal.calls after = Modal.calls w ++ [Modal.AddCategory label]
      /\ (exists a b,
            Modal.newCategory r
            = String.append a (String.append label b)
            /\ allWhiteSpace a = true /\ allWhiteSpace b = true)
      /\ (forall c rest, label = String c rest -> isWhiteSpace c = false)
      /\ (forall c, lastChar label = Some c -> isWhiteSpace c = false)
      /\ Modal.isSubmitting (Modal.state after)
         = Modal.isSubmitting (Modal.state w)
      /\ match Modal.services w (Modal.calls w) (Modal.AddCategory label)
         with
         | Modal.Fulfilled =>
             Modal.formData (Modal.state after)
             = <["category" := FStr label]> (Modal.formData (Modal.state w))
             /\ (forall field, field <> "category" ->
                   Modal.formData (Modal.state after) !! field
                   = Modal.formData (Modal.state w) !! field)
             /\ Modal.newCategory (Modal.state after) = ""
             /\ Modal.showNewCategory (Modal.state after) = false
             /\ Modal.error (Modal.state after)
                = Modal.error (Modal.state w)
         | Modal.Failed message =>
             Modal.formData (Modal.state after)
             = Modal.formData (Modal.state w)
             /\ Modal.newCategory (Modal.state after)
                = Modal.newCategory (Modal.state w)
             /\ Modal.showNewCategory (Modal.state after)
                = Modal.showNewCategory (Modal.state w)
             /\ Modal.error (Modal.state after)
                = orElse message "Failed to add category"
         end).
Proof.
  intros label after. subst label after. unfold Modal.handleAddCategory.
  split.
  - intros ->. reflexivity.
  - intros Hlabel. pose proof Hlabel as Hb.
    apply String.eqb_neq in Hb. simpl. rewrite Hb. simpl.
    destruct (trim_spec (Modal.newCategory r)) as (Hsplit & Hhead & Hlast).
    destruct (Modal.services w _ _); simpl; repeat split;
      try assumption; try reflexivity.
    intros field Hfield. apply lookup_insert_ne. congruence.
Qed.

Lemma handleAddCategory_outcome_witness :
  let stores : Modal.Services := fun _ _ => Modal.Fulfilled in
  let w := Modal.run [Modal.OpenNewCategory; Modal.TypeCategory "  Proofs "]
                     (Modal.mounted [] stores) in
  Modal.calls (Modal.handleAddCategory (Modal.state w) w)
  = [Modal.AddCategory "Proofs"]
  /\ Modal.formData (Modal.state (Modal.handleAddCategory (Modal.state w) w))
     !! "category" = Some (FStr "Proofs").
Proof.
  intros stores w.
  destruct (handleAddCategory_outcome (Modal.state w) w) as (_ & Hsome).
  destruct Hsome as (Hcalls & _ & _ & _ & _ & Hdone).
  - vm_compute; discriminate.
  - split; [rewrite Hcalls; vm_compute; reflexivity|].
    change (Modal.services w (Modal.calls w)
              (Modal.AddCategory (trim (Modal.newCategory (Modal.state w)))))
      with Modal.Fulfilled in Hdone.
    destruct Hdone as (Hform & _). rewrite Hform.
    rewrite lookup_insert_eq. vm_compute; reflexivity.
Defined.


(** X29. Choosing the status "completed" and submitting hands [addSkill] a
    skill whose progress is 100; but the progress can be moved afterwards,
    and the skill is then submitted as completed with that progress. *)
Theorem completed_skill_submitted (w : Modal.World) (s value : string) :
  Modal.isSubmitting (Modal.state w) = false ->
  Modal.formData (Modal.state w) !! "name" = Some (FStr s) ->
  trim s <> "" ->
  formTruthy (Modal.formData (Modal.state w) !! "category") = true ->
  (exists skill,
     In (Modal.AddSkill skill)
        (Modal.calls (Modal.run [Modal.Change "status" "completed";
                                 Modal.Submit] w))
     /\ skill !! "status" = Some (FStr "completed")
     /\ skill !! "progress" = Some (FNum 100))
  /\ (exists skill,
        In (Modal.AddSkill skill)
           (Modal.calls (Modal.run [Modal.Change "status" "completed";
                                    Modal.Change "progress" value;
                                    Modal.Submit] w))
        /\ skill !! "status" = Some (FStr "completed")
        /\ skill !! "progress" = Some (FNum (clampProgress value))).
Proof.
  intros Hidle Hname Htrim Hcategory.
  set (completed :=
         formAfter (Modal.formData (Modal.state w)) "status" "completed").
  assert (Hstatus : completed !! "status" = Some (FStr "completed")).
  { unfold completed, formAfter, handleChange, applyUpdates. simpl.
    rewrite lookup_insert_ne by discriminate. apply lookup_insert_eq. }
  assert (Hprogress : completed !! "progress" = Some (FNum 100)).
  { unfold completed, formAfter, handleChange, applyUpdates. simpl.
    apply lookup_insert_eq. }
  assert (Hkeep : forall field, field <> "status" -> field <> "progress" ->
                    completed !! field
                    = Modal.formData (Modal.state w) !! field).
  { intros field H1 H2.
    unfold completed, formAfter, handleChange, applyUpdates. simpl.
    rewrite !lookup_insert_ne by congruence. reflexivity. }
  set (moved := formAfter completed "progress" value).
  assert (Hmoved : forall field, field <> "progress" ->
                     moved !! field = completed !! field).
  { intros field H1.
    unfold moved, formAfter, handleChange, applyUpdates. simpl.
    rewrite lookup_insert_ne by congruence. reflexivity. }
  split.
  - exists completed. split; [|split; assumption].
    set (w1 := Modal.step (Modal.Change "status" "completed") w).
    change (Modal.run [Modal.Change "status" "completed"; Modal.Submit] w)
      with (snd (Modal.handleSubmit (Modal.state w1) w1)).
    assert (Hname1 : Modal.formData (Modal.state w1) !! "name"
                     = Some (FStr s)).
    { change (completed !! "name" = Some (FStr s)).
      rewrite Hkeep by discriminate. exact Hname. }
    assert (Hcat1 : formTruthy (Modal.formData (Modal.state w1)
                                !! "category") = true).
    { change (formTruthy (completed !! "category") = true).
      rewrite Hkeep by discriminate. exact Hcategory. }
    exact (handleSubmit_hands_form (Modal.state w1) w1 s Hidle Hname1
             Htrim Hcat1).
  - exists moved. split.
    + set (w2 := Modal.step (Modal.Change "progress" value)
                   (Modal.step (Modal.Change "status" "completed") w)).
      change (Modal.run [Modal.Change "status" "completed";
                         Modal.Change "progress" value; Modal.Submit] w)
        with (snd (Modal.handleSubmit (Modal.state w2) w2)).
      assert (Hname2 : Modal.formData (Modal.state w2) !! "name"
                       = Some (FStr s)).
      { change (moved !! "name" = Some (FStr s)).
        rewrite Hmoved, Hkeep by discriminate. exact Hname. }
      assert (Hcat2 : formTruthy (Modal.formData (Modal.state w2)
                                  !! "category") = true).
      { change (formTruthy (moved !! "category") = true).
        rewrite Hmoved, Hkeep by discriminate. exact Hcategory. }
      exact (handleSubmit_hands_form (Modal.state w2) w2 s Hidle Hname2
               Htrim Hcat2).
    + split; [rewrite Hmoved by discriminate; exact Hstatus|].
      apply formAfter_progress.
Qed.

Lemma completed_skill_submitted_witness :
  let w := Modal.run [Modal.Change "name" "Rocq"]
             (Modal.mounted [Label "Proofs"] (fun _ _ => Modal.Fulfilled)) in
  exists skill,
    In (Modal.AddSkill skill)
       (Modal.calls (Modal.run [Modal.Change "status" "completed";
                                Modal.Change "progress" "40";
                                Modal.Submit] w))
    /\ skill !! "status" = Some (FStr "completed")
    /\ skill !! "progress" = Some (FNum 40).
Proof.
  intros w.
  destruct (completed_skill_submitted w "Rocq" "40") as (_ & Hmoved).
  - vm_compute; reflexivity.
  - vm_compute; reflexivity.
  - vm_compute; discriminate.
  - vm_compute; reflexivity.
  - exact Hmoved.
Defined.

Lemma step_leaves_category (e : Modal.Event) (w : Modal.World) :
  leavesCategory e ->
  Modal.formData (Modal.state w) !! "category" = Some (FStr "") ->
  Forall (fun c => c = Modal.PreventDefault) (Modal.calls w) ->
  Modal.formData (Modal.state (Modal.step e w)) !! "category"
  = Some (FStr "")
  /\ Forall (fun c => c = Modal.PreventDefault)
            (Modal.calls (Modal.step e w)).
Proof.
  intros He Hcat Hcalls.
  destruct e as [field value|value| | |]; simpl in *;
    try (split; assumption); try contradiction.
  - split; [|exact Hcalls].
    pose proof (formAfter_other (Modal.formData (Modal.state w)) field
                  value "category") as Hother.
    unfold formAfter in Hother. rewrite Hother by congruence. exact Hcat.
  - assert (Hpd : Forall (fun c => c = Modal.PreventDefault)
                         (Modal.calls w ++ [Modal.PreventDefault])).
    { apply Forall_app. split; [exact Hcalls|].
      constructor; [reflexivity|constructor]. }
    unfold Modal.handleSubmit.
    destruct (Modal.isSubmitting (Modal.state w)); simpl;
      [split; assumption|].
    destruct (Modal.formData (Modal.state w) !! "name") as [[s|n]|];
      simpl; try (split; assumption).
    destruct (String.eqb (trim s) ""); simpl; [split; assumption|].
    rewrite Hcat. simpl. split; assumption.
Qed.

(** X30. When no category is offered and none is created, nothing the user
    does gets a skill submitted: [addSkill] and [onClose] are never
    called. *)
Theorem no_category_no_submission (services : Modal.Services)
    (events : list Modal.Event) :
  Forall leavesCategory events ->
  let w := Modal.run events (Modal.mounted [] services) in
  Forall (fun c => c = Modal.PreventDefault) (Modal.calls w)
  /\ Modal.formData (Modal.state w) !! "category" = Some (FStr "").
Proof.
  intros Hevents w. subst w. unfold Modal.run.
  induction events as [|e events IH] using rev_ind; simpl.
  - split; [constructor|reflexivity].
  - apply Forall_app in Hevents. destruct Hevents as [Hevents He].
    inversion He as [|? ? He' _]; subst.
    destruct (IH Hevents) as [Hcalls Hcat].
    rewrite fold_left_app. simpl.
    destruct (step_leaves_category e _ He' Hcat Hcalls). split; assumption.
Qed.

Lemma no_category_no_submission_witness :
  Forall (fun c => c = Modal.PreventDefault)
    (Modal.calls
       (Modal.run [Modal.Change "name" "Rocq"; Modal.Submit;
                   Modal.Change "status" "completed"; Modal.Submit]
          (Modal.mounted [] (fun _ _ => Modal.Fulfilled)))).
Proof.
  destruct (no_category_no_submission (fun _ _ => Modal.Fulfilled)
              [Modal.Change "name" "Rocq"; Modal.Submit;
               Modal.Change "status" "completed"; Modal.Submit])
    as [Hcalls _].
  - repeat (apply List.Forall_cons; [simpl; try discriminate; exact I|]).
    apply List.Forall_nil.
  - exact Hcalls.
Defined.

(** ** The further properties at concrete inputs *)

(** Witness: moving the Friday schedule to a date given as a day. *)
Lemma updateSchedule_normalizes_date_witness :
  sent (snd (updateSchedule (rt := Sample.utc)
               (render true (store Sample.withFriday)) "id0"
               Sample.saturday Sample.withFriday))
  = sent Sample.withFriday
    ++ [Sent (PUT_schedule "id0"
                (withDate Sample.saturday "2024-03-09T00:00:00.000Z"))].
Proof.
  assert (Hid : "id0" <> "") by discriminate.
  pose proof (updateSchedule_normalizes_date (rt := Sample.utc)
                Sample.withFriday "id0" Sample.saturday Hid) as Hsent.
  vm_compute in Hsent. vm_compute. exact Hsent.
Defined.

(** Witness: marking the Saturday schedule as completed leaves the Friday
    one in the first place. *)
Lemma replacement_in_place_witness :
  let w := Sample.withBoth in
  let w' := Sample.after (UpdateSchedule "id1" Scenario.finished) w in
  nth_error (Store.schedules (store w')) 0 = Some Sample.storedFriday
  /\ length (Store.schedules (store w')) = 2%nat.
Proof.
  intros w w'.
  destruct (replacement_in_place (rt := Sample.utc) w w'
              (UpdateSchedule "id1" Scenario.finished) "id1")
    as (updated & _ & _ & Hlen & Hnth & _).
  - reflexivity.
  - vm_compute; reflexivity.
  - split.
    + assert (H0 : nth_error (Store.schedules (store w)) 0
                   = Some Sample.storedFriday) by (vm_compute; reflexivity).
      exact (Hnth 0%nat Sample.storedFriday H0).
    + rewrite Hlen. vm_compute; reflexivity.
Defined.

(** Witness: deleting the Friday schedule leaves the Saturday one; the
    same callback, called again after the cache was emptied, puts the
    Saturday schedule of its render back. *)
Lemma deleteSchedule_removes_witness :
  let w := Sample.withBoth in
  let r := render true (store w) in
  let w' := snd (deleteSchedule (rt := Sample.utc) r "id0" w) in
  let emptied :=
    {| store := emptied (store w);
       sent := sent w;
       server := server w |} in
  Store.schedules (store w') = [Sample.storedSaturday]
  /\ sent w' = sent w ++ [Sent (DELETE_schedule "id0")]
  /\ Store.schedules (store emptied) = []
  /\ Store.schedules
       (store (snd (deleteSchedule (rt := Sample.utc) r "id0" emptied)))
     = [Sample.storedSaturday].
Proof.
  intros w r w' emptied.
  destruct (deleteSchedule_removes (rt := Sample.utc) r w w' "id0")
    as (Hcache & _ & Hsent & _).
  - reflexivity.
  - vm_compute; reflexivity.
  - split; [rewrite Hcache; vm_compute; reflexivity|].
    split; [exact Hsent|]. split; [reflexivity|].
    destruct (deleteSchedule_removes (rt := Sample.utc) r emptied
                (snd (deleteSchedule (rt := Sample.utc) r "id0" emptied))
                "id0") as (Hstale & _).
    + reflexivity.
    + vm_compute; reflexivity.
    + rewrite Hstale. vm_compute; reflexivity.
Defined.

(** Witness: copying an item onto Saturday, for which a schedule is
    cached. *)
Lemma copyScheduleItem_existing_day_witness :
  let w := Sample.withBoth in
  let result :=
    copyScheduleItem (rt := Sample.utc) (render true (store w)) Sample.reading
      "2024-03-09" w in
  sent (snd result)
  = sent w ++ [Sent (POST_item "id1" (withoutId Sample.reading))]
  /\ length (Store.schedules (store (snd result))) = 2%nat.
Proof.
  intros w result.
  assert (Hfind : findThrowing (onDay (rt := Sample.utc) "2024-03-09")
                    (Store.schedules (store w))
                  = Some (Some Sample.storedSaturday))
    by (vm_compute; reflexivity).
  assert (Hv : statsFor (rt := Sample.utc) (arrayOf (Store.schedules (store w)))
               = Some (Store.stats (store w)))
    by (vm_compute; reflexivity).
  pose proof (copyScheduleItem_existing_day (rt := Sample.utc) w
                Sample.reading "2024-03-09" Sample.storedSaturday
                (Store.stats (store w)) Hfind Hv) as Hcopy.
  cbv zeta in Hcopy. destruct Hcopy as (Hsent & _ & Hresolved & _).
  split; [exact Hsent|].
  destruct (server w _ (sent w)
              (POST_item (interpolate (sched_id Sample.storedSaturday))
                         (withoutId Sample.reading)))
    as [updated|message] eqn:Hanswer.
  - destruct (Hresolved updated eq_refl) as (_ & _ & Hlen).
    unfold result. rewrite Hlen. vm_compute; reflexivity.
  - vm_compute in Hanswer. discriminate Hanswer.
Defined.

(** Witness: copying the Friday schedule onto Saturday when only the
    Friday one is cached. *)
Lemma copySchedule_fresh_day_witness :
  exists w',
    copySchedule (rt := Sample.utc) (render true (store Sample.withFriday))
      Sample.storedFriday "2024-03-09" Sample.withFriday
    = (Returned (Some Scenario.copied), w')
    /\ Store.schedules (store w')
       = [Sample.storedFriday; Scenario.copied].
Proof.
  set (w := Sample.withFriday).
  set (after := Sample.after
                  (CopySchedule Sample.storedFriday "2024-03-09") w).
  destruct (copySchedule_fresh_day (rt := Sample.utc) w
              Sample.storedFriday
              [Sample.task; Sample.note; Sample.reading]
              "2024-03-09" Sample.march9 (Some Scenario.copied)
              (Store.stats (store after)))
    as (w' & Hrun & Hcache & _).
  - vm_compute; reflexivity.
  - vm_compute; reflexivity.
  - vm_compute; reflexivity.
  - vm_compute; reflexivity.
  - vm_compute; reflexivity.
  - exists w'. split; [exact Hrun|]. rewrite Hcache.
    unfold w. rewrite withFriday_cache. reflexivity.
Defined.

(** Witness: copying a schedule without items onto Saturday deletes the
    Saturday schedule and creates nothing. *)
Lemma copySchedule_source_without_items_witness :
  let w := Sample.withBoth in
  let result :=
    copySchedule (rt := Sample.utc) (render true (store w)) Sample.bare
      "2024-03-09" w in
  fst result = Threw TypeError
  /\ Store.schedules (store (snd result)) = [Sample.storedFriday]
  /\ sent (snd result) = sent w ++ [Sent (DELETE_schedule "id1")].
Proof.
  intros w result.
  assert (Hparse : @parseDate Sample.utc "2024-03-09" = Some Sample.march9)
    by (vm_compute; reflexivity).
  assert (Hitems : items Sample.bare = None) by reflexivity.
  pose proof (copySchedule_source_without_items (rt := Sample.utc) w
                Sample.bare "2024-03-09" Sample.march9 Hparse Hitems)
    as Hcopy.
  cbv zeta in Hcopy. destruct Hcopy as (Hexisting & _).
  destruct (Hexisting Sample.storedSaturday)
    as (Hthrew & Hcache & _ & Hsent).
  - vm_compute; reflexivity.
  - vm_compute; reflexivity.
  - split; [exact Hthrew|]. split; [|exact Hsent].
    unfold result. rewrite Hcache. vm_compute; reflexivity.
Defined.

(** Witness: a target date that is no date. *)
Lemma copy_unreadable_target_witness :
  let w := Sample.withFriday in
  let r := render true (store w) in
  fst (copyScheduleItem (rt := Sample.utc) r Sample.task "next week" w)
  = Threw RangeError
  /\ fst (copySchedule (rt := Sample.utc) r Sample.storedFriday "next week" w)
     = Threw RangeError
  /\ sent (snd (copyScheduleItem (rt := Sample.utc) r Sample.task "next week" w))
     = sent w.
Proof.
  intros w r.
  assert (Hparse : @parseDate Sample.utc "next week" = None)
    by (vm_compute; reflexivity).
  assert (Hfind : findThrowing (onDay (rt := Sample.utc) "next week")
                    (Store.schedules (store w)) = Some None)
    by (vm_compute; reflexivity).
  pose proof (copy_unreadable_target (rt := Sample.utc) w Sample.task
                Sample.storedFriday "next week" Hparse Hfind) as Hcopy.
  cbv zeta in Hcopy. destruct Hcopy as (Hitem & Hschedule & Hsent & _).
  split; [exact Hitem|]. split; [exact Hschedule|exact Hsent].
Defined.

(** Witness: the hook mounts with [loading] true; a copy that fails for
    want of a readable date ends with [loading] false. *)
Lemma loading_after_mutation_witness :
  let w := Sample.mounted Backend.honest in
  Store.loading (store w) = true
  /\ Store.loading
       (store (Sample.after (CopyScheduleItem Sample.task "next week") w))
     = false.
Proof.
  intros w. split; [reflexivity|].
  apply (loading_after_mutation (rt := Sample.utc) w _
           (CopyScheduleItem Sample.task "next week")
           (fst (mutate (rt := Sample.utc) (render true (store w))
                   (CopyScheduleItem Sample.task "next week") w))).
  apply surjective_pairing.
Defined.

(** Witness: fetching the categories leaves the two cached schedules. *)
Lemma operation_frame_witness :
  let w := Sample.withBoth in
  let w' := snd (perform (rt := Sample.utc) (render true (store w))
                   FetchCategories w) in
  Store.schedules (store w') = Store.schedules (store w)
  /\ Store.stats (store w') = Store.stats (store w).
Proof.
  intros w w'.
  destruct (operation_frame (rt := Sample.utc) true w w' FetchCategories
              (fst (perform (rt := Sample.utc) (render true (store w))
                      FetchCategories w)))
    as (Hcache & Hstats & _).
  - apply surjective_pairing.
  - split; [exact Hcache|exact Hstats].
Defined.

(** Witness: on 2024-03-09 only the Saturday schedule, with its one item,
    is today's. *)
Lemma todayItems_counts_today_witness :
  1%nat = length (allItems (List.filter (datedToday (rt := Sample.utc))
                              [Sample.storedFriday; Sample.storedSaturday]))
  /\ (1 <= @totalItems [Sample.storedFriday; Sample.storedSaturday])%nat.
Proof.
  apply (todayItems_counts_today (rt := Sample.utc)
           [Sample.storedFriday; Sample.storedSaturday] 1).
  vm_compute; reflexivity.
Defined.

(** Witness: of the labels "DSA" and "Learning", one item each, the top
    category is the first. *)
Lemma topCategory_first_maximal_witness :
  exists n,
    n = count_occ string_dec
          (labels (allItems [Sample.storedFriday; Sample.storedSaturday]))
          (topCategory [Sample.storedFriday; Sample.storedSaturday])
    /\ (forall k,
          (count_occ string_dec
             (labels (allItems [Sample.storedFriday; Sample.storedSaturday]))
             k <= n)%nat).
Proof.
  destruct (topCategory_first_maximal
              [Sample.storedFriday; Sample.storedSaturday])
    as (_ & n & _ & _ & _ & _ & Hn & Hmax & _).
  - vm_compute; discriminate.
  - assert (Hlabels : labels (allItems [Sample.storedFriday;
                                        Sample.storedSaturday])
                      = ["DSA"; "Learning"]) by (vm_compute; reflexivity).
    rewrite Hlabels.
    repeat (apply List.Forall_cons; [vm_compute; reflexivity|]).
    apply List.Forall_nil.
  - exists n. split; [exact Hn|exact Hmax].
Defined.

(** Witness: adding an item to the Friday schedule. *)
Lemma mutation_stats_recomputed_witness :
  let w' := Sample.after (AddScheduleItem "id0" Sample.reading)
              Sample.withFriday in
  statsFor (rt := Sample.utc) (arrayOf (Store.schedules (store w')))
  = Some (Store.stats (store w'))
  /\ Stats.totalTasks (Store.stats (store w')) = 4%nat.
Proof.
  intros w'. split; [|vm_compute; reflexivity].
  apply (mutation_stats_recomputed (rt := Sample.utc)
           (render true (store Sample.withFriday)) Sample.withFriday w'
           (AddScheduleItem "id0" Sample.reading)).
  - reflexivity.
  - reflexivity.
  - intros item targetDate. discriminate.
  - intros sourceSchedule targetDate Hcopy. discriminate Hcopy.
  - vm_compute; reflexivity.
Defined.

(** The premise matters: two [createSchedule] calls made by the callback
    of one render leave four items cached, and statistics that count
    one. *)
Lemma createSchedule_twice_from_one_render :
  let w := Sample.mounted Backend.honest in
  let r := render true (store w) in
  let w1 := snd (createSchedule (rt := Sample.utc) r Sample.friday w) in
  let w2 := snd (createSchedule (rt := Sample.utc) r Sample.saturday w1) in
  length (allItems (Store.schedules (store w2))) = 4%nat
  /\ Stats.totalTasks (Store.stats (store w2)) = 1%nat.
Proof. split; vm_compute; reflexivity. Qed.

(** Witness: a second call while the first is in flight. *)
Lemma fetchCategories_in_flight_witness :
  fetchCategories (render true (store Scenario.fetching)) Scenario.fetching
  = (Returned ["DSA"], Scenario.fetching).
Proof.
  apply (fetchCategories_in_flight Scenario.fetching).
  reflexivity.
Defined.

(** Witness: the backend that holds the two schedules returns them. *)
Lemma fetchSchedules_settles_witness :
  let w := Sample.withBoth in
  let result :=
    fetchSchedules (rt := Sample.utc) (render true (store w)) None None None w in
  fst result = Returned (Some [Sample.storedFriday; Sample.storedSaturday])
  /\ Store.schedules (store (snd result))
     = [Sample.storedFriday; Sample.storedSaturday]
  /\ Store.error (store (snd result)) = None.
Proof.
  intros w result.
  pose proof (fetchSchedules_settles (rt := Sample.utc) w None None None)
    as Hfetch.
  cbv zeta in Hfetch. destruct Hfetch as (_ & _ & _ & _ & Hresolved).
  assert (Hanswer : server w _ (sent w)
                      (GET_schedules {| p_startDate := ifTruthy None;
                                        p_endDate := ifTruthy None;
                                        p_status := ifTruthy None |})
                    = Resolves (Some [Sample.storedFriday;
                                      Sample.storedSaturday]))
    by (vm_compute; reflexivity).
  specialize (Hresolved _ Hanswer). cbv beta iota zeta in Hresolved.
  assert (Hv : statsFor (rt := Sample.utc)
                 (arrayOf [Sample.storedFriday; Sample.storedSaturday])
               = Some (Store.stats (store w)))
    by (vm_compute; reflexivity).
  rewrite Hv in Hresolved.
  destruct Hresolved as (Hreturned & Hcache & _ & Herror).
  split; [exact Hreturned|]. split; [exact Hcache|exact Herror].
Defined.

(** Witness: one schedule with an unreadable date among readable ones. *)
Lemma calculateStats_throws_iff_witness :
  statsFor (rt := Sample.utc) (arrayOf [Sample.storedFriday; Sample.undated])
  = None.
Proof.
  apply (calculateStats_throws_iff (rt := Sample.utc)
           [Sample.storedFriday; Sample.undated]).
  apply Exists_cons_tl, Exists_cons_hd. vm_compute; reflexivity.
Defined.

(** Witness: a deletion and a fetch of the categories send at most four
    requests. *)
Lemma requests_only_appended_witness :
  let ops := [Mutate (DeleteSchedule "id0"); FetchCategories] in
  (length (sent (session (rt := Sample.utc) true ops Sample.withFriday))
   <= length (sent Sample.withFriday) + 4)%nat.
Proof.
  intros ops.
  destruct (requests_only_appended (rt := Sample.utc) true Sample.withFriday)
    as (_ & Hsession).
  destruct (Hsession ops) as (_ & Hlen). exact Hlen.
Defined.
